(** * vxhunter symbol utilities: a shallow embedding of [symbol.py]

    The module [firmware_tools/ghidra/vxhunter_utility/symbol.py] runs under
    Ghidra's Jython 2.7 interpreter.  Its string functions are embedded
    as total Rocq functions over [string] (a Python 2 [str] is a sequence of
    8-bit characters); the functions that talk to Ghidra are embedded in a
    state-and-trace monad over an abstract program database. *)

From Stdlib Require Import ZArith List String Ascii Bool Lia.
Import ListNotations.

Local Open Scope string_scope.
Local Open Scope Z_scope.

(** ** Exceptions and outcomes *)

(** The exception values that reach the handlers of [symbol.py], by class.
    Ghidra's [CodeUnitInsertionException] and [DemangledException] are
    subclasses of [java.lang.Exception]; [JavaException] stands for any other
    subclass of it, [JavaError] for a [java.lang.Throwable] outside it,
    [PyException] for a subclass of Python's [Exception] ([IndexError],
    [AttributeError], [struct.error], ...) and [PyBaseException] for the
    Python exceptions outside [Exception] ([KeyboardInterrupt],
    [SystemExit]). *)
Inductive exn : Type :=
| CodeUnitInsertionException
| DemangledException
| JavaException (cls : string)
| JavaError (cls : string)
| PyException (cls : string)
| PyBaseException (cls : string).

(** What a call does: it returns a value, raises, or (for the model of a
    [while True] loop only) exhausts the fuel it was given. *)
Inductive outcome (A : Type) : Type :=
| Ret (a : A)
| Exc (e : exn)
| OutOfFuel.

Arguments Ret {A} a.
Arguments Exc {A} e.
Arguments OutOfFuel {A}.

Definition obind {A B : Type} (o : outcome A) (k : A -> outcome B) : outcome B :=
  match o with
  | Ret a => k a
  | Exc e => Exc e
  | OutOfFuel => OutOfFuel
  end.

Declare Scope py_scope.
Delimit Scope py_scope with py.
Notation "x <- c ;; k" := (obind c (fun x => k))
  (at level 61, c at next level, right associativity) : py_scope.

(** ** Python 2 string primitives *)

Module PyStr.

Definition IndexError : exn := PyException "IndexError".
Definition struct_error : exn := PyException "struct.error".

Definition len (s : string) : Z := Z.of_nat (String.length s).

(** [s[i]]: a negative index counts from the end; outside the string the
    access raises [IndexError]. *)
Definition index (s : string) (i : Z) : outcome ascii :=
  let j := if i <? 0 then i + len s else i in
  if (0 <=? j) && (j <? len s) then
    match String.get (Z.to_nat j) s with
    | Some c => Ret c
    | None => Exc IndexError
    end
  else Exc IndexError.

(** The adjustment Python applies to one bound of a slice. *)
Definition clamp (n i : Z) : Z :=
  let j := if i <? 0 then i + n else i in
  if j <? 0 then 0 else if n <? j then n else j.

(** [s[lo:hi]]; [None] is an omitted bound.  A slice never raises. *)
Definition slice (s : string) (lo hi : option Z) : string :=
  let n := len s in
  let a := match lo with None => 0 | Some i => clamp n i end in
  let b := match hi with None => n | Some i => clamp n i end in
  if b <=? a then EmptyString else String.substring (Z.to_nat a) (Z.to_nat (b - a)) s.

(** [p] is a prefix of [s]. *)
Fixpoint startswith (p s : string) : bool :=
  match p, s with
  | EmptyString, _ => true
  | String _ _, EmptyString => false
  | String a p', String b s' => Ascii.eqb a b && startswith p' s'
  end.

(** [needle in hay] on two [str] values: the substring test. *)
Fixpoint contains (needle hay : string) : bool :=
  startswith needle hay ||
  match hay with
  | EmptyString => false
  | String _ hay' => contains needle hay'
  end.

(** [x in l] on a list of strings. *)
Definition in_list (x : string) (l : list string) : bool :=
  existsb (String.eqb x) l.

Definition lower_char (c : ascii) : ascii :=
  let n := nat_of_ascii c in
  if (65 <=? n)%nat && (n <=? 90)%nat then ascii_of_nat (n + 32) else c.

(** [s.lower()] in the C locale. *)
Fixpoint lower (s : string) : string :=
  match s with
  | EmptyString => EmptyString
  | String c s' => String (lower_char c) (lower s')
  end.

(** [string.letters] and [string.digits] in the C locale. *)
Definition letters : string :=
  "abcdefghijklmnopqrstuvwxyzABCDEFGHIJKLMNOPQRSTUVWXYZ".
Definition digits : string := "0123456789".

(** [struct.unpack('>I', b)[0]] and [struct.unpack('<I', b)[0]]: the
    argument must hold exactly four bytes. *)
Definition byte_val (c : ascii) : Z := Z.of_nat (nat_of_ascii c).

Definition unpack_I (big_endian : bool) (b : string) : outcome Z :=
  match b with
  | String b0 (String b1 (String b2 (String b3 EmptyString))) =>
      if big_endian
      then Ret (((byte_val b0 * 256 + byte_val b1) * 256 + byte_val b2) * 256
                + byte_val b3)
      else Ret (((byte_val b3 * 256 + byte_val b2) * 256 + byte_val b1) * 256
                + byte_val b0)
  | _ => Exc struct_error
  end.

End PyStr.

(** ** Module-level constants of [symbol.py] *)

Definition function_name_key_words : list string := ["bzero"; "usrInit"; "bfill"].

Definition need_create_function : list Z := [0x04; 0x05].

Definition function_name_chaset : string :=
  PyStr.letters ++ PyStr.digits ++ "_:.<>,*" ++ "()~+-=/%".

Definition ghidra_builtin_types : list string :=
  [ "bool"; "byte"; "complex16"; "complex32"; "complex8"; "doublecomplex";
    "dwfenc"; "dword"; "filetime"; "float10"; "float16"; "float2"; "float4";
    "float8"; "floatcomplex"; "guid"; "imagebaseoffset32";
    "imagebaseoffset64"; "int16"; "int3"; "int5"; "int6"; "int7"; "long";
    "longdouble"; "longdoublecomplex"; "longlong"; "mactime"; "prel31";
    "qword"; "sbyte"; "schar"; "sdword"; "segmentedcodeaddress";
    "shiftedaddress"; "sqword"; "sword"; "uchar"; "uint"; "uint16"; "uint3";
    "uint5"; "uint6"; "uint7"; "ulong"; "ulonglong"; "undefined";
    "undefined1"; "undefined2"; "undefined3"; "undefined4"; "undefined5";
    "undefined6"; "undefined7"; "undefined8"; "ushort"; "wchar_t"; "wchar16";
    "wchar32"; "word" ].

(** ** [check_is_func_name] *)

(** The [for c in function_name] loop: [False] at the first character that is
    not in [function_name_chaset]. *)
Fixpoint all_in_chaset (function_name : string) : bool :=
  match function_name with
  | EmptyString => true
  | String c rest =>
      if negb (PyStr.contains (String c EmptyString) function_name_chaset)
      then false
      else all_in_chaset rest
  end.

Definition check_is_func_name (function_name : string) : bool :=
  if 512 <? PyStr.len function_name then false
  else if negb (all_in_chaset function_name) then false
  else if PyStr.in_list (PyStr.lower function_name) ghidra_builtin_types then false
  else true.

(** ** [demangle_function] *)

Definition is_char (c : ascii) (lit : string) : bool :=
  String.eqb (String c EmptyString) lit.

(** The parameter loop, [while index >= 0], entered with [index = k - 1]:
    the recursion is on [k = index + 1], which every iteration decrements.
    The result is the value of [index] when the loop is left. *)
Fixpoint scan_parameters (demangle_string : string) (k : nat)
    (parentheses_count : Z) : outcome Z :=
  match k with
  | O => Ret (-1)
  | S i =>
      let index := Z.of_nat i in
      (c <- PyStr.index demangle_string index ;;
       let parentheses_count :=
         if is_char c ")" then parentheses_count + 1
         else if is_char c "(" then parentheses_count - 1
         else parentheses_count in
       let index := index - 1 in
       if parentheses_count =? 0 then Ret index
       else scan_parameters demangle_string i parentheses_count)%py
  end.

(** The name loop, again [while index >= 0] with [index = k - 1].  It yields
    the final [(index, function_name_end, function_name)]. *)
Fixpoint scan_name (demangle_string : string) (k : nat) (function_name_end : Z)
    : outcome (Z * Z * option string) :=
  match k with
  | O => Ret (-1, function_name_end, None)
  | S i =>
      let index := Z.of_nat i in
      (c <- PyStr.index demangle_string index ;;
       if is_char c " " then
         let temp_data :=
           PyStr.slice demangle_string (Some (index + 1))
                       (Some (function_name_end + 1)) in
         if String.eqb temp_data "*" then
           scan_name demangle_string i index
         else if check_is_func_name temp_data then
           Ret (index, function_name_end, Some temp_data)
         else
           scan_name demangle_string i index
       else if index =? 0 then
         (e <- PyStr.index demangle_string function_name_end ;;
          let temp_data :=
            if is_char e " "
            then PyStr.slice demangle_string (Some index) (Some function_name_end)
            else PyStr.slice demangle_string (Some index)
                             (Some (function_name_end + 1)) in
          Ret (index, function_name_end,
               if check_is_func_name temp_data then Some temp_data else None))
       else
         scan_name demangle_string i function_name_end)%py
  end.

(** The result is [(function_return, function_name, function_parameters)];
    each of the three starts as [None] in the source. *)
Definition demangle_function (demangle_string : string)
    : outcome (option string * option string * option string) :=
  let function_name_end := PyStr.len demangle_string - 1 in
  let index := PyStr.len demangle_string - 1 in
  (last <- PyStr.index demangle_string (-1) ;;
   p <- (if is_char last ")" then
           (index <- scan_parameters demangle_string (Z.to_nat (index + 1)) 0 ;;
            Ret (index, index))
         else Ret (index, function_name_end)) ;;
   let '(index, function_name_end) := p in
   r <- scan_name demangle_string (Z.to_nat (index + 1)) function_name_end ;;
   let '(index, function_name_end, function_name) := r in
   let function_name_start := index in
   let function_parameters :=
     Some (PyStr.slice demangle_string (Some (function_name_end + 1)) None) in
   let function_return :=
     if negb (index =? 0)
     then Some (PyStr.slice demangle_string None (Some function_name_start))
     else None in
   Ret (function_return, function_name, function_parameters))%py.

(** ** [is_vx_symbol_file] *)

(** The loop over [function_name_key_words]: [true] when some key word is
    missing from [file_data] (the source returns [False] there). *)
Fixpoint key_function_missing (keys : list string) (file_data : string) : bool :=
  match keys with
  | [] => false
  | key_function :: keys' =>
      if negb (PyStr.contains key_function file_data) then true
      else key_function_missing keys' file_data
  end.

Definition is_vx_symbol_file (file_data : string) (is_big_endian : bool)
    : outcome bool :=
  if key_function_missing function_name_key_words file_data then Ret false
  else if is_big_endian then
    (v <- PyStr.unpack_I true (PyStr.slice file_data None (Some 4)) ;;
     Ret (v =? PyStr.len file_data))%py
  else
    (v <- PyStr.unpack_I false (PyStr.slice file_data None (Some 4)) ;;
     Ret (v =? PyStr.len file_data))%py.

(** ** Exception classes and [except] clauses *)

(** The classes named by the [except] clauses of [symbol.py]; [AnyClass] is
    the bare [except:]. *)
Inductive exc_class : Type :=
| cls_CodeUnitInsertionException
| cls_DemangledException
| cls_java_lang_Exception
| cls_Exception
| cls_BaseException
| AnyClass.

(** Whether an [except] clause for the class takes the exception.  Under
    Jython a Java throwable is an instance of the Java classes it extends
    and of no Python exception class, so [except Exception] and
    [except BaseException] take Python exceptions only. *)
Definition isinstance (e : exn) (c : exc_class) : bool :=
  match c, e with
  | cls_CodeUnitInsertionException, CodeUnitInsertionException => true
  | cls_DemangledException, DemangledException => true
  | cls_java_lang_Exception,
    (CodeUnitInsertionException | DemangledException | JavaException _) => true
  | cls_Exception, PyException _ => true
  | cls_BaseException, (PyException _ | PyBaseException _) => true
  | AnyClass, _ => true
  | _, _ => false
  end.

(** ** Ghidra's program database *)

(** An address of the default address space. *)
Record Address : Type := mkAddress { getOffset : Z }.

Definition Address_eqb (a b : Address) : bool := getOffset a =? getOffset b.

(** The structure types of [vx_structs] that the walkers apply. *)
Inductive DataType : Type :=
| vx_5_cl_buff
| vx_5_clPool
| vx_5_pool_func_tbl
| vx_5_net_pool
| vx_5_pool_stat
| vx_5_wind_tcb.

(** What a call into Ghidra answers. *)
Inductive answer (A : Type) : Type :=
| Returns (a : A)
| Raises (e : exn).

Arguments Returns {A} a.
Arguments Raises {A} e.

(** The interface [symbol.py] consumes.  The first group is fixed for the
    run: the conversions of [common], the memory image and its address
    range, the demangler switch, and the constants of [vx_structs], all of
    them declared outside this file.  The second group reads or changes the
    program database, whose states are the values of [World]; each call
    answers and leaves a new state. *)
Record Host : Type := {
  World : Type;
  Data : Type;
  Function : Type;
  CodeUnit : Type;
  DemangledObject : Type;

  max_offset : Z;
  toAddr : Z -> Address;
  vx_toAddr : Z -> Address;
  is_address_in_current_program : Address -> bool;
  getInt : Address -> answer Z;
  can_demangle : bool;
  getSignature : DemangledObject -> option string;
  getLength : DataType -> Z;
  VX_5_CL_TBL_SIZE : Z;
  vx_5_pool_func_dict : list string;

  api_getDataAt : Address -> World -> answer (option Data) * World;
  api_removeDataAt : Address -> World -> answer unit * World;
  api_createAsciiString : Address -> World -> answer string * World;
  api_getInstructionAt : Address -> World -> answer bool * World;
  api_removeInstructionAt : Address -> World -> answer unit * World;
  api_disassemble : Address -> World -> answer unit * World;
  api_createFunction :
    Address -> string -> World -> answer (option Function) * World;
  api_setName : Function -> string -> World -> answer unit * World;
  api_createLabel : Address -> string -> bool -> World -> answer unit * World;
  api_getCodeUnitAt : Address -> World -> answer (option CodeUnit) * World;
  api_setComment : CodeUnit -> string -> World -> answer unit * World;
  api_createData : Address -> DataType -> World -> answer unit * World;
  api_getFunctionAt : Address -> World -> answer (option Function) * World;
  api_demangle :
    string -> bool -> World -> answer (option DemangledObject) * World
}.

(** The records the walkers return; a key a walker leaves at [None] is
    [None] here. *)
Record ClPoolInfo : Type := {
  cl_pool_addr : Z;
  cl_pool_size : option Z;
  cl_pool_num : option Z;
  cl_pool_num_free : option Z;
  cl_pool_usage : option Z;
  cl_head_addr : option Z
}.

Record NetPoolInfo : Type := {
  pool_addr : Z;
  pool_table_addr : option Z;
  pool_status_addr : option Z;
  pool_func_tbl_addr : option Z;
  cl_pool_info : list ClPoolInfo
}.

Definition of_answer {A : Type} (r : answer A) : outcome A :=
  match r with
  | Returns a => Ret a
  | Raises e => Exc e
  end.

(** [range(n)]. *)
Definition range (n : Z) : list Z := map Z.of_nat (seq 0 (Z.to_nat n)).

(** The truth value of a [str]. *)
Definition truthy (s : string) : bool := negb (String.eqb s EmptyString).

Section Embedding.

Variable H : Host.

Record TcbInfo : Type := {
  tcb_addr : Z;
  task_name : option (Data H);
  task_entry_addr : option Z;
  task_entry_name : option (Function H);
  task_stack_base : option Z;
  task_stack_limit : option Z;
  task_stack_limit_end : option Z
}.

(** [Address.add]: outside the address space it raises
    [AddressOutOfBoundsException]. *)
Definition add (a : Address) (displacement : Z) : outcome Address :=
  let offset := getOffset a + displacement in
  if (0 <=? offset) && (offset <=? max_offset H)
  then Ret (mkAddress offset)
  else Exc (JavaException "AddressOutOfBoundsException").

(** One call into the program database, with what it answered.  The calls
    to the logger are left out. *)
Inductive event : Type :=
| EvGetDataAt (a : Address) (r : answer (option (Data H)))
| EvRemoveDataAt (a : Address) (r : answer unit)
| EvCreateAsciiString (a : Address) (r : answer string)
| EvGetInstructionAt (a : Address) (r : answer bool)
| EvRemoveInstructionAt (a : Address) (r : answer unit)
| EvDisassemble (a : Address) (r : answer unit)
| EvCreateFunction (a : Address) (name : string)
    (r : answer (option (Function H)))
| EvSetName (f : Function H) (name : string) (r : answer unit)
| EvCreateLabel (a : Address) (name : string) (primary : bool)
    (r : answer unit)
| EvGetCodeUnitAt (a : Address) (r : answer (option (CodeUnit H)))
| EvSetComment (cu : CodeUnit H) (text : string) (r : answer unit)
| EvCreateData (a : Address) (dt : DataType) (r : answer unit)
| EvGetFunctionAt (a : Address) (r : answer (option (Function H)))
| EvDemangle (mangled : string) (hint : bool)
    (r : answer (option (DemangledObject H))).

(** A computation over the program database: from a state, an outcome, the
    state reached and the calls made, in order. *)
Definition M (A : Type) : Type := World H -> outcome A * World H * list event.

Definition ret {A : Type} (a : A) : M A := fun w => (Ret a, w, []).

Definition lift {A : Type} (o : outcome A) : M A := fun w => (o, w, []).

Definition bind {A B : Type} (m : M A) (k : A -> M B) : M B :=
  fun w =>
    match m w with
    | (Ret a, w1, t1) => let '(r, w2, t2) := k a w1 in (r, w2, (t1 ++ t2)%list)
    | (Exc e, w1, t1) => (Exc e, w1, t1)
    | (OutOfFuel, w1, t1) => (OutOfFuel, w1, t1)
    end.

Definition call {A : Type} (op : World H -> answer A * World H)
    (ev : answer A -> event) : M A :=
  fun w => let '(r, w1) := op w in (of_answer r, w1, [ev r]).

(** The first clause, in order, that takes the exception. *)
Fixpoint select_clause {A : Type} (clauses : list (exc_class * M A)) (e : exn)
    : option (M A) :=
  match clauses with
  | [] => None
  | (c, handler) :: rest =>
      if isinstance e c then Some handler else select_clause rest e
  end.

(** [try: body except c1: h1 except c2: h2 ...]. *)
Definition try_except {A : Type} (body : M A) (clauses : list (exc_class * M A))
    : M A :=
  fun w =>
    match body w with
    | (Exc e, w1, t1) =>
        match select_clause clauses e with
        | Some handler => let '(r, w2, t2) := handler w1 in (r, w2, (t1 ++ t2)%list)
        | None => (Exc e, w1, t1)
        end
    | other => other
    end.

Declare Scope host_scope.
Delimit Scope host_scope with host.
Notation "x <- c ;; k" := (bind c (fun x => k))
  (at level 61, c at next level, right associativity) : host_scope.
Local Open Scope host_scope.

Fixpoint for_each {A : Type} (l : list A) (body : A -> M unit) : M unit :=
  match l with
  | [] => ret tt
  | x :: rest => _ <- body x ;; for_each rest body
  end.

(** *** The calls *)

Definition getDataAt (a : Address) : M (option (Data H)) :=
  call (api_getDataAt H a) (EvGetDataAt a).
Definition removeDataAt (a : Address) : M unit :=
  call (api_removeDataAt H a) (EvRemoveDataAt a).
(** [createAsciiString(a).getValue()]. *)
Definition createAsciiString (a : Address) : M string :=
  call (api_createAsciiString H a) (EvCreateAsciiString a).
Definition getInstructionAt (a : Address) : M bool :=
  call (api_getInstructionAt H a) (EvGetInstructionAt a).
Definition removeInstructionAt (a : Address) : M unit :=
  call (api_removeInstructionAt H a) (EvRemoveInstructionAt a).
Definition disassemble (a : Address) : M unit :=
  call (api_disassemble H a) (EvDisassemble a).
Definition createFunction (a : Address) (name : string)
    : M (option (Function H)) :=
  call (api_createFunction H a name) (EvCreateFunction a name).
(** [function.setName(name, SourceType.USER_DEFINED)]. *)
Definition setName (f : Function H) (name : string) : M unit :=
  call (api_setName H f name) (EvSetName f name).
Definition createLabel (a : Address) (name : string) (primary : bool) : M unit :=
  call (api_createLabel H a name primary) (EvCreateLabel a name primary).
(** [listing.getCodeUnitAt(a)]. *)
Definition getCodeUnitAt (a : Address) : M (option (CodeUnit H)) :=
  call (api_getCodeUnitAt H a) (EvGetCodeUnitAt a).
(** [codeUnit.setComment(codeUnit.PLATE_COMMENT, text)]; on [None] the
    attribute access raises [AttributeError]. *)
Definition setComment (codeUnit : option (CodeUnit H)) (text : string) : M unit :=
  match codeUnit with
  | Some cu => call (api_setComment H cu text) (EvSetComment cu text)
  | None => lift (Exc (PyException "AttributeError"))
  end.
Definition createData (a : Address) (dt : DataType) : M unit :=
  call (api_createData H a dt) (EvCreateData a dt).
Definition getFunctionAt (a : Address) : M (option (Function H)) :=
  call (api_getFunctionAt H a) (EvGetFunctionAt a).
(** [demangler.demangle(mangled, hint)]. *)
Definition demangle (mangled : string) (hint : bool)
    : M (option (DemangledObject H)) :=
  call (api_demangle H mangled hint) (EvDemangle mangled hint).
(** [toAddr(getInt(a))]. *)
Definition read_pointer (a : Address) : M Address :=
  v <- lift (of_answer (getInt H a)) ;; ret (toAddr H v).

(** *** [demangled_symbol] *)

Definition demangled_symbol (symbol_string : string) : M (option string) :=
  if can_demangle H then
    sym_demangled <-
      try_except
        (sym_demangled <- demangle symbol_string true ;;
         match sym_demangled with
         | None => demangle symbol_string false
         | Some _ => ret sym_demangled
         end)
        [ (cls_DemangledException, ret None);
          (cls_java_lang_Exception, ret None) ] ;;
    sym_demangled <-
      match sym_demangled with
      | None =>
          try_except
            (demangle (PyStr.slice symbol_string (Some 1) None) false)
            [ (cls_DemangledException, ret None);
              (cls_java_lang_Exception, ret None) ]
      | Some _ => ret sym_demangled
      end ;;
    match sym_demangled with
    | Some d => ret (getSignature H d)
    | None => ret None
    end
  else ret None.

(** *** [add_symbol] *)

(** Lines 229 to 247, the name of the symbol: [Some] of the name string to
    go on with, [None] where the source returns. *)
Definition symbol_name_phase (symbol_name : string) (symbol_name_address : Z)
    : M (option string) :=
  let symbol_name_string := symbol_name in
  if negb (symbol_name_address =? 0) then
    let symbol_name_address := vx_toAddr H symbol_name_address in
    d <- getDataAt symbol_name_address ;;
    _ <- match d with
         | Some _ => removeDataAt symbol_name_address
         | None => ret tt
         end ;;
    try_except
      (v <- createAsciiString symbol_name_address ;; ret (Some v))
      [ (cls_CodeUnitInsertionException, ret (Some symbol_name_string));
        (cls_BaseException, ret None) ]
  else ret (Some symbol_name_string).

(** Lines 250 to 302, once the name string is known. *)
Definition symbol_create_phase (symbol_address : Address)
    (symbol_name_string : string) (symbol_type : Z) : M unit :=
  i <- getInstructionAt symbol_address ;;
  _ <- (if i then removeInstructionAt symbol_address else ret tt) ;;
  try_except
    (sym_demangled_name <- demangled_symbol symbol_name_string ;;
     if truthy symbol_name_string &&
        existsb (Z.eqb symbol_type) need_create_function
     then
       _ <- disassemble symbol_address ;;
       function <- createFunction symbol_address symbol_name_string ;;
       _ <- match function with
            | Some f => setName f symbol_name_string
            | None => createLabel symbol_address symbol_name_string true
            end ;;
       match function, sym_demangled_name with
       | Some f, Some signature =>
           if truthy signature then
             codeUnit <- getCodeUnitAt symbol_address ;;
             _ <- setComment codeUnit signature ;;
             parsed <- lift (demangle_function signature) ;;
             let '(function_return, function_name, function_parameters) :=
               parsed in
             _ <- match function_name with
                  | Some name =>
                      if truthy name then setName f name else ret tt
                  | None => ret tt
                  end ;;
             createLabel symbol_address symbol_name_string true
           else ret tt
       | _, _ => ret tt
       end
     else
       _ <- createLabel symbol_address symbol_name_string true ;;
       match sym_demangled_name with
       | Some signature =>
           if truthy signature then
             codeUnit <- getCodeUnitAt symbol_address ;;
             setComment codeUnit signature
           else ret tt
       | None => ret tt
       end)
    [ (cls_Exception, ret tt) ].

Definition add_symbol (symbol_name : string) (symbol_name_address : Z)
    (symbol_address : Z) (symbol_type : Z) : M unit :=
  let symbol_address := vx_toAddr H symbol_address in
  name <- symbol_name_phase symbol_name symbol_name_address ;;
  match name with
  | None => ret tt
  | Some symbol_name_string =>
      symbol_create_phase symbol_address symbol_name_string symbol_type
  end.

(** *** [create_struct] *)

Definition create_struct (data_address : Address) (data_struct : DataType)
    (overwrite : bool) : M unit :=
  if negb (is_address_in_current_program H data_address) then ret tt
  else
    try_except
      (_ <- (if overwrite then
               for_each (range (getLength H data_struct))
                 (fun offset =>
                    a <- lift (add data_address offset) ;; removeDataAt a)
             else ret tt) ;;
       createData data_address data_struct)
      [ (AnyClass, ret tt) ].

(** *** The kernel object walkers *)

(** The [while True] loop of [fix_cl_buff_chain]; one unit of fuel per
    iteration. *)
Fixpoint cl_buff_chain_loop (fuel : nat) (cl_buff_addr next_cl_buff_addr : Address)
    : M unit :=
  match fuel with
  | O => lift OutOfFuel
  | S fuel' =>
      if is_address_in_current_program H next_cl_buff_addr then
        _ <- create_struct next_cl_buff_addr vx_5_cl_buff true ;;
        next_cl_buff_addr <- read_pointer next_cl_buff_addr ;;
        if Address_eqb next_cl_buff_addr cl_buff_addr then ret tt
        else cl_buff_chain_loop fuel' cl_buff_addr next_cl_buff_addr
      else ret tt
  end.

(** Every path of [fix_cl_buff_chain] returns [None], here [tt]. *)
Definition fix_cl_buff_chain (fuel : nat) (cl_buff_addr : Address)
    (vx_version : Z) : M unit :=
  if vx_version =? 5 then
    if getOffset cl_buff_addr =? 0 then ret tt
    else cl_buff_chain_loop fuel cl_buff_addr cl_buff_addr
  else ret tt.

Definition fix_clpool (fuel : nat) (clpool_addr : Address) (vx_version : Z)
    : M (option ClPoolInfo) :=
  let cl_pool_info :=
    {| cl_pool_addr := getOffset clpool_addr; cl_pool_size := None;
       cl_pool_num := None; cl_pool_num_free := None; cl_pool_usage := None;
       cl_head_addr := None |} in
  if vx_version =? 5 then
    if getOffset clpool_addr =? 0 then ret None
    else if is_address_in_current_program H clpool_addr then
      _ <- create_struct clpool_addr vx_5_clPool true ;;
      a <- lift (add clpool_addr 0x14) ;;
      cl_head <- read_pointer a ;;
      a <- lift (add clpool_addr 0x00) ;;
      size <- lift (of_answer (getInt H a)) ;;
      a <- lift (add clpool_addr 0x08) ;;
      num <- lift (of_answer (getInt H a)) ;;
      a <- lift (add clpool_addr 0x0c) ;;
      num_free <- lift (of_answer (getInt H a)) ;;
      a <- lift (add clpool_addr 0x10) ;;
      usage <- lift (of_answer (getInt H a)) ;;
      _ <- fix_cl_buff_chain fuel cl_head 5 ;;
      ret (Some {| cl_pool_addr := cl_pool_addr cl_pool_info;
                   cl_pool_size := Some size; cl_pool_num := Some num;
                   cl_pool_num_free := Some num_free;
                   cl_pool_usage := Some usage;
                   cl_head_addr := Some (getOffset cl_head) |})
    else ret None
  else ret None.

(** The loop of [fix_pool_func_tbl] over the names of
    [vx_5_pool_func_dict]. *)
Fixpoint pool_func_loop (names : list string) (pool_func_addr : Address)
    (func_offset : Z) : M unit :=
  match names with
  | [] => ret tt
  | func_name :: rest =>
      a <- lift (add pool_func_addr func_offset) ;;
      func_addr <- read_pointer a ;;
      _ <- (if is_address_in_current_program H func_addr then
              _ <- disassemble func_addr ;;
              function <- createFunction func_addr func_name ;;
              match function with
              | Some f => setName f func_name
              | None => createLabel func_addr func_name true
              end
            else ret tt) ;;
      pool_func_loop rest pool_func_addr (func_offset + 0x04)
  end.

Definition fix_pool_func_tbl (pool_func_addr : Address) (vx_version : Z)
    : M unit :=
  if vx_version =? 5 then
    if getOffset pool_func_addr =? 0 then ret tt
    else
      _ <- (if is_address_in_current_program H pool_func_addr
            then create_struct pool_func_addr vx_5_pool_func_tbl true
            else ret tt) ;;
      pool_func_loop (vx_5_pool_func_dict H) pool_func_addr 0
  else ret tt.

(** The loop of [fix_netpool] over the cluster-pool table; [acc] is
    [net_pool_info["cl_pool_info"]]. *)
Fixpoint cl_pool_table_loop (fuel : nat) (indices : list Z)
    (pool_table_addr : Address) (vx_version : Z) (acc : list ClPoolInfo)
    : M (list ClPoolInfo) :=
  match indices with
  | [] => ret acc
  | i :: rest =>
      let offset := i * 0x04 in
      a <- lift (add pool_table_addr offset) ;;
      cl_pool_addr <- read_pointer a ;;
      cl_pool_info <- fix_clpool fuel cl_pool_addr vx_version ;;
      cl_pool_table_loop fuel rest pool_table_addr vx_version
        match cl_pool_info with
        | Some info => (acc ++ [info])%list
        | None => acc
        end
  end.

(** [fix_netpool] returns its dictionary on every path, so the result is
    always [Some]. *)
Definition fix_netpool (fuel : nat) (netpool_addr : Address) (vx_version : Z)
    : M (option NetPoolInfo) :=
  let net_pool_info :=
    {| pool_addr := getOffset netpool_addr; pool_table_addr := None;
       pool_status_addr := None; pool_func_tbl_addr := None;
       cl_pool_info := [] |} in
  if vx_version =? 5 then
    _ <- create_struct netpool_addr vx_5_net_pool true ;;
    pool_table <- lift (add netpool_addr 0x24) ;;
    a <- lift (add netpool_addr 0x50) ;;
    pool_status <- read_pointer a ;;
    a <- lift (add netpool_addr 0x54) ;;
    pool_function_tbl <- read_pointer a ;;
    infos <- cl_pool_table_loop fuel (range (VX_5_CL_TBL_SIZE H)) pool_table
               vx_version (cl_pool_info net_pool_info) ;;
    _ <- create_struct pool_status vx_5_pool_stat true ;;
    _ <- fix_pool_func_tbl pool_function_tbl vx_version ;;
    ret (Some {| pool_addr := pool_addr net_pool_info;
                 pool_table_addr := Some (getOffset pool_table);
                 pool_status_addr := Some (getOffset pool_table);
                 pool_func_tbl_addr := Some (getOffset pool_function_tbl);
                 cl_pool_info := infos |})
  else ret (Some net_pool_info).

Definition fix_tcb (tcb_addr : Address) (vx_version : Z) : M (option TcbInfo) :=
  if vx_version =? 5 then
    _ <- create_struct tcb_addr vx_5_wind_tcb true ;;
    task_name_ptr <- lift (add tcb_addr 0x34) ;;
    task_name_addr <- read_pointer task_name_ptr ;;
    task_name <- getDataAt task_name_addr ;;
    task_entry_ptr <- lift (add tcb_addr 0x74) ;;
    task_entry_addr <- read_pointer task_entry_ptr ;;
    task_entry_name <- getFunctionAt task_entry_addr ;;
    task_stack_base_ptr <- lift (add tcb_addr 0x78) ;;
    task_stack_base <- read_pointer task_stack_base_ptr ;;
    task_stack_limit_ptr <- lift (add tcb_addr 0x7c) ;;
    task_stack_limit <- read_pointer task_stack_limit_ptr ;;
    task_stack_limit_end_ptr <- lift (add tcb_addr 0x80) ;;
    task_stack_limit_end <- read_pointer task_stack_limit_end_ptr ;;
    ret (Some {| tcb_addr := getOffset tcb_addr;
                 task_name := task_name;
                 task_entry_addr := Some (getOffset task_entry_addr);
                 task_entry_name := task_entry_name;
                 task_stack_base := Some (getOffset task_stack_base);
                 task_stack_limit := Some (getOffset task_stack_limit);
                 task_stack_limit_end :=
                   Some (getOffset task_stack_limit_end) |})
  else ret None.

End Embedding.

(** * What the statements are written in *)

(** ** Strings *)

(** [needle] occurs in [hay] as a substring. *)
Definition occurs_in (needle hay : string) : Prop :=
  exists pre post, hay = (pre ++ needle ++ post)%string.

(** The identifier character set in words: letters, digits, and the
    characters of ["_:.<>,*()~+-=/%"]. *)
Definition is_letter (c : ascii) : Prop :=
  let n := nat_of_ascii c in
  (97 <= n /\ n <= 122)%nat \/ (65 <= n /\ n <= 90)%nat.

Definition is_digit (c : ascii) : Prop :=
  let n := nat_of_ascii c in (48 <= n /\ n <= 57)%nat.

Definition identifier_char (c : ascii) : Prop :=
  is_letter c \/ is_digit c \/
  In c (list_ascii_of_string "_:.<>,*()~+-=/%").

Definition identifier_charb (c : ascii) : bool :=
  let n := nat_of_ascii c in
  ((97 <=? n)%nat && (n <=? 122)%nat) || ((65 <=? n)%nat && (n <=? 90)%nat) ||
  ((48 <=? n)%nat && (n <=? 57)%nat) ||
  existsb (Ascii.eqb c) (list_ascii_of_string "_:.<>,*()~+-=/%").

(** Four bytes read as an unsigned 32-bit integer. *)
Definition u32_of_bytes (big_endian : bool) (b0 b1 b2 b3 : ascii) : Z :=
  let v := fun c => Z.of_nat (nat_of_ascii c) in
  if big_endian
  then v b0 * 16777216 + v b1 * 65536 + v b2 * 256 + v b3
  else v b3 * 16777216 + v b2 * 65536 + v b1 * 256 + v b0.

Definition has_fingerprints (file_data : string) : Prop :=
  occurs_in "bzero" file_data /\ occurs_in "usrInit" file_data /\
  occurs_in "bfill" file_data.

Definition length_prefix_matches (file_data : string) (big_endian : bool) : Prop :=
  exists b0 b1 b2 b3 rest,
    file_data = String b0 (String b1 (String b2 (String b3 rest))) /\
    u32_of_bytes big_endian b0 b1 b2 b3 = Z.of_nat (String.length file_data).

(** ** Demangling attempts *)

(** What one call of the demangler came to. *)
Inductive attempt_result : Type :=
| Found
| Nothing
| Failed (e : exn).

Definition attempt : Type := (string * bool * attempt_result)%type.

(** The two clauses around each demangling [try]. *)
Definition caught_by_demangling (e : exn) : bool :=
  isinstance e cls_DemangledException || isinstance e cls_java_lang_Exception.

(** What the last attempt leaves for the caller: the exception, when no
    clause takes it. *)
Definition propagated (r : attempt_result) : option exn :=
  match r with
  | Failed e => if caught_by_demangling e then None else Some e
  | _ => None
  end.

(** The attempts [demangled_symbol] makes on [s], in order, and the
    exception that reaches the caller, if any.  The calls with and without
    the hint sit in one [try]: an exception in the first ends both. *)
Inductive fallback_order (s : string) : list attempt -> option exn -> Prop :=
| fo_hint :
    fallback_order s [(s, true, Found)] None
| fo_no_hint :
    fallback_order s [(s, true, Nothing); (s, false, Found)] None
| fo_stripped r :
    fallback_order s
      [(s, true, Nothing); (s, false, Nothing);
       (PyStr.slice s (Some 1) None, false, r)] (propagated r)
| fo_first_raises e r :
    caught_by_demangling e = true ->
    fallback_order s
      [(s, true, Failed e); (PyStr.slice s (Some 1) None, false, r)]
      (propagated r)
| fo_second_raises e r :
    caught_by_demangling e = true ->
    fallback_order s
      [(s, true, Nothing); (s, false, Failed e);
       (PyStr.slice s (Some 1) None, false, r)] (propagated r)
| fo_first_escapes e :
    caught_by_demangling e = false ->
    fallback_order s [(s, true, Failed e)] (Some e)
| fo_second_escapes e :
    caught_by_demangling e = false ->
    fallback_order s [(s, true, Nothing); (s, false, Failed e)] (Some e).

(** The order in the words of the specification: three stages, each entered
    when the one before gave no result, a failure counting as no result at
    its stage. *)
Definition order_as_specified (s : string) (attempts : list attempt) : Prop :=
  attempts = [(s, true, Found)] \/
  (exists r1, r1 <> Found /\ attempts = [(s, true, r1); (s, false, Found)]) \/
  (exists r1 r2 r3, r1 <> Found /\ r2 <> Found /\
     attempts = [(s, true, r1); (s, false, r2);
                 (PyStr.slice s (Some 1) None, false, r3)]).

Definition raised {A : Type} (r : outcome A) : option exn :=
  match r with
  | Exc e => Some e
  | _ => None
  end.

(** ** Reading a trace *)

Section Observations.

Variable H : Host.

Definition attempt_of (ev : event H) : list attempt :=
  match ev with
  | EvDemangle _ s hint (Returns (Some _)) => [(s, hint, Found)]
  | EvDemangle _ s hint (Returns None) => [(s, hint, Nothing)]
  | EvDemangle _ s hint (Raises e) => [(s, hint, Failed e)]
  | _ => []
  end.

Definition demangle_attempts (tr : list (event H)) : list attempt :=
  flat_map attempt_of tr.

Definition is_demangle (ev : event H) : bool :=
  match ev with
  | EvDemangle _ _ _ _ => true
  | _ => false
  end.

(** The demangler gave a signature that counts as true. *)
Definition obtained (tr : list (event H)) (signature : string) : Prop :=
  exists s hint d,
    In (EvDemangle H s hint (Returns (Some d))) tr /\
    getSignature H d = Some signature /\ truthy signature = true.

(** The call did not fail: renaming, code unit lookup, comment, label. *)
Definition annotation_succeeded (ev : event H) : bool :=
  match ev with
  | EvSetName _ _ _ (Raises _) => false
  | EvGetCodeUnitAt _ _ (Raises _) => false
  | EvGetCodeUnitAt _ _ (Returns None) => false
  | EvSetComment _ _ _ (Raises _) => false
  | EvCreateLabel _ _ _ _ (Raises _) => false
  | _ => true
  end.

Definition annotations_ok (tr : list (event H)) : Prop :=
  Forall (fun ev => annotation_succeeded ev = true) tr.

(** The calls of lines 229 to 247. *)
Definition is_name_event (ev : event H) : bool :=
  match ev with
  | EvGetDataAt _ _ _ | EvRemoveDataAt _ _ _ | EvCreateAsciiString _ _ _ => true
  | _ => false
  end.


(** The addresses [createData] was called on, in order. *)
Definition created_data (tr : list (event H)) : list Address :=
  flat_map (fun ev => match ev with
                      | EvCreateData _ a _ _ => [a]
                      | _ => []
                      end) tr.

(** The forward link of the buffer at [a] leads to [b]. *)
Definition link (a b : Address) : Prop :=
  exists v, getInt H a = Returns v /\ toAddr H v = b.

(** Each address of [path] links to the next, and the last one to [z]. *)
Fixpoint follows (path : list Address) (z : Address) : Prop :=
  match path with
  | [] => False
  | a :: rest =>
      match rest with
      | [] => link a z
      | b :: _ => link a b /\ follows rest z
      end
  end.

(** The claims on [add_symbol] in the words of the specification: a
    function that is created always comes with a label of the same name at
    the same address; a failure to create the name string aborts the symbol,
    nothing being created and nothing raised. *)
Definition function_always_labelled : Prop :=
  forall symbol_name symbol_name_address symbol_address symbol_type w r w' tr
         a n f,
    add_symbol H symbol_name symbol_name_address symbol_address symbol_type w
    = (r, w', tr) ->
    In (EvCreateFunction H a n (Returns (Some f))) tr ->
    exists primary, In (EvCreateLabel H a n primary (Returns tt)) tr.


End Observations.

(** ** A program database for the examples *)

(** A database without state in which every call succeeds: functions and
    code units are named by their address, a demangled object by its
    signature.  The demangler, the answer of [createAsciiString], the memory
    image and the mapped offsets are the parameters. *)
Definition example_host
    (demangler : string -> bool -> answer (option string))
    (ascii : answer string) (memory : Z -> answer Z) (mapped : Z -> bool)
    : Host :=
  {| World := unit;
     Data := unit;
     Function := Address;
     CodeUnit := Address;
     DemangledObject := string;
     max_offset := 0xFFFFFFFF;
     toAddr := mkAddress;
     vx_toAddr := mkAddress;
     is_address_in_current_program := fun a => mapped (getOffset a);
     getInt := fun a => memory (getOffset a);
     can_demangle := true;
     getSignature := fun d => Some d;
     getLength := fun _ => 2;
     VX_5_CL_TBL_SIZE := 2;
     vx_5_pool_func_dict := ["pInitRtn"; "pMblkFreeRtn"];
     api_getDataAt := fun _ w => (Returns None, w);
     api_removeDataAt := fun _ w => (Returns tt, w);
     api_createAsciiString := fun _ w => (ascii, w);
     api_getInstructionAt := fun _ w => (Returns false, w);
     api_removeInstructionAt := fun _ w => (Returns tt, w);
     api_disassemble := fun _ w => (Returns tt, w);
     api_createFunction := fun a _ w => (Returns (Some a), w);
     api_setName := fun _ _ w => (Returns tt, w);
     api_createLabel := fun _ _ _ w => (Returns tt, w);
     api_getCodeUnitAt := fun a w => (Returns (Some a), w);
     api_setComment := fun _ _ w => (Returns tt, w);
     api_createData := fun _ _ w => (Returns tt, w);
     api_getFunctionAt := fun _ w => (Returns None, w);
     api_demangle := fun s hint w => (demangler s hint, w) |}.

(** Two buffers that link to each other at 0x2000 and 0x2100, a chain from
    0x5000 that leaves the mapped range, and a net pool descriptor at 0x1000
    with an empty cluster-pool table, its status record at 0x3000 and its
    function table at 0x4000. *)
Definition example_memory (offset : Z) : answer Z :=
  if offset =? 0x2000 then Returns 0x2100
  else if offset =? 0x2100 then Returns 0x2000
  else if offset =? 0x5000 then Returns 0x5100
  else if offset =? 0x5100 then Returns 0xF0000000
  else if offset =? 0x1050 then Returns 0x3000
  else if offset =? 0x1054 then Returns 0x4000
  else Returns 0.

Definition example_mapped (offset : Z) : bool :=
  (0 <=? offset) && (offset <? 0x10000).

(** A demangler that knows ["_Z3fooi"] when given the hint. *)
Definition gnu_demangler (s : string) (hint : bool) : answer (option string) :=
  if hint && String.eqb s "_Z3fooi" then Returns (Some "foo(int)")
  else Returns None.

(** A demangler that finds nothing. *)
Definition no_demangler (s : string) (hint : bool) : answer (option string) :=
  Returns None.

(** A demangler that fails when given the hint and knows ["_Z3fooi"]
    without it. *)
Definition strict_demangler (s : string) (hint : bool)
    : answer (option string) :=
  if hint then Raises DemangledException
  else if String.eqb s "_Z3fooi" then Returns (Some "foo(int)")
  else Returns None.

Definition demangling_host : Host :=
  example_host gnu_demangler (Returns "_Z3fooi") example_memory example_mapped.

Definition plain_host : Host :=
  example_host no_demangler (Returns "usrInit") example_memory example_mapped.

Definition strict_host : Host :=
  example_host strict_demangler (Returns "_Z3fooi") example_memory
    example_mapped.



(** * Tactics *)

(** Case analysis on the innermost scrutinee of the goal. *)
Ltac run_step :=
  match goal with
  | |- context [match ?x with _ => _ end] =>
      lazymatch x with
      | context [match _ with _ => _ end] => fail
      | _ => destruct x eqn:?
      end
  end.

(** Membership in a trace written out as a list. *)
Ltac in_trace :=
  solve [ repeat first [ left; reflexivity
                       | apply in_or_app; right
                       | right ] ].

(** All the ways a membership hypothesis over such a trace can hold. *)
Ltac split_in Hin :=
  repeat (rewrite in_app_iff in Hin || cbn [In] in Hin);
  repeat match type of Hin with
         | _ \/ _ => destruct Hin as [Hin|Hin]
         end;
  try contradiction; try discriminate.

Ltac caught_cases :=
  unfold propagated, caught_by_demangling;
  repeat match goal with
         | E : isinstance _ _ = _ |- _ => rewrite E
         end;
  cbn [orb]; try reflexivity.


(** * Further observations *)

(** ** The signature parser *)

(** What the name scan leaves: an accepted name, found either at position 0
    or right after a space at [index], and running to [function_name_end]. *)
Definition name_found (s : string) (i e : Z) (n : option string) : Prop :=
  match n with
  | Some name =>
      check_is_func_name name = true /\
      (i = 0 \/
       (0 < i /\ i <= e /\ e < PyStr.len s /\
        PyStr.index s i = Ret " "%char /\
        name = PyStr.slice s (Some (i + 1)) (Some (e + 1))))
  | None => True
  end.

(** ** Traces *)

Section MoreObservations.

Variable H : Host.

(** Every call a computation makes, from whatever state, satisfies [P]. *)
Definition all_events {A : Type} (P : event H -> Prop) (m : M H A) : Prop :=
  forall w, Forall P (snd (m w)).

(** The calls [create_struct] makes. *)
Definition is_struct_event (ev : event H) : Prop :=
  match ev with
  | EvRemoveDataAt _ _ _ | EvCreateData _ _ _ _ => True
  | _ => False
  end.

Definition is_remove_event (ev : event H) : Prop :=
  match ev with
  | EvRemoveDataAt _ _ _ => True
  | _ => False
  end.

Definition removal_returned (ev : event H) : Prop :=
  match ev with
  | EvRemoveDataAt _ _ (Raises _) => False
  | _ => True
  end.

(** What [fix_pool_func_tbl] may ask for: structure typing, and functions
    or labels inside the program under the names of [vx_5_pool_func_dict]. *)
Definition pool_func_event (ev : event H) : Prop :=
  match ev with
  | EvRemoveDataAt _ _ _ | EvCreateData _ _ _ _ => True
  | EvDisassemble _ a _ => is_address_in_current_program H a = true
  | EvCreateFunction _ a name _ =>
      is_address_in_current_program H a = true /\
      In name (vx_5_pool_func_dict H)
  | EvSetName _ _ name _ => In name (vx_5_pool_func_dict H)
  | EvCreateLabel _ a name primary _ =>
      is_address_in_current_program H a = true /\
      In name (vx_5_pool_func_dict H) /\ primary = true
  | _ => False
  end.

(** An entry of [cl_pool_info]: the pool at a non-null pointer of the
    cluster-pool table, inside the program. *)
Definition table_entry (pool_table : Address) (info : ClPoolInfo) : Prop :=
  exists i v,
    0 <= i < VX_5_CL_TBL_SIZE H /\
    getInt H (mkAddress (getOffset pool_table + i * 0x04)) = Returns v /\
    cl_pool_addr info = getOffset (toAddr H v) /\
    getOffset (toAddr H v) <> 0 /\
    is_address_in_current_program H (toAddr H v) = true.
(** What a call of [add_symbol] may be: on the name address, on the
    destination address, on the demangler, or on an object one of these
    gave. *)
Definition add_symbol_event (symbol_name_address symbol_address symbol_type : Z)
    (ev : event H) : Prop :=
  match ev with
  | EvGetDataAt _ a _ | EvRemoveDataAt _ a _ | EvCreateAsciiString _ a _ =>
      symbol_name_address <> 0 /\ a = vx_toAddr H symbol_name_address
  | EvGetInstructionAt _ a _ | EvRemoveInstructionAt _ a _
  | EvGetCodeUnitAt _ a _ =>
      a = vx_toAddr H symbol_address
  | EvDisassemble _ a _ | EvCreateFunction _ a _ _ =>
      a = vx_toAddr H symbol_address /\ In symbol_type need_create_function
  | EvCreateLabel _ a _ primary _ =>
      a = vx_toAddr H symbol_address /\ primary = true
  | EvDemangle _ _ _ _ => can_demangle H = true
  | EvSetName _ _ _ _ | EvSetComment _ _ _ _ => True
  | EvCreateData _ _ _ _ | EvGetFunctionAt _ _ _ => False
  end.

Definition thrown {A : Type} (r : answer A) : option exn :=
  match r with
  | Raises e => Some e
  | Returns _ => None
  end.

(** The exception a call ended with. *)
Definition failure (ev : event H) : option exn :=
  match ev with
  | EvGetDataAt _ _ r => thrown r
  | EvRemoveDataAt _ _ r => thrown r
  | EvCreateAsciiString _ _ r => thrown r
  | EvGetInstructionAt _ _ r => thrown r
  | EvRemoveInstructionAt _ _ r => thrown r
  | EvDisassemble _ _ r => thrown r
  | EvCreateFunction _ _ _ r => thrown r
  | EvSetName _ _ _ r => thrown r
  | EvCreateLabel _ _ _ _ r => thrown r
  | EvGetCodeUnitAt _ _ r => thrown r
  | EvSetComment _ _ _ r => thrown r
  | EvCreateData _ _ _ r => thrown r
  | EvGetFunctionAt _ _ r => thrown r
  | EvDemangle _ _ _ r => thrown r
  end.

(** The last call of the trace ended with [e], and [site e] holds of it. *)
Definition at_call (site : exn -> event H -> Prop) (e : exn)
    (tr : list (event H)) : Prop :=
  exists tr0 ev, tr = (tr0 ++ [ev])%list /\ failure ev = Some e /\ site e ev.

(** Every exception that [m] ends with satisfies [Q], with the trace. *)
Definition escapes {A : Type} (Q : exn -> list (event H) -> Prop) (m : M H A)
    : Prop :=
  forall w e w' tr, m w = (Exc e, w', tr) -> Q e tr.

(** The calls of [add_symbol] whose exception can reach the caller, and
    which exceptions. *)
Definition escape_site (e : exn) (ev : event H) : Prop :=
  match ev with
  | EvGetDataAt _ _ _ | EvRemoveDataAt _ _ _
  | EvGetInstructionAt _ _ _ | EvRemoveInstructionAt _ _ _ => True
  | EvCreateAsciiString _ _ _ =>
      isinstance e cls_CodeUnitInsertionException = false /\
      isinstance e cls_BaseException = false
  | EvDemangle _ _ _ _ =>
      isinstance e cls_DemangledException = false /\
      isinstance e cls_java_lang_Exception = false /\
      isinstance e cls_Exception = false
  | EvCreateData _ _ _ _ | EvGetFunctionAt _ _ _ => False
  | _ => isinstance e cls_Exception = false
  end.

(** Inside the [try] of lines 256 to 302. *)
Definition guarded_site (e : exn) (ev : event H) : Prop :=
  match ev with
  | EvDemangle _ _ _ _ =>
      isinstance e cls_DemangledException = false /\
      isinstance e cls_java_lang_Exception = false
  | EvDisassemble _ _ _ | EvCreateFunction _ _ _ _ | EvSetName _ _ _ _
  | EvCreateLabel _ _ _ _ _ | EvGetCodeUnitAt _ _ _ | EvSetComment _ _ _ _ =>
      True
  | _ => False
  end.

(** The calls of [add_symbol] that no [try] encloses. *)
Definition unguarded (ev : event H) : Prop :=
  match ev with
  | EvGetDataAt _ _ _ | EvRemoveDataAt _ _ _
  | EvGetInstructionAt _ _ _ | EvRemoveInstructionAt _ _ _ => True
  | _ => False
  end.

(** What the body of the [try] of lines 256 to 302 can end with: a Python
    exception, which the [except Exception] clause takes, or the failure of
    its last call. *)
Definition in_try (e : exn) (tr : list (event H)) : Prop :=
  isinstance e cls_Exception = true \/ at_call guarded_site e tr.

(** Where the strings and objects that lines 250 to 302 hand to the program
    database come from: functions and labels carry [name]; a comment is a
    signature the demangler gave, on the code unit found at [a]; a renamed
    function is the one created at [a], and its new name is [name] or the
    name the parser found in a signature. *)
Definition provenance (a : Address) (name : string) (tr : list (event H))
    : Prop :=
  (forall a' n r, In (EvCreateFunction H a' n r) tr -> n = name) /\
  (forall a' n p r, In (EvCreateLabel H a' n p r) tr -> n = name) /\
  (forall cu text r, In (EvSetComment H cu text r) tr ->
     obtained H tr text /\ In (EvGetCodeUnitAt H a (Returns (Some cu))) tr) /\
  (forall f n r, In (EvSetName H f n r) tr ->
     In (EvCreateFunction H a name (Returns (Some f))) tr /\
     (n = name \/
      exists signature function_return function_parameters,
        obtained H tr signature /\
        demangle_function signature =
        Ret (function_return, Some n, function_parameters))).

End MoreObservations.

(** ** Further example hosts *)

(** A buffer at 0x6000 whose link leads to a buffer at 0x6100 that links to
    itself. *)
Definition looping_memory (offset : Z) : answer Z :=
  if offset =? 0x6000 then Returns 0x6100
  else if offset =? 0x6100 then Returns 0x6100
  else Returns 0.

Definition looping_host : Host :=
  example_host no_demangler (Returns "usrInit") looping_memory example_mapped.

Definition looping_buffers (n : nat) : Address :=
  match n with
  | O => mkAddress 0x6000
  | S _ => mkAddress 0x6100
  end.

(** A net pool descriptor at 0x7000 whose cluster-pool table holds one pool,
    at 0x7100, of 10 clusters of 64 bytes, 7 of them free, used 3 times, with
    no buffer. *)
Definition pool_memory (offset : Z) : answer Z :=
  if offset =? 0x7024 then Returns 0x7100
  else if offset =? 0x7100 then Returns 64
  else if offset =? 0x7108 then Returns 10
  else if offset =? 0x710c then Returns 7
  else if offset =? 0x7110 then Returns 3
  else Returns 0.

Definition pool_host : Host :=
  example_host no_demangler (Returns "usrInit") pool_memory example_mapped.

(** The host of [plain_host], but for [getInstructionAt], which fails. *)
Definition unreadable_host : Host :=
  {| World := unit;
     Data := unit;
     Function := Address;
     CodeUnit := Address;
     DemangledObject := string;
     max_offset := max_offset plain_host;
     toAddr := toAddr plain_host;
     vx_toAddr := vx_toAddr plain_host;
     is_address_in_current_program := is_address_in_current_program plain_host;
     getInt := getInt plain_host;
     can_demangle := can_demangle plain_host;
     getSignature := fun d => Some d;
     getLength := getLength plain_host;
     VX_5_CL_TBL_SIZE := VX_5_CL_TBL_SIZE plain_host;
     vx_5_pool_func_dict := vx_5_pool_func_dict plain_host;
     api_getDataAt := fun _ w => (Returns None, w);
     api_removeDataAt := fun _ w => (Returns tt, w);
     api_createAsciiString := fun _ w => (Returns "usrInit", w);
     api_getInstructionAt := fun _ w => (Raises (PyException "TypeError"), w);
     api_removeInstructionAt := fun _ w => (Returns tt, w);
     api_disassemble := fun _ w => (Returns tt, w);
     api_createFunction := fun a _ w => (Returns (Some a), w);
     api_setName := fun _ _ w => (Returns tt, w);
     api_createLabel := fun _ _ _ w => (Returns tt, w);
     api_getCodeUnitAt := fun a w => (Returns (Some a), w);
     api_setComment := fun _ _ w => (Returns tt, w);
     api_createData := fun _ _ w => (Returns tt, w);
     api_getFunctionAt := fun _ w => (Returns None, w);
     api_demangle := fun _ _ w => (Returns None, w) |}.

(** A symbol file of 21 bytes: the length, big-endian, and the three
    fingerprints. *)
Definition example_symbol_file : string :=
  String (ascii_of_nat 0) (String (ascii_of_nat 0) (String (ascii_of_nat 0)
    (String (ascii_of_nat 21) "bzerousrInitbfill"))).

(** * Properties of the string functions *)

Section StringFacts.

Local Open Scope py_scope.

Lemma get_in_range (s : string) (n : nat) :
  (n < String.length s)%nat -> exists c, String.get n s = Some c.
Proof.
  revert n; induction s as [|a s IH]; intros n Hn; simpl in *.
  - lia.
  - destruct n as [|n]; [now exists a|]. apply IH; lia.
Qed.

Lemma index_in_range (s : string) (i : Z) :
  0 <= i < PyStr.len s -> exists c, PyStr.index s i = Ret c.
Proof.
  intros Hi. unfold PyStr.index.
  destruct (Z.ltb_spec i 0); [lia|].
  destruct (Z.leb_spec 0 i); [|lia].
  destruct (Z.ltb_spec i (PyStr.len s)); [|lia]. simpl.
  destruct (get_in_range s (Z.to_nat i)) as [c Hc].
  - unfold PyStr.len in Hi. lia.
  - rewrite Hc. now exists c.
Qed.

Lemma index_last (s : string) :
  s <> EmptyString -> exists c, PyStr.index s (-1) = Ret c.
Proof.
  intros Hs.
  assert (Hlen : 0 < PyStr.len s).
  { unfold PyStr.len. destruct s; [congruence|simpl String.length; lia]. }
  destruct (index_in_range s (-1 + PyStr.len s)) as [c Hc]; [lia|].
  exists c. rewrite <- Hc. unfold PyStr.index.
  replace (-1 <? 0) with true by reflexivity.
  destruct (Z.ltb_spec (-1 + PyStr.len s) 0); [lia|reflexivity].
Qed.

(** The parameter scan reads inside the string only, and leaves [index] at
    least at [-1] and below where it started. *)
Lemma scan_parameters_ok (s : string) (k : nat) (count : Z) :
  (k <= String.length s)%nat ->
  exists idx, scan_parameters s k count = Ret idx /\
              -1 <= idx /\ idx + 1 <= Z.of_nat k.
Proof.
  revert count; induction k as [|i IH]; intros count Hk.
  - exists (-1). simpl. repeat split; lia.
  - cbn [scan_parameters].
    destruct (index_in_range s (Z.of_nat i)) as [c Hc].
    { unfold PyStr.len. lia. }
    rewrite Hc. cbn [obind].
    match goal with |- context [if ?b =? 0 then _ else _] =>
      destruct (b =? 0) end.
    + eexists. split; [reflexivity|]. lia.
    + destruct (IH (if is_char c ")" then count + 1
                    else if is_char c "(" then count - 1 else count))
        as [idx [E [H1 H2]]]; [lia|].
      exists idx. split; [exact E|]. lia.
Qed.

(** The name scan reads inside the string only, provided
    [function_name_end] is a position of the string whenever the loop body
    runs at all; it leaves [index] at [-1] at least. *)
Lemma scan_name_ok (s : string) (k : nat) (fne : Z) :
  (k <= String.length s)%nat ->
  (k = 0%nat \/ 0 <= fne < PyStr.len s) ->
  exists i e n, scan_name s k fne = Ret (i, e, n) /\ -1 <= i.
Proof.
  revert fne; induction k as [|i IH]; intros fne Hk Hf.
  - simpl. eexists _, _, _. split; [reflexivity|lia].
  - assert (Hi : 0 <= Z.of_nat i < PyStr.len s) by (unfold PyStr.len; lia).
    cbn [scan_name].
    destruct (index_in_range s (Z.of_nat i) Hi) as [c Hc].
    rewrite Hc. cbn [obind].
    destruct (is_char c " ").
    + destruct (String.eqb _ "*").
      * apply IH; [lia|]. right; exact Hi.
      * destruct (check_is_func_name _).
        -- eexists _, _, _. split; [reflexivity|lia].
        -- apply IH; [lia|]. right; exact Hi.
    + destruct (Z.of_nat i =? 0).
      * destruct Hf as [Hf|Hf]; [discriminate|].
        destruct (index_in_range s fne Hf) as [e He].
        rewrite He. cbn [obind]. eexists _, _, _. split; [reflexivity|lia].
      * apply IH; [lia|]. destruct Hf as [Hf|Hf]; [discriminate|now right].
Qed.

(** ** Substring search *)

Lemma startswith_spec (p s : string) :
  PyStr.startswith p s = true <-> exists post, s = (p ++ post)%string.
Proof.
  revert s; induction p as [|a p IH]; intros s; simpl.
  - split; [intros _; now exists s|reflexivity].
  - destruct s as [|b s].
    + split; [discriminate|]. intros [post H]. discriminate.
    + rewrite andb_true_iff, Ascii.eqb_eq, IH. split.
      * intros [-> [post ->]]. now exists post.
      * intros [post H]. injection H as -> ->. split; [reflexivity|now exists post].
Qed.

Lemma contains_spec (needle hay : string) :
  PyStr.contains needle hay = true <-> occurs_in needle hay.
Proof.
  unfold occurs_in. induction hay as [|b hay IH].
  - cbn [PyStr.contains]. rewrite orb_false_r, startswith_spec. split.
    + intros [post H]. now exists EmptyString, post.
    + intros [pre [post H]]. destruct pre; [now exists post|discriminate].
  - cbn [PyStr.contains]. rewrite orb_true_iff, startswith_spec, IH. split.
    + intros [[post H]|[pre [post H]]].
      * now exists EmptyString, post.
      * exists (String b pre), post. simpl. now rewrite H.
    + intros [pre [post H]]. destruct pre as [|a pre].
      * left. now exists post.
      * right. simpl in H. injection H as _ H. now exists pre, post.
Qed.

Lemma length_app (a b : string) :
  String.length (a ++ b) = (String.length a + String.length b)%nat.
Proof. induction a; simpl; congruence. Qed.

Lemma occurs_in_length (needle hay : string) :
  occurs_in needle hay -> (String.length needle <= String.length hay)%nat.
Proof.
  intros [pre [post ->]]. rewrite !length_app. lia.
Qed.

Lemma in_list_spec (x : string) (l : list string) :
  PyStr.in_list x l = true <-> In x l.
Proof.
  unfold PyStr.in_list. rewrite existsb_exists. split.
  - intros [y [Hy E]]. apply String.eqb_eq in E. now subst.
  - intros H. exists x. split; [exact H|apply String.eqb_refl].
Qed.

End StringFacts.

(** ** The function-name predicate *)

Section CheckIsFuncName.

Lemma identifier_charb_spec (c : ascii) :
  identifier_charb c = true <-> identifier_char c.
Proof.
  unfold identifier_charb, identifier_char, is_letter, is_digit.
  cbv zeta.
  rewrite !orb_true_iff, !andb_true_iff, !Nat.leb_le, existsb_exists.
  split.
  - intros [[[H|H]|H]|[x [Hx E]]]; auto.
    apply Ascii.eqb_eq in E. subst. auto.
  - intros [[H|H]|[H|H]]; auto.
    right. exists c. split; [exact H|apply Ascii.eqb_refl].
Qed.

Lemma chaset_membership (c : ascii) :
  PyStr.contains (String c EmptyString) function_name_chaset = identifier_charb c.
Proof.
  destruct c as [b0 b1 b2 b3 b4 b5 b6 b7].
  destruct b0, b1, b2, b3, b4, b5, b6, b7; vm_compute; reflexivity.
Qed.

Lemma all_in_chaset_spec (s : string) :
  all_in_chaset s = true <->
  (forall c, In c (list_ascii_of_string s) -> identifier_char c).
Proof.
  induction s as [|a s IH]; cbn [all_in_chaset list_ascii_of_string In].
  - split; [intros _ c []|reflexivity].
  - rewrite chaset_membership.
    destruct (identifier_charb a) eqn:Ea; cbn [negb].
    + rewrite IH. split.
      * intros H c [<-|Hc]; [now apply identifier_charb_spec|auto].
      * intros H c Hc. apply H. now right.
    + split; [discriminate|]. intros H.
      assert (Ha : identifier_char a) by (apply H; now left).
      apply identifier_charb_spec in Ha. congruence.
Qed.

End CheckIsFuncName.

(** C6: [check_is_func_name s] holds exactly when [s] has at most 512
    characters, every character of [s] is a letter, a digit or one of
    [_:.<>,*()~+-=/%], and the lowercase form of [s] is none of the reserved
    built-in type names. *)
Theorem check_is_func_name_spec (s : string) :
  check_is_func_name s = true <->
  (String.length s <= 512)%nat /\
  (forall c, In c (list_ascii_of_string s) -> identifier_char c) /\
  ~ In (PyStr.lower s) ghidra_builtin_types.
Proof.
  unfold check_is_func_name.
  rewrite <- all_in_chaset_spec, <- in_list_spec.
  destruct (Z.ltb_spec 512 (PyStr.len s)) as [Hl|Hl]; unfold PyStr.len in Hl.
  - split; [discriminate|]. intros [H _]. lia.
  - destruct (all_in_chaset s); cbn [negb].
    + destruct (PyStr.in_list (PyStr.lower s) ghidra_builtin_types).
      * split; [discriminate|]. intros [_ [_ H]]. now contradiction H.
      * split; [|reflexivity]. intros _. repeat split; [lia|discriminate].
    + split; [discriminate|]. intros [_ [H _]]. discriminate.
Qed.

(** ** The signature parser *)

(** C7: on ["char* getData()"] the parser gives the name ["getData"], the
    return type ["char*"] with its pointer marker, and the parameters
    ["()"]. *)
Theorem demangle_function_getData :
  demangle_function "char* getData()" =
  Ret (Some "char*", Some "getData", Some "()").
Proof. vm_compute. reflexivity. Qed.

(** The parser on the other signatures the specification lists, and on a
    string whose parentheses do not balance. *)
Example demangle_function_int_main :
  demangle_function "int main" = Ret (Some "int", Some "main", Some EmptyString).
Proof. vm_compute. reflexivity. Qed.

Example demangle_function_qualified :
  demangle_function "void Foo::Bar(int, char*)" =
  Ret (Some "void", Some "Foo::Bar", Some "(int, char*)").
Proof. vm_compute. reflexivity. Qed.

Example demangle_function_unbalanced :
  demangle_function "((a)" = Ret (None, Some "(", Some "(a)").
Proof. vm_compute. reflexivity. Qed.

Example check_is_func_name_dword :
  check_is_func_name "dword" = false /\ check_is_func_name "DWord" = false /\
  check_is_func_name "getData" = true.
Proof. vm_compute. auto. Qed.

(** C5, the claim as stated fails on the empty string: the first statement
    that reads the string, [demangle_string[-1]], raises [IndexError], so no
    triple is returned. *)
Lemma demangle_function_empty_raises :
  demangle_function EmptyString = Exc PyStr.IndexError /\
  ~ exists t, demangle_function EmptyString = Ret t.
Proof.
  split; [reflexivity|]. intros [t H]. vm_compute in H. discriminate.
Qed.

(** On a non-empty string both scans stay inside the string, and the
    triple is cut out of the string at the positions they end on. *)
Lemma demangle_function_scans (s : string) :
  s <> EmptyString ->
  exists index function_name_end function_name,
    -1 <= index /\
    demangle_function s =
    Ret (if negb (index =? 0)
         then Some (PyStr.slice s None (Some index)) else None,
         function_name,
         Some (PyStr.slice s (Some (function_name_end + 1)) None)).
Proof.
  intros Hs. unfold demangle_function.
  assert (Hlen : 0 < PyStr.len s).
  { unfold PyStr.len. destruct s; [congruence|simpl String.length; lia]. }
  destruct (index_last s Hs) as [c Hc]. rewrite Hc. cbn [obind].
  destruct (is_char c ")").
  - destruct (scan_parameters_ok s (Z.to_nat (PyStr.len s - 1 + 1)) 0)
      as [idx [E [H1 H2]]].
    { unfold PyStr.len. lia. }
    rewrite E. cbn [obind].
    destruct (scan_name_ok s (Z.to_nat (idx + 1)) idx) as (i & e & n & En & Hi).
    { unfold PyStr.len in *. lia. }
    { unfold PyStr.len in *. lia. }
    rewrite En. cbn [obind]. now exists i, e, n.
  - cbn [obind].
    destruct (scan_name_ok s (Z.to_nat (PyStr.len s - 1 + 1)) (PyStr.len s - 1))
      as (i & e & n & En & Hi).
    { unfold PyStr.len. lia. }
    { right. lia. }
    rewrite En. cbn [obind]. now exists i, e, n.
Qed.

Lemma demangle_function_returns (s : string) :
  truthy s = true -> exists t, demangle_function s = Ret t.
Proof.
  intros Ht. destruct (demangle_function_scans s) as (i & e & n & _ & E).
  - intros ->. discriminate.
  - eauto.
Qed.

(** C5, amended: on every non-empty string, balanced or not, the parser
    returns a triple, no string access being out of bounds; the parameters
    component is a string, the return type and the name may be absent. *)
Theorem demangle_function_total (s : string) :
  s <> EmptyString ->
  exists function_return function_name function_parameters,
    demangle_function s =
    Ret (function_return, function_name, Some function_parameters).
Proof.
  intros Hs.
  destruct (demangle_function_scans s Hs) as (index & fne & name & _ & E).
  rewrite E.
  exists (if negb (index =? 0)
          then Some (PyStr.slice s None (Some index)) else None).
  exists name.
  exists (PyStr.slice s (Some (fne + 1)) None).
  reflexivity.
Qed.

Lemma demangle_function_total_witness :
  "((a)" <> EmptyString /\
  exists function_return function_name function_parameters,
    demangle_function "((a)" =
    Ret (function_return, function_name, Some function_parameters).
Proof.
  split; [discriminate|].
  apply (demangle_function_total "((a)"). discriminate.
Defined.

(** ** The symbol-file check *)

Section SymbolFile.

Lemma key_function_missing_spec (file_data : string) :
  key_function_missing function_name_key_words file_data = false <->
  has_fingerprints file_data.
Proof.
  unfold has_fingerprints, function_name_key_words.
  cbn [key_function_missing].
  rewrite <- !contains_spec.
  destruct (PyStr.contains "bzero" file_data),
           (PyStr.contains "usrInit" file_data),
           (PyStr.contains "bfill" file_data); simpl; intuition congruence.
Qed.

Lemma slice_first_four (b0 b1 b2 b3 : ascii) (rest : string) :
  PyStr.slice (String b0 (String b1 (String b2 (String b3 rest)))) None (Some 4)
  = String b0 (String b1 (String b2 (String b3 EmptyString))).
Proof.
  unfold PyStr.slice, PyStr.clamp, PyStr.len.
  cbn [String.length].
  replace (4 <? 0) with false by reflexivity.
  destruct (Z.ltb_spec (Z.of_nat (S (S (S (S (String.length rest)))))) 4); [lia|].
  replace (4 <=? 0) with false by reflexivity.
  replace (Z.to_nat (4 - 0)) with 4%nat by reflexivity.
  cbn. destruct rest; reflexivity.
Qed.

Lemma unpack_I_value (big_endian : bool) (b0 b1 b2 b3 : ascii) :
  PyStr.unpack_I big_endian (String b0 (String b1 (String b2 (String b3 EmptyString))))
  = Ret (u32_of_bytes big_endian b0 b1 b2 b3).
Proof.
  unfold PyStr.unpack_I, u32_of_bytes, PyStr.byte_val.
  destruct big_endian; f_equal; lia.
Qed.

Lemma is_vx_symbol_file_on_four (is_big_endian : bool) (b0 b1 b2 b3 : ascii)
    (rest : string) :
  let file_data := String b0 (String b1 (String b2 (String b3 rest))) in
  has_fingerprints file_data ->
  is_vx_symbol_file file_data is_big_endian =
  Ret (u32_of_bytes is_big_endian b0 b1 b2 b3 =? PyStr.len file_data).
Proof.
  intros file_data Hf. unfold is_vx_symbol_file.
  apply key_function_missing_spec in Hf. rewrite Hf.
  unfold file_data. rewrite slice_first_four.
  destruct is_big_endian; rewrite unpack_I_value; reflexivity.
Qed.

End SymbolFile.

(** C1: [is_vx_symbol_file] always returns a boolean, and it is [True]
    exactly when the buffer holds the three fingerprints and its first four
    bytes, read as an unsigned 32-bit integer in the given byte order, equal
    its length; a buffer that misses a fingerprint gives [False] whatever
    its first four bytes are. *)
Theorem is_vx_symbol_file_spec (file_data : string) (is_big_endian : bool) :
  exists r,
    is_vx_symbol_file file_data is_big_endian = Ret r /\
    (r = true <->
     has_fingerprints file_data /\ length_prefix_matches file_data is_big_endian) /\
    (~ has_fingerprints file_data -> r = false).
Proof.
  destruct (key_function_missing function_name_key_words file_data) eqn:Ek.
  - exists false. unfold is_vx_symbol_file. rewrite Ek.
    split; [reflexivity|]. split; [|reflexivity].
    split; [discriminate|]. intros [Hf _].
    apply key_function_missing_spec in Hf. congruence.
  - apply key_function_missing_spec in Ek.
    assert (Hlen : (7 <= String.length file_data)%nat).
    { destruct Ek as [_ [H _]]. apply occurs_in_length in H. exact H. }
    destruct file_data as [|b0 [|b1 [|b2 [|b3 rest]]]]; simpl in Hlen; try lia.
    eexists. split; [apply is_vx_symbol_file_on_four; exact Ek|].
    split; [|intros H; now contradiction H].
    rewrite Z.eqb_eq. unfold PyStr.len. split.
    + intros H. split; [exact Ek|]. now exists b0, b1, b2, b3, rest.
    + intros [_ [c0 [c1 [c2 [c3 [r [E H]]]]]]].
      injection E as -> -> -> -> ->. exact H.
Qed.
(** * Properties of the kernel object walkers *)

Lemma Address_eqb_eq (a b : Address) : Address_eqb a b = true <-> a = b.
Proof.
  unfold Address_eqb. rewrite Z.eqb_eq. destruct a, b; simpl.
  split; [intros ->; reflexivity|congruence].
Qed.

Section WalkerFacts.

Variable H : Host.

(** ** Runs that return *)

Lemma bind_Ret_inv {A B : Type} (m : M H A) (k : A -> M H B) w b w' tr :
  bind H m k w = (Ret b, w', tr) ->
  exists a w1 t1 t2,
    m w = (Ret a, w1, t1) /\ k a w1 = (Ret b, w', t2) /\ tr = (t1 ++ t2)%list.
Proof.
  unfold bind. intros E.
  destruct (m w) as [[[a|e|] w1] t1]; try discriminate.
  destruct (k a w1) as [[r w2] t2] eqn:Ek.
  injection E as -> -> <-. now exists a, w1, t1, t2.
Qed.

Lemma lift_add_inv (a b : Address) (d : Z) w w1 t1 :
  lift H (add H a d) w = (Ret b, w1, t1) ->
  b = mkAddress (getOffset a + d) /\ w1 = w /\ t1 = [].
Proof.
  unfold lift, add. destruct (_ && _); intros E; [|discriminate].
  injection E as <- <- <-. auto.
Qed.

Lemma read_pointer_inv (a b : Address) w w1 t1 :
  read_pointer H a w = (Ret b, w1, t1) ->
  (exists v, getInt H a = Returns v /\ b = toAddr H v) /\ w1 = w /\ t1 = [].
Proof.
  unfold read_pointer, bind, lift, ret. destruct (getInt H a) as [v|e]; cbn;
    intros E; [|discriminate].
  injection E as <- <- <-. split; [now exists v|auto].
Qed.

Lemma read_pointer_link (a b : Address) w :
  link H a b -> read_pointer H a w = (Ret b, w, []).
Proof.
  intros [v [E <-]]. unfold read_pointer, bind, lift. rewrite E. reflexivity.
Qed.

(** ** [create_struct] *)

Lemma created_data_app (t1 t2 : list (event H)) :
  created_data H (t1 ++ t2) = (created_data H t1 ++ created_data H t2)%list.
Proof. apply flat_map_app. Qed.

(** The removal loop returns or raises, and creates no data. *)
Lemma remove_loop_run (data_address : Address) (offsets : list Z) w :
  exists r w' tr,
    for_each H offsets
      (fun offset => bind H (lift H (add H data_address offset))
                            (fun a => removeDataAt H a)) w = (r, w', tr) /\
    r <> OutOfFuel /\ created_data H tr = [].
Proof.
  revert w; induction offsets as [|o rest IH]; intros w.
  - exists (Ret tt), w, []. simpl. repeat split. discriminate.
  - cbn [for_each]. unfold bind at 1. unfold bind at 1. unfold lift at 1.
    destruct (add H data_address o) as [a|e|] eqn:Ea.
    + unfold removeDataAt at 1, call.
      destruct (api_removeDataAt H a w) as [[[]|e] w1].
      * cbn [of_answer].
        destruct (IH w1) as [r [w' [tr [E [Hr Hc]]]]]. rewrite E.
        exists r, w', ([] ++ [EvRemoveDataAt H a (Returns tt)] ++ tr)%list.
        repeat split; [exact Hr|]. simpl. exact Hc.
      * cbn [of_answer]. eexists _, _, _. repeat split. discriminate.
    + eexists _, _, _. repeat split. discriminate.
    + unfold add in Ea. destruct (_ && _); discriminate.
Qed.

(** [create_struct] always returns, and calls [createData] at most once,
    at the address it was given. *)
Lemma create_struct_run (data_address : Address) (dt : DataType) (ov : bool) w :
  exists w' tr,
    create_struct H data_address dt ov w = (Ret tt, w', tr) /\
    (created_data H tr = [] \/ created_data H tr = [data_address]).
Proof.
  unfold create_struct.
  destruct (is_address_in_current_program H data_address); cbn [negb].
  2:{ exists w, []. split; [reflexivity|now left]. }
  unfold try_except, bind at 1.
  assert (Hpre : exists r w' tr,
    (if ov then for_each H (range (getLength H dt))
        (fun offset => bind H (lift H (add H data_address offset))
                            (fun a => removeDataAt H a))
     else ret H tt) w = (r, w', tr) /\ r <> OutOfFuel /\ created_data H tr = []).
  { destruct ov; [apply remove_loop_run|].
    exists (Ret tt), w, []. repeat split. discriminate. }
  destruct Hpre as [r [w1 [t1 [E [Hr Hc]]]]]. rewrite E.
  destruct r as [[]|e|]; [| |congruence].
  - unfold createData, call.
    destruct (api_createData H data_address dt w1) as [[[]|e] w2]; cbn.
    + eexists _, _. split; [reflexivity|]. right.
      rewrite created_data_app, Hc. reflexivity.
    + eexists _, _. split; [reflexivity|]. right.
      rewrite !created_data_app, Hc. reflexivity.
  - cbn. eexists _, _. split; [reflexivity|]. left.
    rewrite created_data_app, Hc. reflexivity.
Qed.

(** ** The buffer chain *)

(** Along a chain that closes on [cl_buff_addr], the loop started anywhere
    on the chain returns within one iteration per remaining buffer, having
    called [createData] on remaining buffers only, once each at most. *)
Lemma loop_on_cycle (cl_buff_addr : Address) (path : list Address) :
  forall cur rest fuel w,
    path = cur :: rest ->
    follows H path cl_buff_addr ->
    ~ In cl_buff_addr rest ->
    NoDup path ->
    (List.length path <= fuel)%nat ->
    exists w' tr,
      cl_buff_chain_loop H fuel cl_buff_addr cur w = (Ret tt, w', tr) /\
      NoDup (created_data H tr) /\ incl (created_data H tr) path.
Proof.
  induction path as [|a path IH]; intros cur rest fuel w E Hf Hn Hd Hl;
    [discriminate|].
  injection E as -> ->.
  destruct fuel as [|fuel]; [simpl in Hl; lia|].
  cbn [cl_buff_chain_loop].
  destruct (is_address_in_current_program H cur).
  2:{ exists w, []. repeat split; [constructor|intros x []]. }
  unfold bind at 1.
  destruct (create_struct_run cur vx_5_cl_buff true w) as [w1 [t1 [E1 Hc1]]].
  rewrite E1.
  assert (Hc1' : NoDup (created_data H t1) /\ incl (created_data H t1) [cur]).
  { destruct Hc1 as [-> | ->].
    - split; [constructor|intros x []].
    - split; [repeat constructor; intros []|apply incl_refl]. }
  destruct Hc1' as [Hnd1 Hin1].
  unfold bind at 1.
  destruct rest as [|b rest].
  - cbn [follows] in Hf. rewrite (read_pointer_link cur cl_buff_addr w1 Hf).
    replace (Address_eqb cl_buff_addr cl_buff_addr) with true
      by (symmetry; now apply Address_eqb_eq).
    cbn. eexists _, _. split; [reflexivity|].
    rewrite app_nil_r. split; [exact Hnd1|exact Hin1].
  - cbn [follows] in Hf. destruct Hf as [Hl1 Hf].
    rewrite (read_pointer_link cur b w1 Hl1).
    destruct (Address_eqb b cl_buff_addr) eqn:Eb.
    { apply Address_eqb_eq in Eb. subst b. exfalso. apply Hn. now left. }
    inversion Hd as [|x l Hnotin Hd']; subst.
    destruct (IH b rest fuel w1 eq_refl Hf) as [w2 [t2 [E2 [Hnd2 Hin2]]]].
    { intros Hin. apply Hn. now right. }
    { exact Hd'. }
    { simpl in *. lia. }
    rewrite E2. eexists _, _. split; [reflexivity|].
    cbn [app]. rewrite created_data_app. split.
    + apply NoDup_app; [exact Hnd1|exact Hnd2|].
      intros x Hx1 Hx2. apply Hin1 in Hx1. apply Hin2 in Hx2.
      destruct Hx1 as [<-|[]]. contradiction.
    + apply incl_app.
      * intros x Hx. apply Hin1 in Hx. destruct Hx as [<-|[]]. now left.
      * intros x Hx. right. now apply Hin2.
Qed.

(** Along a chain that reaches an address outside the program, the loop
    returns within one iteration per buffer and one more. *)
Lemma loop_leaves (cl_buff_addr z : Address) (path : list Address) :
  forall cur rest fuel w,
    path = cur :: rest ->
    follows H path z ->
    is_address_in_current_program H z = false ->
    (List.length path + 1 <= fuel)%nat ->
    exists w' tr,
      cl_buff_chain_loop H fuel cl_buff_addr cur w = (Ret tt, w', tr).
Proof.
  induction path as [|a path IH]; intros cur rest fuel w E Hf Hz Hl;
    [discriminate|].
  injection E as -> ->.
  destruct fuel as [|fuel]; [simpl in Hl; lia|].
  cbn [cl_buff_chain_loop].
  destruct (is_address_in_current_program H cur).
  2:{ now exists w, []. }
  unfold bind at 1.
  destruct (create_struct_run cur vx_5_cl_buff true w) as [w1 [t1 [E1 _]]].
  rewrite E1. unfold bind at 1.
  destruct rest as [|b rest].
  - cbn [follows] in Hf. rewrite (read_pointer_link cur z w1 Hf).
    destruct (Address_eqb z cl_buff_addr); [now eexists _, _|].
    destruct fuel as [|fuel]; [simpl in Hl; lia|].
    cbn [cl_buff_chain_loop]. rewrite Hz. now eexists _, _.
  - cbn [follows] in Hf. destruct Hf as [Hl1 Hf].
    rewrite (read_pointer_link cur b w1 Hl1).
    destruct (Address_eqb b cl_buff_addr); [now eexists _, _|].
    destruct (IH b rest fuel w1 eq_refl Hf Hz) as [w2 [t2 E2]].
    { simpl in *. lia. }
    rewrite E2. now eexists _, _.
Qed.

(** C8: when the forward links from the starting buffer form a simple cycle
    back to it (a single buffer that links to itself included), the walker
    returns, within as many iterations as the cycle has buffers, and calls
    [createData] at most once on any address, and only on buffers of the
    cycle; when the links reach an address outside the program, the walker
    returns as well. *)
Theorem fix_cl_buff_chain_terminates (cl_buff_addr : Address)
    (rest : list Address) (fuel : nat) (w : World H) :
  (follows H (cl_buff_addr :: rest) cl_buff_addr ->
   NoDup (cl_buff_addr :: rest) ->
   (List.length (cl_buff_addr :: rest) <= fuel)%nat ->
   exists w' tr,
     fix_cl_buff_chain H fuel cl_buff_addr 5 w = (Ret tt, w', tr) /\
     NoDup (created_data H tr) /\
     incl (created_data H tr) (cl_buff_addr :: rest)) /\
  (forall z,
     follows H (cl_buff_addr :: rest) z ->
     is_address_in_current_program H z = false ->
     (List.length (cl_buff_addr :: rest) + 1 <= fuel)%nat ->
     exists w' tr,
       fix_cl_buff_chain H fuel cl_buff_addr 5 w = (Ret tt, w', tr)).
Proof.
  unfold fix_cl_buff_chain. replace (5 =? 5) with true by reflexivity.
  split.
  - intros Hf Hd Hl.
    destruct (getOffset cl_buff_addr =? 0).
    { exists w, []. repeat split; [constructor|intros x []]. }
    apply (loop_on_cycle cl_buff_addr (cl_buff_addr :: rest) cl_buff_addr rest);
      auto.
    now inversion Hd.
  - intros z Hf Hz Hl.
    destruct (getOffset cl_buff_addr =? 0); [now exists w, []|].
    now apply (loop_leaves cl_buff_addr z (cl_buff_addr :: rest)
                 cl_buff_addr rest).
Qed.

(** ** Versions other than 5 *)

Lemma walkers_not_v5 (fuel : nat) (a : Address) (vx_version : Z) (w : World H) :
  vx_version <> 5 ->
  fix_cl_buff_chain H fuel a vx_version w = (Ret tt, w, []) /\
  fix_clpool H fuel a vx_version w = (Ret None, w, []) /\
  fix_pool_func_tbl H a vx_version w = (Ret tt, w, []) /\
  fix_tcb H a vx_version w = (Ret None, w, []) /\
  fix_netpool H fuel a vx_version w =
    (Ret (Some {| pool_addr := getOffset a; pool_table_addr := None;
                  pool_status_addr := None; pool_func_tbl_addr := None;
                  cl_pool_info := [] |}), w, []).
Proof.
  intros Hv. apply Z.eqb_neq in Hv.
  unfold fix_cl_buff_chain, fix_clpool, fix_pool_func_tbl, fix_tcb, fix_netpool.
  rewrite Hv. repeat split; reflexivity.
Qed.

(** C9, amended: for the version selectors 6 and 7 no walker makes any call
    into the program database; the buffer-chain, cluster-pool, function-table
    and task-control-block walkers return [None], and the net-pool walker
    returns its record with the descriptor's offset as [pool_addr], every
    other field [None] and an empty [cl_pool_info]. *)
Theorem walkers_other_version (fuel : nat) (a : Address) (vx_version : Z)
    (w : World H) :
  vx_version = 6 \/ vx_version = 7 ->
  fix_cl_buff_chain H fuel a vx_version w = (Ret tt, w, []) /\
  fix_clpool H fuel a vx_version w = (Ret None, w, []) /\
  fix_pool_func_tbl H a vx_version w = (Ret tt, w, []) /\
  fix_tcb H a vx_version w = (Ret None, w, []) /\
  fix_netpool H fuel a vx_version w =
    (Ret (Some {| pool_addr := getOffset a; pool_table_addr := None;
                  pool_status_addr := None; pool_func_tbl_addr := None;
                  cl_pool_info := [] |}), w, []).
Proof.
  intros Hv. apply walkers_not_v5. destruct Hv as [-> | ->]; discriminate.
Qed.

(** ** The net pool record *)

(** C10: the record [fix_netpool] returns for version 5 has, in
    [pool_status_addr] as in [pool_table_addr], the offset of the
    cluster-pool table, the descriptor's offset plus 0x24, whatever the
    status pointer at offset 0x50 holds; [create_struct] is run on the
    address that pointer gives, with [vx_5_pool_stat], but the record does
    not hold it. *)
Theorem fix_netpool_status_field (fuel : nat) (netpool_addr : Address)
    (w : World H) info w' tr :
  fix_netpool H fuel netpool_addr 5 w = (Ret (Some info), w', tr) ->
  pool_table_addr info = Some (getOffset netpool_addr + 0x24) /\
  pool_status_addr info = Some (getOffset netpool_addr + 0x24) /\
  exists v,
    getInt H (mkAddress (getOffset netpool_addr + 0x50)) = Returns v /\
    (getOffset (toAddr H v) <> getOffset netpool_addr + 0x24 ->
     pool_status_addr info <> Some (getOffset (toAddr H v))) /\
    exists w1 w2 t1 t t2,
      tr = (t1 ++ t ++ t2)%list /\
      create_struct H (toAddr H v) vx_5_pool_stat true w1 = (Ret tt, w2, t).
Proof.
  unfold fix_netpool. replace (5 =? 5) with true by reflexivity. intros E.
  apply bind_Ret_inv in E. destruct E as ([] & wa & ta & tb & E0 & E & ->).
  apply bind_Ret_inv in E. destruct E as (pool_table & ? & ? & tc & E1 & E & ->).
  apply lift_add_inv in E1. destruct E1 as (-> & -> & ->).
  apply bind_Ret_inv in E. destruct E as (a50 & ? & ? & td & E1 & E & ->).
  apply lift_add_inv in E1. destruct E1 as (-> & -> & ->).
  apply bind_Ret_inv in E. destruct E as (pool_status & ? & ? & te & E1 & E & ->).
  apply read_pointer_inv in E1. destruct E1 as ((v & Hv & ->) & -> & ->).
  apply bind_Ret_inv in E. destruct E as (a54 & ? & ? & tf & E1 & E & ->).
  apply lift_add_inv in E1. destruct E1 as (-> & -> & ->).
  apply bind_Ret_inv in E. destruct E as (pool_func & ? & ? & tg & E1 & E & ->).
  apply read_pointer_inv in E1. destruct E1 as ((v' & Hv' & ->) & -> & ->).
  apply bind_Ret_inv in E. destruct E as (infos & wb & th & ti & E1 & E & ->).
  apply bind_Ret_inv in E. destruct E as ([] & wc & tj & tk & E2 & E & ->).
  apply bind_Ret_inv in E. destruct E as ([] & wd & tl & tm & E3 & E & ->).
  unfold ret in E. injection E as <- <- <-.
  cbn [pool_table_addr pool_status_addr getOffset].
  split; [reflexivity|]. split; [reflexivity|].
  exists v. split; [exact Hv|]. split.
  - intros Hne Heq. injection Heq as Heq. congruence.
  - exists wb, wc, (ta ++ th)%list, tj, tl. split; [|exact E2].
    cbn [app]. rewrite app_nil_r, <- !app_assoc. reflexivity.
Qed.

End WalkerFacts.

Lemma fix_cl_buff_chain_terminates_witness :
  (exists w' tr,
     fix_cl_buff_chain plain_host 2 (mkAddress 0x2000) 5 tt = (Ret tt, w', tr) /\
     NoDup (created_data plain_host tr) /\
     incl (created_data plain_host tr) [mkAddress 0x2000; mkAddress 0x2100]) /\
  (exists w' tr,
     fix_cl_buff_chain plain_host 3 (mkAddress 0x5000) 5 tt = (Ret tt, w', tr)).
Proof.
  split.
  - apply (proj1 (fix_cl_buff_chain_terminates plain_host (mkAddress 0x2000)
                    [mkAddress 0x2100] 2 tt)).
    + split; eexists; split; reflexivity.
    + repeat constructor; simpl; intuition discriminate.
    + simpl. lia.
  - apply (proj2 (fix_cl_buff_chain_terminates plain_host (mkAddress 0x5000)
                    [mkAddress 0x5100] 3 tt) (mkAddress 0xF0000000)).
    + split; eexists; split; reflexivity.
    + reflexivity.
    + simpl. lia.
Defined.

(** C9, the claim as stated fails for the net-pool walker: for version 6
    it returns its record, not [None]. *)
Lemma fix_netpool_v6_returns_record :
  fix_netpool plain_host 0 (mkAddress 0x1000) 6 tt =
    (Ret (Some {| pool_addr := 0x1000; pool_table_addr := None;
                  pool_status_addr := None; pool_func_tbl_addr := None;
                  cl_pool_info := [] |}), tt, []) /\
  fix_netpool plain_host 0 (mkAddress 0x1000) 6 tt <> (Ret None, tt, []).
Proof. split; [reflexivity|discriminate]. Qed.

Lemma walkers_other_version_witness :
  (6 = 6 \/ 6 = 7) /\
  fix_tcb plain_host (mkAddress 0x1000) 6 tt = (Ret None, tt, []) /\
  fix_clpool plain_host 0 (mkAddress 0x1000) 6 tt = (Ret None, tt, []).
Proof.
  split; [now left|].
  destruct (walkers_other_version plain_host 0 (mkAddress 0x1000) 6 tt)
    as (_ & Hc & _ & Ht & _); [now left|].
  split; assumption.
Defined.

Lemma fix_netpool_status_field_witness :
  fix_netpool plain_host 1 (mkAddress 0x1000) 5 tt =
    (Ret (Some {| pool_addr := 0x1000; pool_table_addr := Some 0x1024;
                  pool_status_addr := Some 0x1024;
                  pool_func_tbl_addr := Some 0x4000; cl_pool_info := [] |}),
     tt,
     [EvRemoveDataAt plain_host (mkAddress 0x1000) (Returns tt);
      EvRemoveDataAt plain_host (mkAddress 0x1001) (Returns tt);
      EvCreateData plain_host (mkAddress 0x1000) vx_5_net_pool (Returns tt);
      EvRemoveDataAt plain_host (mkAddress 0x3000) (Returns tt);
      EvRemoveDataAt plain_host (mkAddress 0x3001) (Returns tt);
      EvCreateData plain_host (mkAddress 0x3000) vx_5_pool_stat (Returns tt);
      EvRemoveDataAt plain_host (mkAddress 0x4000) (Returns tt);
      EvRemoveDataAt plain_host (mkAddress 0x4001) (Returns tt);
      EvCreateData plain_host (mkAddress 0x4000) vx_5_pool_func_tbl
        (Returns tt);
      EvDisassemble plain_host (mkAddress 0) (Returns tt);
      EvCreateFunction plain_host (mkAddress 0) "pInitRtn"
        (Returns (Some (mkAddress 0)));
      EvSetName plain_host (mkAddress 0) "pInitRtn" (Returns tt);
      EvDisassemble plain_host (mkAddress 0) (Returns tt);
      EvCreateFunction plain_host (mkAddress 0) "pMblkFreeRtn"
        (Returns (Some (mkAddress 0)));
      EvSetName plain_host (mkAddress 0) "pMblkFreeRtn" (Returns tt)]) /\
  getInt plain_host (mkAddress (0x1000 + 0x50)) = Returns 0x3000 /\
  Some 0x1024 = Some (0x1000 + 0x24).
Proof.
  match goal with
  | |- ?L = ?R /\ _ => assert (E : L = R) by reflexivity
  end.
  split; [exact E|]. split; [reflexivity|].
  exact (proj1 (proj2 (fix_netpool_status_field plain_host 1 (mkAddress 0x1000)
                         tt _ _ _ E))).
Defined.

(** * Properties of the symbol materializer *)

Lemma fallback_order_eq (s : string) (l : list attempt) (p q : option exn) :
  fallback_order s l p -> p = q -> fallback_order s l q.
Proof. now intros Hf <-. Qed.

Lemma fallback_order_escape (s : string) (l : list attempt) (e : exn) :
  fallback_order s l (Some e) -> caught_by_demangling e = false.
Proof.
  assert (Hp : forall r, propagated r = Some e -> caught_by_demangling e = false).
  { intros [| |e']; cbn; try discriminate.
    destruct (caught_by_demangling e') eqn:Ec; [discriminate|].
    intros E. injection E as <-. exact Ec. }
  intros Hf. inversion Hf; subst; auto;
    apply (Hp r); congruence.
Qed.

Lemma need_create_function_In (t : Z) (b : bool) :
  b && existsb (Z.eqb t) need_create_function = true ->
  In t need_create_function.
Proof.
  intros Hb. apply andb_true_iff in Hb. destruct Hb as [_ Hb].
  apply existsb_exists in Hb. destruct Hb as [x [Hx E]].
  apply Z.eqb_eq in E. now subst.
Qed.

Section MaterializerFacts.

Variable H : Host.

(** ** [demangled_symbol] *)

Lemma demangled_symbol_order (s : string) (w : World H) :
  can_demangle H = true ->
  let '(r, w', tr) := demangled_symbol H s w in
  fallback_order s (demangle_attempts H tr) (raised r) /\ r <> OutOfFuel.
Proof.
  intros Hc. unfold demangled_symbol. rewrite Hc.
  unfold bind, try_except, demangle, call, ret, of_answer. cbn [select_clause].
  repeat (run_step; cbv beta iota); subst; try discriminate.
  all: cbn; split; try discriminate.
  all: try (solve [constructor; caught_cases]).
  all: try (solve [eapply fallback_order_eq;
                   [constructor; caught_cases|caught_cases]]).
Qed.

(** The calls of [demangled_symbol] go to the demangler only, and its
    result counts as true exactly when the demangler gave a signature that
    does. *)
Lemma demangled_symbol_events (s : string) (w : World H) :
  let '(r, w', tr) := demangled_symbol H s w in
  Forall (fun ev => is_demangle H ev = true) tr /\
  forall x, r = Ret x ->
    forall signature,
      (x = Some signature /\ truthy signature = true) <->
      obtained H tr signature.
Proof.
  unfold demangled_symbol, obtained.
  unfold bind, try_except, demangle, call, ret, of_answer. cbn [select_clause].
  repeat (run_step; cbv beta iota); subst; try discriminate.
  all: cbn [app]; split; [repeat constructor|].
  all: intros x Hx; inversion Hx; subst; clear Hx; intros signature.
  all: split;
    [ intros [Hs Ht]; try discriminate;
      try (eexists _, _, _; split; [|split; [|exact Ht]];
           [cbn [In]; eauto 6|congruence])
    | intros (s0 & hint & d0 & Hin & Hg & Ht); cbn [In] in Hin;
      repeat match goal with
             | Hin : _ \/ _ |- _ => destruct Hin as [Hin|Hin]
             end;
      try contradiction; try discriminate;
      try (inversion Hin; subst; split; [congruence|exact Ht]) ].
Qed.

Lemma demangled_symbol_disabled (s : string) (w : World H) :
  can_demangle H = false -> demangled_symbol H s w = (Ret None, w, []).
Proof. intros Hc. unfold demangled_symbol. now rewrite Hc. Qed.

(** C4, amended: with demangling enabled, [demangled_symbol] calls the
    demangler on [s] with the hint; without the hint if that call returned
    nothing; and on [s[1:]] without the hint if no signature came out of
    these.  The first two calls share one [try]: a [DemangledException] or
    [java.lang.Exception] raised by either ends both with no result, so a
    failure of the first call skips the second.  No such exception of any
    of the three calls reaches the caller.  With demangling disabled no call
    is made and the result is [None]. *)
Theorem demangled_symbol_fallback_order (s : string) (w : World H) r w' tr :
  demangled_symbol H s w = (r, w', tr) ->
  (can_demangle H = true ->
   fallback_order s (demangle_attempts H tr) (raised r) /\ r <> OutOfFuel) /\
  (can_demangle H = false -> r = Ret None /\ tr = []) /\
  Forall (fun ev => is_demangle H ev = true) tr /\
  (forall e, r = Exc e -> caught_by_demangling e = false).
Proof.
  intros E.
  pose proof (demangled_symbol_events s w) as Hev. rewrite E in Hev.
  destruct Hev as [Hev _].
  assert (Hon : can_demangle H = true ->
                fallback_order s (demangle_attempts H tr) (raised r) /\
                r <> OutOfFuel).
  { intros Hc. pose proof (demangled_symbol_order s w Hc) as Ho.
    now rewrite E in Ho. }
  assert (Hoff : can_demangle H = false -> r = Ret None /\ tr = []).
  { intros Hc. rewrite (demangled_symbol_disabled s w Hc) in E.
    now injection E as <- _ <-. }
  repeat split; try tauto.
  intros e ->. destruct (can_demangle H).
  - destruct (Hon eq_refl) as [Ho _]. now apply fallback_order_escape in Ho.
  - destruct (Hoff eq_refl) as [Hr _]. discriminate.
Qed.

(** ** Traces of [add_symbol] *)

Lemma obtained_app (t1 t2 : list (event H)) (signature : string) :
  obtained H (t1 ++ t2) signature <->
  obtained H t1 signature \/ obtained H t2 signature.
Proof.
  unfold obtained. split.
  - intros (s & h & d & Hin & Hr). apply in_app_iff in Hin.
    destruct Hin; [left|right]; eauto 6.
  - intros [(s & h & d & Hin & Hr)|(s & h & d & Hin & Hr)];
      exists s, h, d; (split; [apply in_app_iff; auto|exact Hr]).
Qed.

Lemma obtained_filter (tr : list (event H)) (signature : string) :
  obtained H tr signature <-> obtained H (filter (is_demangle H) tr) signature.
Proof.
  unfold obtained. split; intros (s & h & d & Hin & Hr); exists s, h, d;
    (split; [|exact Hr]).
  - apply filter_In. now split.
  - now apply filter_In in Hin.
Qed.

Lemma filter_demangle_id (l : list (event H)) :
  Forall (fun ev => is_demangle H ev = true) l ->
  filter (is_demangle H) l = l.
Proof.
  induction 1 as [|ev l He _ IH]; [reflexivity|].
  cbn [filter]. now rewrite He, IH.
Qed.

Lemma not_in_demangle_trace (l : list (event H)) (ev : event H) :
  Forall (fun ev => is_demangle H ev = true) l -> is_demangle H ev = false ->
  ~ In ev l.
Proof.
  intros Hl He Hin. rewrite Forall_forall in Hl. apply Hl in Hin. congruence.
Qed.

Lemma name_events_absent (t : list (event H)) (ev : event H) :
  Forall (fun ev => is_name_event H ev = true) t ->
  is_name_event H ev = false -> ~ In ev t.
Proof.
  intros Ht He Hin. rewrite Forall_forall in Ht. apply Ht in Hin. congruence.
Qed.

Lemma obtained_after_name_events (t1 t2 : list (event H)) (signature : string) :
  Forall (fun ev => is_name_event H ev = true) t1 ->
  obtained H (t1 ++ t2) signature <-> obtained H t2 signature.
Proof.
  intros Ht. rewrite obtained_app. split; [|auto].
  intros [(s & h & d & Hin & _)|Ho]; [|exact Ho].
  exfalso. revert Hin. now apply name_events_absent.
Qed.

Ltac obtained_hyp Hx :=
  rewrite obtained_filter in Hx;
  repeat (cbn [filter is_demangle app] in Hx || rewrite filter_app in Hx);
  rewrite ?filter_demangle_id in Hx by assumption;
  rewrite ?app_nil_r in Hx.

Ltac obtained_goal :=
  rewrite obtained_filter;
  repeat (cbn [filter is_demangle app] || rewrite filter_app);
  rewrite ?filter_demangle_id by assumption;
  rewrite ?app_nil_r.

Ltac unfold_create_phase :=
  unfold symbol_create_phase;
  unfold bind, try_except, getInstructionAt, removeInstructionAt, disassemble,
    createFunction, setName, createLabel, getCodeUnitAt, setComment, call, ret,
    lift, of_answer;
  cbn [select_clause];
  repeat (run_step; cbv beta iota); subst; try discriminate.

(** ** Lines 229 to 247 *)

Lemma symbol_name_phase_run (symbol_name : string) (symbol_name_address : Z)
    (w : World H) :
  let '(r, w', tr) := symbol_name_phase H symbol_name symbol_name_address w in
  Forall (fun ev => is_name_event H ev = true) tr /\
  forall a e, In (EvCreateAsciiString H a (Raises e)) tr ->
    (isinstance e cls_CodeUnitInsertionException = true ->
     r = Ret (Some symbol_name)) /\
    (isinstance e cls_CodeUnitInsertionException = false ->
     isinstance e cls_BaseException = true -> r = Ret None) /\
    (isinstance e cls_CodeUnitInsertionException = false ->
     isinstance e cls_BaseException = false -> r = Exc e).
Proof.
  unfold symbol_name_phase.
  unfold bind, try_except, getDataAt, removeDataAt, createAsciiString, call,
    ret, of_answer.
  cbn [select_clause].
  repeat (run_step; cbv beta iota); subst; try discriminate.
  all: rewrite <- ?app_assoc, ?app_nil_r; cbn [app].
  all: split; [repeat constructor|].
  all: intros qa qe Hin; split_in Hin.
  all: inversion Hin; subst; clear Hin.
  all: repeat split; intros; congruence.
Qed.

(** ** Lines 250 to 302 *)

Lemma symbol_create_phase_events (a : Address) (n : string) (t : Z)
    (w : World H) :
  let '(r, w', tr) := symbol_create_phase H a n t w in
  Forall (fun ev => is_name_event H ev = false) tr.
Proof.
  unfold_create_phase.
  all: try match goal with
       | E : demangled_symbol H ?s ?w = (_, _, ?l) |- _ =>
           let Hd := fresh "Hd" in
           pose proof (demangled_symbol_events s w) as Hd; rewrite E in Hd;
           destruct Hd as [Hdem _]
       end.
  all: repeat (apply Forall_app; split); repeat constructor.
  all: eapply Forall_impl; [|exact Hdem]; intros ev Hev; now destruct ev.
Qed.

(** Where a function is created: it is created at the symbol's address
    under the symbol's name, and renamed to that name; without a demangled
    signature no label is asked for; with one, and the comment and renaming
    calls succeeding, the label is created. *)
Lemma symbol_create_phase_label (a : Address) (n : string) (t : Z)
    (w : World H) :
  let '(r, w', tr) := symbol_create_phase H a n t w in
  forall a' n' f,
    In (EvCreateFunction H a' n' (Returns (Some f))) tr ->
    a' = a /\ n' = n /\ In t need_create_function /\
    (exists r0, In (EvSetName H f n r0) tr) /\
    ((forall signature, ~ obtained H tr signature) ->
     forall a2 n2 p r2, ~ In (EvCreateLabel H a2 n2 p r2) tr) /\
    ((exists signature, obtained H tr signature) -> annotations_ok H tr ->
     In (EvCreateLabel H a n true (Returns tt)) tr).
Proof.
  unfold_create_phase.
  all: rewrite <- ?app_assoc, ?app_nil_r; cbn [app].
  all: intros qa qn qf Hin.
  all: try match goal with
       | E : demangled_symbol H ?s ?w = (_, _, ?l) |- _ =>
           let Hd := fresh "Hd" in
           pose proof (demangled_symbol_events s w) as Hd; rewrite E in Hd;
           destruct Hd as [Hdem Hsig]
       end.
  all: split_in Hin.
  all: try (exfalso; revert Hin; apply not_in_demangle_trace;
            [assumption|reflexivity]).
  all: inversion Hin; subst; clear Hin.
  all: repeat match goal with u : unit |- _ => destruct u end.
  all: split; [reflexivity|split; [reflexivity|]].
  all: split; [eapply need_create_function_In; eassumption|].
  all: split; [eexists; in_trace|].
  all: specialize (Hsig _ eq_refl).
  all: split;
    [ intros Hno xa xn xp xr Hin2; split_in Hin2;
      try (exfalso; revert Hin2; apply not_in_demangle_trace;
           [assumption|reflexivity]);
      match goal with
      | Hs : forall sig, Some ?s = Some sig /\ _ <-> _ |- _ =>
          apply (Hno s); obtained_goal; apply Hs;
          split; [reflexivity|assumption]
      end
    | intros [sig Hob] Hok; try in_trace;
      obtained_hyp Hob; apply Hsig in Hob; destruct Hob as [Hs Ht];
      try discriminate; inversion Hs; subst; try congruence ].
  all: exfalso.
  all: try (match goal with
            | E : demangle_function ?s = _, T : truthy ?s = true |- _ =>
                destruct (demangle_function_returns s T) as [? E'];
                rewrite E' in E; discriminate
            end).
  all: unfold annotations_ok in Hok;
    repeat (rewrite Forall_cons_iff in Hok || rewrite Forall_app in Hok);
    cbn [annotation_succeeded] in Hok; decompose [and] Hok; congruence.
Qed.

(** ** [add_symbol] *)

Lemma add_symbol_run (symbol_name : string) (symbol_name_address symbol_address
    symbol_type : Z) (w : World H) r w' tr :
  add_symbol H symbol_name symbol_name_address symbol_address symbol_type w
  = (r, w', tr) ->
  exists r1 w1 t1,
    symbol_name_phase H symbol_name symbol_name_address w = (r1, w1, t1) /\
    match r1 with
    | Ret (Some symbol_name_string) =>
        exists t2,
          symbol_create_phase H (vx_toAddr H symbol_address) symbol_name_string
            symbol_type w1 = (r, w', t2) /\ tr = (t1 ++ t2)%list
    | Ret None => r = Ret tt /\ w' = w1 /\ tr = t1
    | Exc e => r = Exc e /\ w' = w1 /\ tr = t1
    | OutOfFuel => r = OutOfFuel /\ w' = w1 /\ tr = t1
    end.
Proof.
  unfold add_symbol, bind. intros E.
  destruct (symbol_name_phase H symbol_name symbol_name_address w)
    as [[[[name|]|e|] w1] t1].
  - destruct (symbol_create_phase H (vx_toAddr H symbol_address) name
                symbol_type w1) as [[r2 w2] t2] eqn:E2.
    injection E as <- <- <-. exists (Ret (Some name)), w1, t1.
    split; [reflexivity|]. now exists t2.
  - unfold ret in E. injection E as <- <- <-.
    exists (Ret None), w1, t1. rewrite app_nil_r. auto.
  - injection E as <- <- <-. exists (Exc e), w1, t1. auto.
  - injection E as <- <- <-. exists OutOfFuel, w1, t1. auto.
Qed.

(** C2, amended: when [add_symbol] creates a function, which it does at the
    symbol's address and for a type tag in {0x04, 0x05} only, the function is
    renamed to the original name string; if the demangler gave no signature,
    no label is created; if it gave one, and the code unit lookup, the plate
    comment, the renamings and the label call do not fail, a label with the
    original name string is created at that address. *)
Theorem add_symbol_function_label (symbol_name : string)
    (symbol_name_address symbol_address symbol_type : Z) (w : World H)
    r w' tr a n f :
  add_symbol H symbol_name symbol_name_address symbol_address symbol_type w
  = (r, w', tr) ->
  In (EvCreateFunction H a n (Returns (Some f))) tr ->
  a = vx_toAddr H symbol_address /\
  In symbol_type need_create_function /\
  (exists r0, In (EvSetName H f n r0) tr) /\
  ((forall signature, ~ obtained H tr signature) ->
   forall a2 n2 p r2, ~ In (EvCreateLabel H a2 n2 p r2) tr) /\
  ((exists signature, obtained H tr signature) -> annotations_ok H tr ->
   In (EvCreateLabel H a n true (Returns tt)) tr).
Proof.
  intros E Hin.
  destruct (add_symbol_run _ _ _ _ _ _ _ _ E) as (r1 & w1 & t1 & E1 & Hr).
  pose proof (symbol_name_phase_run symbol_name symbol_name_address w) as Hn.
  rewrite E1 in Hn. destruct Hn as [Hn _].
  assert (Hnot : ~ In (EvCreateFunction H a n (Returns (Some f))) t1)
    by (now apply name_events_absent).
  destruct r1 as [[name|]|e|];
    try (destruct Hr as (_ & _ & ->); contradiction).
  destruct Hr as (t2 & E2 & ->).
  apply in_app_iff in Hin. destruct Hin as [Hin|Hin]; [contradiction|].
  pose proof (symbol_create_phase_label (vx_toAddr H symbol_address) name
                symbol_type w1) as Hc.
  rewrite E2 in Hc.
  destruct (Hc a n f Hin) as (-> & -> & Ht & [r0 Hset] & Hnone & Hsome).
  split; [reflexivity|]. split; [exact Ht|].
  split; [exists r0; apply in_app_iff; now right|]. split.
  - intros Hno a2 n2 p r2 Hl. apply in_app_iff in Hl. destruct Hl as [Hl|Hl].
    + revert Hl. now apply name_events_absent.
    + revert Hl. apply Hnone. intros sig Ho. apply (Hno sig).
      now apply obtained_after_name_events.
  - intros [sig Ho] Hok. apply in_app_iff. right. apply Hsome.
    + exists sig. now apply obtained_after_name_events in Ho.
    + unfold annotations_ok in *. apply Forall_app in Hok. tauto.
Qed.

End MaterializerFacts.

(** ** The examples *)

(** C4, the claim as stated fails: when the call with the hint raises, the
    call without the hint is not made, although here it would have given a
    signature; the next call is on the stripped string, and the result is
    [None]. *)
Lemma demangled_symbol_skips_second_attempt :
  demangled_symbol strict_host "_Z3fooi" tt =
    (Ret None, tt,
     [EvDemangle strict_host "_Z3fooi" true (Raises DemangledException);
      EvDemangle strict_host "Z3fooi" false (Returns None)]) /\
  strict_demangler "_Z3fooi" false = Returns (Some "foo(int)") /\
  ~ order_as_specified "_Z3fooi"
      (demangle_attempts strict_host
         (snd (demangled_symbol strict_host "_Z3fooi" tt))).
Proof.
  split; [reflexivity|]. split; [reflexivity|].
  intros [Ho|[(r1 & _ & Ho)|(r1 & r2 & r3 & _ & _ & Ho)]];
    vm_compute in Ho; discriminate.
Qed.

Lemma demangled_symbol_fallback_order_witness :
  demangled_symbol demangling_host "_Z3fooi" tt =
    (Ret (Some "foo(int)"), tt,
     [EvDemangle demangling_host "_Z3fooi" true (Returns (Some "foo(int)"))]) /\
  can_demangle demangling_host = true /\
  fallback_order "_Z3fooi" [("_Z3fooi", true, Found)] None.
Proof.
  match goal with
  | |- ?L = ?R /\ _ => assert (E : L = R) by reflexivity
  end.
  split; [exact E|]. split; [reflexivity|].
  exact (proj1 (proj1 (demangled_symbol_fallback_order demangling_host
                         "_Z3fooi" tt _ _ _ E) eq_refl)).
Defined.

(** C2, the claim as stated fails: the demangler finding nothing, the
    function is created and named, and no label is. *)
Lemma add_symbol_function_without_label :
  add_symbol plain_host "0x00001000" 0x2000 0x1000 0x04 tt =
    (Ret tt, tt,
     [EvGetDataAt plain_host (mkAddress 0x2000) (Returns None);
      EvCreateAsciiString plain_host (mkAddress 0x2000) (Returns "usrInit");
      EvGetInstructionAt plain_host (mkAddress 0x1000) (Returns false);
      EvDemangle plain_host "usrInit" true (Returns None);
      EvDemangle plain_host "usrInit" false (Returns None);
      EvDemangle plain_host "srInit" false (Returns None);
      EvDisassemble plain_host (mkAddress 0x1000) (Returns tt);
      EvCreateFunction plain_host (mkAddress 0x1000) "usrInit"
        (Returns (Some (mkAddress 0x1000)));
      EvSetName plain_host (mkAddress 0x1000) "usrInit" (Returns tt)]) /\
  ~ function_always_labelled plain_host.
Proof.
  assert (E : add_symbol plain_host "0x00001000" 0x2000 0x1000 0x04 tt =
    (Ret tt, tt,
     [EvGetDataAt plain_host (mkAddress 0x2000) (Returns None);
      EvCreateAsciiString plain_host (mkAddress 0x2000) (Returns "usrInit");
      EvGetInstructionAt plain_host (mkAddress 0x1000) (Returns false);
      EvDemangle plain_host "usrInit" true (Returns None);
      EvDemangle plain_host "usrInit" false (Returns None);
      EvDemangle plain_host "srInit" false (Returns None);
      EvDisassemble plain_host (mkAddress 0x1000) (Returns tt);
      EvCreateFunction plain_host (mkAddress 0x1000) "usrInit"
        (Returns (Some (mkAddress 0x1000)));
      EvSetName plain_host (mkAddress 0x1000) "usrInit" (Returns tt)]))
    by reflexivity.
  split; [exact E|]. intros Hc.
  destruct (Hc _ _ _ _ _ _ _ _ (mkAddress 0x1000) "usrInit" (mkAddress 0x1000) E)
    as [p Hin]; [in_trace|].
  split_in Hin.
Qed.

Lemma add_symbol_function_label_witness :
  let tr :=
    [EvGetDataAt demangling_host (mkAddress 0x2000) (Returns None);
     EvCreateAsciiString demangling_host (mkAddress 0x2000) (Returns "_Z3fooi");
     EvGetInstructionAt demangling_host (mkAddress 0x1000) (Returns false);
     EvDemangle demangling_host "_Z3fooi" true (Returns (Some "foo(int)"));
     EvDisassemble demangling_host (mkAddress 0x1000) (Returns tt);
     EvCreateFunction demangling_host (mkAddress 0x1000) "_Z3fooi"
       (Returns (Some (mkAddress 0x1000)));
     EvSetName demangling_host (mkAddress 0x1000) "_Z3fooi" (Returns tt);
     EvGetCodeUnitAt demangling_host (mkAddress 0x1000)
       (Returns (Some (mkAddress 0x1000)));
     EvSetComment demangling_host (mkAddress 0x1000) "foo(int)" (Returns tt);
     EvSetName demangling_host (mkAddress 0x1000) "foo" (Returns tt);
     EvCreateLabel demangling_host (mkAddress 0x1000) "_Z3fooi" true
       (Returns tt)] in
  add_symbol demangling_host "0x00001000" 0x2000 0x1000 0x04 tt = (Ret tt, tt, tr) /\
  In (EvCreateFunction demangling_host (mkAddress 0x1000) "_Z3fooi"
        (Returns (Some (mkAddress 0x1000)))) tr /\
  obtained demangling_host tr "foo(int)" /\
  annotations_ok demangling_host tr /\
  In (EvCreateLabel demangling_host (mkAddress 0x1000) "_Z3fooi" true
        (Returns tt)) tr.
Proof.
  intros tr.
  assert (E : add_symbol demangling_host "0x00001000" 0x2000 0x1000 0x04 tt =
              (Ret tt, tt, tr)) by reflexivity.
  assert (Hf : In (EvCreateFunction demangling_host (mkAddress 0x1000) "_Z3fooi"
                     (Returns (Some (mkAddress 0x1000)))) tr)
    by (unfold tr; in_trace).
  assert (Ho : obtained demangling_host tr "foo(int)").
  { exists "_Z3fooi", true, "foo(int)".
    split; [unfold tr; in_trace|]. now split. }
  assert (Hok : annotations_ok demangling_host tr)
    by (unfold tr; repeat constructor).
  split; [exact E|]. split; [exact Hf|]. split; [exact Ho|].
  split; [exact Hok|].
  apply (proj2 (proj2 (proj2 (proj2
           (add_symbol_function_label demangling_host _ _ _ _ _ _ _ _ _ _ _
              E Hf))))).
  - now exists "foo(int)".
  - exact Hok.
Defined.


(** * Further facts *)

(** ** The signature parser cuts its input *)

Lemma substring_zero_length (a : nat) (s : string) : substring a 0 s = EmptyString.
Proof.
  revert a; induction s as [|c s IH]; intros [|a]; simpl; auto.
Qed.

Lemma substring_whole (s : string) : substring 0 (String.length s) s = s.
Proof. induction s as [|c s IH]; simpl; congruence. Qed.

(** A prefix of length [a] followed by the next [m] characters. *)
Lemma substring_prefix_split (s : string) (a m : nat) :
  (a + m <= String.length s)%nat ->
  substring 0 (a + m) s = (substring 0 a s ++ substring a m s)%string.
Proof.
  revert a m; induction s as [|c s IH]; intros a m Hl; simpl in Hl.
  - assert (a = 0%nat) by lia. assert (m = 0%nat) by lia. subst. reflexivity.
  - destruct a as [|a].
    + destruct m; reflexivity.
    + cbn [Nat.add substring append]. rewrite IH by lia. reflexivity.
Qed.

Lemma substring_split (s : string) (a : nat) :
  (a <= String.length s)%nat ->
  s = (substring 0 a s ++ substring a (String.length s - a) s)%string.
Proof.
  intros Ha. rewrite <- substring_prefix_split by lia.
  replace (a + (String.length s - a))%nat with (String.length s) by lia.
  now rewrite substring_whole.
Qed.

Lemma substring_one (s : string) (i : nat) (c : ascii) :
  String.get i s = Some c -> substring i 1 s = String c EmptyString.
Proof.
  revert i; induction s as [|b s IH]; intros i Hg; [discriminate|].
  destruct i as [|i]; simpl in *.
  - injection Hg as ->. now rewrite substring_zero_length.
  - now apply IH.
Qed.

Lemma clamp_id (n i : Z) : 0 <= i <= n -> PyStr.clamp n i = i.
Proof.
  intros Hi. unfold PyStr.clamp.
  destruct (Z.ltb_spec i 0); [lia|]. cbv zeta.
  destruct (Z.ltb_spec i 0); [lia|].
  destruct (Z.ltb_spec n i); [lia|reflexivity].
Qed.

Lemma clamp_range (n i : Z) : 0 <= n -> 0 <= PyStr.clamp n i <= n.
Proof.
  intros Hn. unfold PyStr.clamp. cbv zeta.
  destruct (i <? 0);
    repeat match goal with
           | |- context [?a <? ?b] => destruct (Z.ltb_spec a b)
           end; lia.
Qed.

Lemma clamp_idem (n i : Z) :
  0 <= n -> PyStr.clamp n (PyStr.clamp n i) = PyStr.clamp n i.
Proof. intros Hn. apply clamp_id. now apply clamp_range. Qed.

Lemma slice_to (s : string) (hi : Z) :
  0 <= hi <= PyStr.len s ->
  PyStr.slice s None (Some hi) = substring 0 (Z.to_nat hi) s.
Proof.
  intros Hh. unfold PyStr.slice. rewrite clamp_id by exact Hh.
  destruct (Z.leb_spec hi 0).
  - assert (Z.to_nat hi = 0%nat) as -> by lia. now rewrite substring_zero_length.
  - now rewrite Z.sub_0_r.
Qed.

Lemma slice_from (s : string) (lo : Z) :
  0 <= lo <= PyStr.len s ->
  PyStr.slice s (Some lo) None =
  substring (Z.to_nat lo) (String.length s - Z.to_nat lo) s.
Proof.
  intros Hl. unfold PyStr.slice. rewrite clamp_id by exact Hl.
  destruct (Z.leb_spec (PyStr.len s) lo).
  - unfold PyStr.len in *.
    replace (String.length s - Z.to_nat lo)%nat with 0%nat by lia.
    now rewrite substring_zero_length.
  - unfold PyStr.len. f_equal. lia.
Qed.

Lemma slice_between (s : string) (lo hi : Z) :
  0 <= lo <= hi -> hi <= PyStr.len s ->
  PyStr.slice s (Some lo) (Some hi) =
  substring (Z.to_nat lo) (Z.to_nat hi - Z.to_nat lo) s.
Proof.
  intros Hl Hh. unfold PyStr.slice. rewrite !clamp_id by lia.
  destruct (Z.leb_spec hi lo).
  - replace (Z.to_nat hi - Z.to_nat lo)%nat with 0%nat by lia.
    now rewrite substring_zero_length.
  - f_equal. lia.
Qed.

Lemma len_nonneg (s : string) : 0 <= PyStr.len s.
Proof. unfold PyStr.len. lia. Qed.

Lemma slice_clamped_to (s : string) (hi : Z) :
  PyStr.slice s None (Some hi) =
  PyStr.slice s None (Some (PyStr.clamp (PyStr.len s) hi)).
Proof. unfold PyStr.slice. now rewrite clamp_idem by apply len_nonneg. Qed.

Lemma slice_clamped_from (s : string) (lo : Z) :
  PyStr.slice s (Some lo) None =
  PyStr.slice s (Some (PyStr.clamp (PyStr.len s) lo)) None.
Proof. unfold PyStr.slice. now rewrite clamp_idem by apply len_nonneg. Qed.

(** Every slice that starts at the beginning is a prefix, every slice that
    runs to the end is a suffix. *)
Lemma slice_to_prefix (s : string) (hi : Z) :
  exists post, s = (PyStr.slice s None (Some hi) ++ post)%string.
Proof.
  pose proof (clamp_range (PyStr.len s) hi (len_nonneg s)) as Hc.
  rewrite slice_clamped_to, slice_to by exact Hc.
  eexists. apply substring_split. unfold PyStr.len in *. lia.
Qed.

Lemma slice_from_suffix (s : string) (lo : Z) :
  exists pre, s = (pre ++ PyStr.slice s (Some lo) None)%string.
Proof.
  pose proof (clamp_range (PyStr.len s) lo (len_nonneg s)) as Hc.
  rewrite slice_clamped_from, slice_from by exact Hc.
  eexists. apply substring_split. unfold PyStr.len in *. lia.
Qed.

Lemma string_app_assoc (a b c : string) :
  ((a ++ b) ++ c = a ++ (b ++ c))%string.
Proof. induction a as [|x a IH]; simpl; congruence. Qed.

Lemma is_char_eq (c : ascii) (d : ascii) :
  is_char c (String d EmptyString) = true -> c = d.
Proof.
  unfold is_char. intros E. apply String.eqb_eq in E. now injection E.
Qed.

Lemma index_get (s : string) (i : Z) (c : ascii) :
  0 <= i -> PyStr.index s i = Ret c -> String.get (Z.to_nat i) s = Some c.
Proof.
  intros Hi. unfold PyStr.index.
  destruct (Z.ltb_spec i 0); [lia|].
  destruct (_ && _); [|discriminate].
  destruct (String.get (Z.to_nat i) s); [|discriminate].
  now intros E; injection E as ->.
Qed.

Lemma scan_name_result (s : string) (k : nat) (fne : Z) :
  (k <= String.length s)%nat ->
  (k = 0%nat \/ (Z.of_nat k - 1 <= fne /\ fne < PyStr.len s)) ->
  forall i e n, scan_name s k fne = Ret (i, e, n) ->
    -1 <= i /\ name_found s i e n.
Proof.
  revert fne; induction k as [|j IH]; intros fne Hk Hf i e n E.
  - simpl in E. injection E as <- <- <-. split; [lia|exact I].
  - cbn [scan_name] in E.
    destruct Hf as [Hf|Hf]; [discriminate|].
    destruct (PyStr.index s (Z.of_nat j)) as [c| |] eqn:Ec; try discriminate.
    cbn [obind] in E.
    destruct (is_char c " ") eqn:Esp.
    + destruct (String.eqb _ "*").
      * apply (IH (Z.of_nat j)); [lia| |exact E].
        destruct j; [now left|right]. unfold PyStr.len in *. lia.
      * destruct (check_is_func_name _) eqn:Echk.
        -- injection E as <- <- <-. split; [lia|]. split; [exact Echk|].
           destruct j as [|j]; [now left|right].
           apply is_char_eq in Esp. subst c.
           repeat split; try lia. exact Ec.
        -- apply (IH (Z.of_nat j)); [lia| |exact E].
           destruct j; [now left|right]. unfold PyStr.len in *. lia.
    + destruct (Z.of_nat j =? 0) eqn:Ez.
      * destruct (PyStr.index s fne) as [d| |]; try discriminate.
        cbn [obind] in E. injection E as <- <- <-.
        apply Z.eqb_eq in Ez. split; [lia|].
        unfold name_found.
        destruct (check_is_func_name _) eqn:Echk; [|exact I].
        split; [exact Echk|now left].
      * apply (IH fne); [lia| |exact E].
        destruct j; [now left|right]. lia.
Qed.

(** The triple of a non-empty string, by the positions the scans end on. *)
Lemma demangle_function_result (s : string) :
  s <> EmptyString ->
  exists i e n,
    demangle_function s =
    Ret (if negb (i =? 0) then Some (PyStr.slice s None (Some i)) else None,
         n, Some (PyStr.slice s (Some (e + 1)) None)) /\
    -1 <= i /\ name_found s i e n.
Proof.
  intros Hs. unfold demangle_function.
  assert (Hlen : 0 < PyStr.len s).
  { unfold PyStr.len. destruct s; [congruence|simpl String.length; lia]. }
  destruct (index_last s Hs) as [c Hc]. rewrite Hc. cbn [obind].
  destruct (is_char c ")").
  - destruct (scan_parameters_ok s (Z.to_nat (PyStr.len s - 1 + 1)) 0)
      as [idx [E [H1 H2]]].
    { unfold PyStr.len. lia. }
    rewrite E. cbn [obind].
    destruct (scan_name_ok s (Z.to_nat (idx + 1)) idx) as (i & e & n & En & _).
    { unfold PyStr.len in *. lia. }
    { unfold PyStr.len in *. lia. }
    rewrite En. cbn [obind]. exists i, e, n. split; [reflexivity|].
    apply (scan_name_result s (Z.to_nat (idx + 1)) idx); [| |exact En].
    { unfold PyStr.len in *. lia. }
    { unfold PyStr.len in *. lia. }
  - cbn [obind].
    destruct (scan_name_ok s (Z.to_nat (PyStr.len s - 1 + 1)) (PyStr.len s - 1))
      as (i & e & n & En & _).
    { unfold PyStr.len. lia. }
    { right. lia. }
    rewrite En. cbn [obind]. exists i, e, n. split; [reflexivity|].
    apply (scan_name_result s (Z.to_nat (PyStr.len s - 1 + 1)) (PyStr.len s - 1));
      [| |exact En].
    { unfold PyStr.len in *. lia. }
    { right. lia. }
Qed.

Lemma demangle_function_empty_input (t : option string * option string * option string) :
  demangle_function EmptyString <> Ret t.
Proof. intros E. vm_compute in E. discriminate. Qed.

(** X1: a function name that [demangle_function] returns passed
    [check_is_func_name]: it is made of identifier characters only and is
    none of Ghidra's built-in type names. *)
Theorem demangle_function_name_accepted (s : string)
    (function_return function_parameters : option string) (name : string) :
  demangle_function s =
    Ret (function_return, Some name, function_parameters) ->
  check_is_func_name name = true.
Proof.
  intros E. destruct s as [|c s].
  { now apply demangle_function_empty_input in E. }
  destruct (demangle_function_result (String c s)) as (i & e & n & E' & _ & Hn);
    [discriminate|].
  rewrite E' in E. injection E as _ -> _. now destruct Hn.
Qed.

(** X3: the parameters that [demangle_function] returns are a suffix of
    the signature, and the return type, where there is one, is a prefix of
    it. *)
Theorem demangle_function_cuts_the_input (s : string)
    (function_return function_name : option string) (parameters : string) :
  demangle_function s =
    Ret (function_return, function_name, Some parameters) ->
  (exists pre, s = (pre ++ parameters)%string) /\
  (forall return_type, function_return = Some return_type ->
     exists post, s = (return_type ++ post)%string).
Proof.
  intros E. destruct s as [|c s].
  { now apply demangle_function_empty_input in E. }
  destruct (demangle_function_result (String c s)) as (i & e & n & E' & _ & _);
    [discriminate|].
  rewrite E' in E. injection E as Hr _ Hp. split.
  - rewrite <- Hp. apply slice_from_suffix.
  - intros rt Hrt. rewrite Hrt in Hr.
    destruct (negb (i =? 0)); [|discriminate].
    injection Hr as <-. apply slice_to_prefix.
Qed.

(** X2: where [demangle_function] returns a return type, a name and
    parameters, the signature is the return type, one space, the name and the
    parameters, in this order and with nothing else. *)
Theorem demangle_function_reassembles (s : string)
    (return_type name parameters : string) :
  demangle_function s = Ret (Some return_type, Some name, Some parameters) ->
  s = (return_type ++ " " ++ name ++ parameters)%string.
Proof.
  intros E. destruct s as [|c0 s0].
  { now apply demangle_function_empty_input in E. }
  remember (String c0 s0) as s eqn:Es.
  destruct (demangle_function_result s) as (i & e & n & E' & Hi & Hn);
    [subst; discriminate|].
  rewrite E' in E. injection E as Hr Hname Hp. subst n.
  destruct (i =? 0) eqn:Ez; [discriminate|]. apply Z.eqb_neq in Ez.
  cbn [negb] in Hr. injection Hr as Hr.
  destruct Hn as [_ [Hz|(Hpos & Hie & Hel & Hsp & Hnm)]]; [contradiction|].
  rewrite slice_to in Hr by lia.
  rewrite slice_between in Hnm by lia.
  rewrite slice_from in Hp by lia.
  apply index_get in Hsp; [|lia].
  apply substring_one in Hsp.
  subst return_type name parameters.
  unfold PyStr.len in Hel.
  rewrite (substring_split s (Z.to_nat (e + 1))) at 1 by lia.
  replace (Z.to_nat (e + 1)) with
    (Z.to_nat (i + 1) + (Z.to_nat (e + 1) - Z.to_nat (i + 1)))%nat at 1 by lia.
  rewrite substring_prefix_split by lia.
  replace (Z.to_nat (i + 1)) with (Z.to_nat i + 1)%nat at 1 by lia.
  rewrite substring_prefix_split by lia.
  rewrite Hsp. rewrite !string_app_assoc. reflexivity.
Qed.

(** ** Accepted symbol files *)

Lemma occurs_in_app (needle hay more : string) :
  occurs_in needle hay -> occurs_in needle (hay ++ more).
Proof.
  intros (pre & post & ->). exists pre, (post ++ more)%string.
  now rewrite !string_app_assoc.
Qed.

Lemma u32_of_bytes_bound (big_endian : bool) (b0 b1 b2 b3 : ascii) :
  0 <= u32_of_bytes big_endian b0 b1 b2 b3 < 4294967296.
Proof.
  unfold u32_of_bytes.
  pose proof (nat_ascii_bounded b0). pose proof (nat_ascii_bounded b1).
  pose proof (nat_ascii_bounded b2). pose proof (nat_ascii_bounded b3).
  destruct big_endian; lia.
Qed.

(** X4: a buffer that [is_vx_symbol_file] accepts has at least 7 and less
    than 2^32 bytes, and is rejected as soon as anything is appended to
    it. *)
Theorem is_vx_symbol_file_accepted (file_data : string) (is_big_endian : bool) :
  is_vx_symbol_file file_data is_big_endian = Ret true ->
  7 <= PyStr.len file_data < 4294967296 /\
  forall more, more <> EmptyString ->
    is_vx_symbol_file (file_data ++ more) is_big_endian = Ret false.
Proof.
  intros E.
  assert (Hf : has_fingerprints file_data).
  { apply key_function_missing_spec. unfold is_vx_symbol_file in E.
    destruct (key_function_missing function_name_key_words file_data);
      [discriminate|reflexivity]. }
  assert (Hlen : (7 <= String.length file_data)%nat).
  { destruct Hf as [_ [Hu _]]. apply occurs_in_length in Hu. exact Hu. }
  destruct file_data as [|b0 [|b1 [|b2 [|b3 rest]]]]; simpl in Hlen; try lia.
  rewrite (is_vx_symbol_file_on_four is_big_endian b0 b1 b2 b3 rest Hf) in E.
  injection E as E. apply Z.eqb_eq in E.
  pose proof (u32_of_bytes_bound is_big_endian b0 b1 b2 b3) as Hb.
  split.
  - rewrite <- E. unfold PyStr.len in *. cbn [String.length] in *. lia.
  - intros more Hm.
    assert (Hf' : has_fingerprints
                    (String b0 (String b1 (String b2 (String b3
                       (rest ++ more)))))).
    { destruct Hf as (H1 & H2 & H3).
      repeat split; now apply (occurs_in_app _ _ more) in H1, H2, H3. }
    cbn [append].
    rewrite (is_vx_symbol_file_on_four is_big_endian b0 b1 b2 b3
               (rest ++ more) Hf').
    f_equal. apply Z.eqb_neq. rewrite E. unfold PyStr.len.
    cbn [String.length]. rewrite length_app.
    destruct more; [congruence|]. cbn [String.length]. lia.
Qed.

(** ** Walkers, further *)

Section MoreWalkerFacts.

Variable H : Host.

Lemma all_events_ret {A : Type} (P : event H -> Prop) (a : A) :
  all_events H P (ret H a).
Proof. intros w. constructor. Qed.

Lemma all_events_lift {A : Type} (P : event H -> Prop) (o : outcome A) :
  all_events H P (lift H o).
Proof. intros w. constructor. Qed.

Lemma all_events_bind {A B : Type} (P : event H -> Prop) (m : M H A)
    (k : A -> M H B) :
  all_events H P m -> (forall a, all_events H P (k a)) ->
  all_events H P (bind H m k).
Proof.
  intros Hm Hk w. unfold bind. specialize (Hm w).
  destruct (m w) as [[[a|e|] w1] t1]; cbn [snd] in *; try exact Hm.
  specialize (Hk a w1). destruct (k a w1) as [[r w2] t2]. cbn [snd] in *.
  apply Forall_app. now split.
Qed.

Lemma all_events_call {A : Type} (P : event H -> Prop)
    (op : World H -> answer A * World H) (ev : answer A -> event H) :
  (forall r, P (ev r)) -> all_events H P (call H op ev).
Proof.
  intros Hp w. unfold call. destruct (op w) as [r w1]. cbn [snd].
  constructor; [apply Hp|constructor].
Qed.

Lemma all_events_try_except {A : Type} (P : event H -> Prop) (body : M H A)
    (clauses : list (exc_class * M H A)) :
  all_events H P body -> Forall (fun c => all_events H P (snd c)) clauses ->
  all_events H P (try_except H body clauses).
Proof.
  intros Hb Hc w. unfold try_except. specialize (Hb w).
  destruct (body w) as [[[a|e|] w1] t1]; cbn [snd] in *; try exact Hb.
  assert (Hs : forall h, select_clause H clauses e = Some h -> all_events H P h).
  { clear -Hc. induction clauses as [|[c h0] rest IH]; intros h E;
      [discriminate|].
    cbn [select_clause] in E. inversion Hc; subst.
    destruct (isinstance e c); [injection E as <-; assumption|auto]. }
  destruct (select_clause H clauses e) as [h|] eqn:Eh; [|exact Hb].
  specialize (Hs h eq_refl w1). destruct (h w1) as [[r w2] t2].
  cbn [snd] in *. apply Forall_app. now split.
Qed.

Lemma all_events_for_each {A : Type} (P : event H -> Prop) (l : list A)
    (body : A -> M H unit) :
  (forall x, all_events H P (body x)) -> all_events H P (for_each H l body).
Proof.
  intros Hb. induction l as [|x l IH]; cbn [for_each].
  - apply all_events_ret.
  - apply all_events_bind; [apply Hb|intros _; exact IH].
Qed.

Lemma all_events_impl {A : Type} (P Q : event H -> Prop) (m : M H A) :
  (forall ev, P ev -> Q ev) -> all_events H P m -> all_events H Q m.
Proof. intros Hi Hm w. eapply Forall_impl; [exact Hi|apply Hm]. Qed.

(** ** [create_struct] *)

(** The removal loop returns or raises, makes [removeDataAt] calls only, and
    returns only when each of them did. *)
Lemma remove_loop_trace (data_address : Address) (offsets : list Z) w :
  let '(r, w', tr) :=
    for_each H offsets
      (fun offset => bind H (lift H (add H data_address offset))
                            (fun a => removeDataAt H a)) w in
  r <> OutOfFuel /\ Forall (is_remove_event H) tr /\
  (r = Ret tt -> Forall (removal_returned H) tr).
Proof.
  revert w; induction offsets as [|o rest IH]; intros w.
  - cbn. repeat split; try constructor. discriminate.
  - cbn [for_each]. unfold bind at 1. unfold bind at 1. unfold lift at 1.
    destruct (add H data_address o) as [a|e|] eqn:Ea.
    + unfold removeDataAt at 1, call.
      destruct (api_removeDataAt H a w) as [[[]|e] w1]; cbn [of_answer].
      * specialize (IH w1).
        destruct (for_each H rest _ w1) as [[r w2] t2].
        destruct IH as (Hr & Ht & Hok). cbn [app].
        repeat split; [exact Hr|constructor; [exact I|exact Ht]|].
        intros E. constructor; [exact I|auto].
      * repeat split; [discriminate|repeat constructor|discriminate].
    + repeat split; [discriminate|constructor|discriminate].
    + unfold add in Ea. destruct (_ && _); discriminate.
Qed.

(** X5: [create_struct] never raises; outside the program it makes no
    call and leaves the state alone; it calls [removeDataAt] and [createData]
    only; and [createData] is called on the given address with the given
    type, only after every removal returned. *)
Theorem create_struct_contained (data_address : Address) (dt : DataType)
    (overwrite : bool) (w : World H) r w' tr :
  create_struct H data_address dt overwrite w = (r, w', tr) ->
  r = Ret tt /\
  (is_address_in_current_program H data_address = false -> w' = w /\ tr = []) /\
  Forall (is_struct_event H) tr /\
  (forall a' dt' r', In (EvCreateData H a' dt' r') tr ->
     a' = data_address /\ dt' = dt /\ Forall (removal_returned H) tr).
Proof.
  unfold create_struct.
  destruct (is_address_in_current_program H data_address); cbn [negb].
  2:{ unfold ret. intros E. injection E as <- <- <-.
      split; [reflexivity|]. split; [auto|]. split; [constructor|].
      intros a' dt' r' []. }
  unfold try_except, bind at 1.
  assert (Hpre :
    let '(r, w', tr) :=
      (if overwrite then for_each H (range (getLength H dt))
          (fun offset => bind H (lift H (add H data_address offset))
                              (fun a => removeDataAt H a))
       else ret H tt) w in
    r <> OutOfFuel /\ Forall (is_remove_event H) tr /\
    (r = Ret tt -> Forall (removal_returned H) tr)).
  { destruct overwrite; [apply remove_loop_trace|].
    cbn. repeat split; try constructor. discriminate. }
  match type of Hpre with
  | context [match ?x with _ => _ end] => destruct x as [[r1 w1] t1]
  end.
  destruct Hpre as (Hr & Ht & Hok).
  assert (Hs : Forall (is_struct_event H) t1).
  { eapply Forall_impl; [|exact Ht]. intros ev. now destruct ev. }
  assert (Hnc : forall a' dt' r', ~ In (EvCreateData H a' dt' r') t1).
  { intros a' dt' r' Hin. rewrite Forall_forall in Ht. now apply Ht in Hin. }
  destruct r1 as [[]|e|]; [| |congruence].
  - unfold createData, call.
    destruct (api_createData H data_address dt w1) as [ans w2].
    assert (Hall : Forall (removal_returned H)
                     (t1 ++ [EvCreateData H data_address dt ans])).
    { apply Forall_app. split; [auto|repeat constructor]. }
    destruct ans as [[]|e]; cbn [of_answer select_clause isinstance];
      unfold ret; intros E; injection E as <- <- <-.
    + split; [reflexivity|]. split; [discriminate|]. split.
      * apply Forall_app. split; [exact Hs|repeat constructor].
      * intros a' dt' r' Hin. apply in_app_iff in Hin.
        destruct Hin as [Hin|[Hin|[]]]; [now apply Hnc in Hin|].
        injection Hin as <- <- <-. auto.
    + split; [reflexivity|]. split; [discriminate|]. split.
      * rewrite app_nil_r. apply Forall_app. split; [exact Hs|repeat constructor].
      * rewrite app_nil_r. intros a' dt' r' Hin. apply in_app_iff in Hin.
        destruct Hin as [Hin|[Hin|[]]]; [now apply Hnc in Hin|].
        injection Hin as <- <- <-. auto.
  - cbn [select_clause isinstance]. unfold ret. intros E.
    injection E as <- <- <-. rewrite app_nil_r.
    split; [reflexivity|]. split; [discriminate|]. split; [exact Hs|].
    intros a' dt' r' Hin. now apply Hnc in Hin.
Qed.

Lemma lift_getInt_inv (a : Address) (v : Z) w w1 t1 :
  lift H (of_answer (getInt H a)) w = (Ret v, w1, t1) ->
  getInt H a = Returns v /\ w1 = w /\ t1 = [].
Proof.
  unfold lift. destruct (getInt H a) as [v0|e]; cbn; intros E; [|discriminate].
  injection E as <- <- <-. auto.
Qed.

Lemma Address_eta (a : Address) : mkAddress (getOffset a) = a.
Proof. now destruct a. Qed.

Tactic Notation "bind_inv" hyp(E) ident(x) ident(w1) ident(t1) ident(t2)
    ident(E1) :=
  apply bind_Ret_inv in E; destruct E as (x & w1 & t1 & t2 & E1 & E & ->).

(** X6: for version 5, [fix_clpool] returns nothing, makes no call and
    leaves the state alone for a null address and for one outside the
    program, whatever the state and the fuel; and a record it returns holds
    the address and the words read at offsets 0x00, 0x08, 0x0c, 0x10 and
    0x14 of the pool. *)
Theorem fix_clpool_record (fuel : nat) (clpool_addr : Address) (w : World H) :
  (getOffset clpool_addr = 0 \/
   is_address_in_current_program H clpool_addr = false ->
   fix_clpool H fuel clpool_addr 5 w = (Ret None, w, [])) /\
  (forall result w' tr,
     fix_clpool H fuel clpool_addr 5 w = (Ret result, w', tr) ->
     match result with
     | None =>
         (getOffset clpool_addr = 0 \/
          is_address_in_current_program H clpool_addr = false) /\
         w' = w /\ tr = []
     | Some info =>
         getOffset clpool_addr <> 0 /\
         is_address_in_current_program H clpool_addr = true /\
         cl_pool_addr info = getOffset clpool_addr /\
         (exists v,
            getInt H (mkAddress (getOffset clpool_addr + 0x00)) = Returns v /\
            cl_pool_size info = Some v) /\
         (exists v,
            getInt H (mkAddress (getOffset clpool_addr + 0x08)) = Returns v /\
            cl_pool_num info = Some v) /\
         (exists v,
            getInt H (mkAddress (getOffset clpool_addr + 0x0c)) = Returns v /\
            cl_pool_num_free info = Some v) /\
         (exists v,
            getInt H (mkAddress (getOffset clpool_addr + 0x10)) = Returns v /\
            cl_pool_usage info = Some v) /\
         (exists v,
            getInt H (mkAddress (getOffset clpool_addr + 0x14)) = Returns v /\
            cl_head_addr info = Some (getOffset (toAddr H v)))
     end).
Proof.
  split.
  { unfold fix_clpool. replace (5 =? 5) with true by reflexivity.
    intros [Hz|Hout].
    - rewrite Hz. reflexivity.
    - destruct (getOffset clpool_addr =? 0); [reflexivity|].
      rewrite Hout. reflexivity. }
  intros result w' tr.
  unfold fix_clpool. replace (5 =? 5) with true by reflexivity.
  destruct (Z.eqb_spec (getOffset clpool_addr) 0) as [Hz|Hz].
  { unfold ret. intros E. injection E as <- <- <-. auto. }
  destruct (is_address_in_current_program H clpool_addr) eqn:Hin.
  2:{ unfold ret. intros E. injection E as <- <- <-. auto. }
  intros E.
  bind_inv E u0 w0 t0 t0' E0. clear E0.
  bind_inv E a14 wa ta ta' E1. apply lift_add_inv in E1. destruct E1 as (-> & -> & ->).
  bind_inv E head wb tb tb' E1. apply read_pointer_inv in E1.
  destruct E1 as ((vh & Hvh & ->) & -> & ->).
  bind_inv E a00 wc tc tc' E1. apply lift_add_inv in E1. destruct E1 as (-> & -> & ->).
  bind_inv E size wd td td' E1. apply lift_getInt_inv in E1. destruct E1 as (Hsize & -> & ->).
  bind_inv E a08 we te te' E1. apply lift_add_inv in E1. destruct E1 as (-> & -> & ->).
  bind_inv E num wf tf tf' E1. apply lift_getInt_inv in E1. destruct E1 as (Hnum & -> & ->).
  bind_inv E a0c wg tg tg' E1. apply lift_add_inv in E1. destruct E1 as (-> & -> & ->).
  bind_inv E free wh th th' E1. apply lift_getInt_inv in E1. destruct E1 as (Hfree & -> & ->).
  bind_inv E a10 wi ti ti' E1. apply lift_add_inv in E1. destruct E1 as (-> & -> & ->).
  bind_inv E usage wj tj tj' E1. apply lift_getInt_inv in E1. destruct E1 as (Husage & -> & ->).
  bind_inv E u1 wk tk tk' E1. clear E1.
  unfold ret in E. injection E as <- <- <-.
  cbn. repeat split; eauto.
Qed.

(** X7: what [fix_tcb] returns for version 5: the address, the data found
    at the pointer of offset 0x34, the pointer of offset 0x74 with the
    function found there, and the pointers of offsets 0x78, 0x7c and
    0x80. *)
Theorem fix_tcb_record (tcb_address : Address) (w : World H) info w' tr :
  fix_tcb H tcb_address 5 w = (Ret (Some info), w', tr) ->
  tcb_addr H info = getOffset tcb_address /\
  (exists v, getInt H (mkAddress (getOffset tcb_address + 0x34)) = Returns v /\
             In (EvGetDataAt H (toAddr H v) (Returns (task_name H info))) tr) /\
  (exists v, getInt H (mkAddress (getOffset tcb_address + 0x74)) = Returns v /\
             task_entry_addr H info = Some (getOffset (toAddr H v)) /\
             In (EvGetFunctionAt H (toAddr H v)
                   (Returns (task_entry_name H info))) tr) /\
  (exists v, getInt H (mkAddress (getOffset tcb_address + 0x78)) = Returns v /\
             task_stack_base H info = Some (getOffset (toAddr H v))) /\
  (exists v, getInt H (mkAddress (getOffset tcb_address + 0x7c)) = Returns v /\
             task_stack_limit H info = Some (getOffset (toAddr H v))) /\
  (exists v, getInt H (mkAddress (getOffset tcb_address + 0x80)) = Returns v /\
             task_stack_limit_end H info = Some (getOffset (toAddr H v))).
Proof.
  unfold fix_tcb. replace (5 =? 5) with true by reflexivity. intros E.
  bind_inv E u0 w0 t0 t0' E0. clear E0.
  bind_inv E p34 wa ta ta' E1. apply lift_add_inv in E1. destruct E1 as (-> & -> & ->).
  bind_inv E name_addr wb tb tb' E1. apply read_pointer_inv in E1.
  destruct E1 as ((v34 & H34 & ->) & -> & ->).
  bind_inv E name wc tc tc' E1.
  assert (Hname : tc = [EvGetDataAt H (toAddr H v34) (Returns name)]).
  { unfold getDataAt, call in E1.
    destruct (api_getDataAt H (toAddr H v34) w0) as [[x|e] w2]; cbn in E1;
      [|discriminate]. now injection E1 as <- _ <-. }
  clear E1.
  bind_inv E p74 wd td td' E1. apply lift_add_inv in E1. destruct E1 as (-> & -> & ->).
  bind_inv E entry we te te' E1. apply read_pointer_inv in E1.
  destruct E1 as ((v74 & H74 & ->) & -> & ->).
  bind_inv E entry_name wf tf tf' E1.
  assert (Hentry : tf = [EvGetFunctionAt H (toAddr H v74) (Returns entry_name)]).
  { unfold getFunctionAt, call in E1.
    destruct (api_getFunctionAt H (toAddr H v74) wc) as [[x|e] w2]; cbn in E1;
      [|discriminate]. now injection E1 as <- _ <-. }
  clear E1.
  bind_inv E p78 wg tg tg' E1. apply lift_add_inv in E1. destruct E1 as (-> & -> & ->).
  bind_inv E base wh th th' E1. apply read_pointer_inv in E1.
  destruct E1 as ((v78 & H78 & ->) & -> & ->).
  bind_inv E p7c wi ti ti' E1. apply lift_add_inv in E1. destruct E1 as (-> & -> & ->).
  bind_inv E limit wj tj tj' E1. apply read_pointer_inv in E1.
  destruct E1 as ((v7c & H7c & ->) & -> & ->).
  bind_inv E p80 wk tk tk' E1. apply lift_add_inv in E1. destruct E1 as (-> & -> & ->).
  bind_inv E limit_end wl tl tl' E1. apply read_pointer_inv in E1.
  destruct E1 as ((v80 & H80 & ->) & -> & ->).
  unfold ret in E. injection E as <- <- <-. subst tc tf.
  cbn [tcb_addr task_name task_entry_addr task_entry_name task_stack_base
       task_stack_limit task_stack_limit_end].
  split; [reflexivity|].
  split; [exists v34; split; [exact H34|]|].
  { repeat rewrite in_app_iff. cbn [In]. tauto. }
  split; [exists v74; split; [exact H74|split; [reflexivity|]]|].
  { repeat rewrite in_app_iff. cbn [In]. tauto. }
  repeat split; eauto.
Qed.

Lemma create_struct_events (a : Address) (dt : DataType) (ov : bool) :
  all_events H (is_struct_event H) (create_struct H a dt ov).
Proof.
  unfold create_struct.
  destruct (negb _); [apply all_events_ret|].
  apply all_events_try_except.
  - apply all_events_bind.
    + destruct ov; [|apply all_events_ret].
      apply all_events_for_each. intros x.
      apply all_events_bind; [apply all_events_lift|].
      intros b. apply all_events_call. intros r. exact I.
    + intros _. apply all_events_call. intros r. exact I.
  - constructor; [apply all_events_ret|constructor].
Qed.

Lemma read_pointer_events (P : event H -> Prop) (a : Address) :
  all_events H P (read_pointer H a).
Proof.
  unfold read_pointer. apply all_events_bind; [apply all_events_lift|].
  intros v. apply all_events_ret.
Qed.

Lemma pool_func_loop_events (names : list string) (a : Address) (off : Z) :
  incl names (vx_5_pool_func_dict H) ->
  all_events H (pool_func_event H) (pool_func_loop H names a off).
Proof.
  revert off; induction names as [|name rest IH]; intros off Hi;
    cbn [pool_func_loop].
  - apply all_events_ret.
  - assert (Hn : In name (vx_5_pool_func_dict H)) by (apply Hi; now left).
    apply all_events_bind; [apply all_events_lift|]. intros b.
    apply all_events_bind; [apply read_pointer_events|]. intros func_addr.
    apply all_events_bind.
    + destruct (is_address_in_current_program H func_addr) eqn:Hp;
        [|apply all_events_ret].
      apply all_events_bind; [apply all_events_call; intros r; exact Hp|].
      intros _. apply all_events_bind.
      * apply all_events_call. intros r. now split.
      * intros [f|]; apply all_events_call; intros r; cbn; auto.
    + intros _. apply IH. intros x Hx. apply Hi. now right.
Qed.

(** X8: [fix_pool_func_tbl] types data, and disassembles, creates
    functions and creates labels only at addresses inside the program and
    only under names of [vx_5_pool_func_dict]; it makes no other call. *)
Theorem fix_pool_func_tbl_events (pool_func_addr : Address) (vx_version : Z) :
  all_events H (pool_func_event H)
    (fix_pool_func_tbl H pool_func_addr vx_version).
Proof.
  unfold fix_pool_func_tbl.
  destruct (vx_version =? 5); [|apply all_events_ret].
  destruct (getOffset pool_func_addr =? 0); [apply all_events_ret|].
  apply all_events_bind.
  - destruct (is_address_in_current_program H pool_func_addr);
      [|apply all_events_ret].
    eapply all_events_impl; [|apply create_struct_events].
    intros ev. now destruct ev.
  - intros _. apply pool_func_loop_events. apply incl_refl.
Qed.

Lemma In_range (n i : Z) : In i (range n) <-> 0 <= i < n.
Proof.
  unfold range. rewrite in_map_iff. split.
  - intros [k [<- Hk]]. apply in_seq in Hk. lia.
  - intros Hi. exists (Z.to_nat i). split; [lia|]. apply in_seq. lia.
Qed.

Lemma fix_clpool_some (fuel : nat) (a : Address) (v : Z) w info w' tr :
  fix_clpool H fuel a v w = (Ret (Some info), w', tr) ->
  cl_pool_addr info = getOffset a /\ getOffset a <> 0 /\
  is_address_in_current_program H a = true.
Proof.
  unfold fix_clpool. destruct (v =? 5); [|discriminate].
  destruct (Z.eqb_spec (getOffset a) 0); [discriminate|].
  destruct (is_address_in_current_program H a); [|discriminate].
  intros E.
  repeat (apply bind_Ret_inv in E;
          destruct E as (? & ? & ? & ? & _ & E & _)).
  unfold ret in E. injection E as <- _ _. cbn. auto.
Qed.

Lemma cl_pool_table_loop_entries (fuel : nat) (pool_table : Address) (v : Z)
    (indices : list Z) :
  forall acc w infos w' tr,
    (forall i, In i indices -> 0 <= i < VX_5_CL_TBL_SIZE H) ->
    cl_pool_table_loop H fuel indices pool_table v acc w = (Ret infos, w', tr) ->
    (List.length infos <= List.length acc + List.length indices)%nat /\
    (Forall (table_entry H pool_table) acc ->
     Forall (table_entry H pool_table) infos).
Proof.
  induction indices as [|i rest IH]; intros acc w infos w' tr Hi E;
    cbn [cl_pool_table_loop] in E.
  - unfold ret in E. injection E as <- _ _. split; [simpl; lia|auto].
  - bind_inv E b wa ta ta' E1. apply lift_add_inv in E1.
    destruct E1 as (-> & -> & ->).
    bind_inv E pool wb tb tb' E1. apply read_pointer_inv in E1.
    destruct E1 as ((pv & Hpv & ->) & -> & ->).
    bind_inv E res wc tc tc' E1.
    apply IH in E; [|intros j Hj; apply Hi; now right].
    destruct E as [Hlen Hall]. destruct res as [info|].
    + apply fix_clpool_some in E1. destruct E1 as (Ha & Hnz & Hp).
      cbn beta iota in Hlen, Hall. rewrite List.length_app in Hlen.
      cbn [List.length] in *. split; [lia|].
      intros Hacc. apply Hall. apply Forall_app. split; [exact Hacc|].
      constructor; [|constructor].
      exists i, pv. split; [apply Hi; now left|]. auto.
    + cbn beta iota in Hlen, Hall. cbn [List.length] in *.
      split; [lia|exact Hall].
Qed.

(** X9: the record of [fix_netpool] for version 5 holds the descriptor's
    address, the pointer read at offset 0x54, and at most
    [VX_5_CL_TBL_SIZE] cluster pools, each one at a non-null pointer of the
    table at offset 0x24 that lies inside the program. *)
Theorem fix_netpool_cl_pool_info (fuel : nat) (netpool_addr : Address)
    (w : World H) info w' tr :
  fix_netpool H fuel netpool_addr 5 w = (Ret (Some info), w', tr) ->
  pool_addr info = getOffset netpool_addr /\
  (exists v, getInt H (mkAddress (getOffset netpool_addr + 0x54)) = Returns v /\
             pool_func_tbl_addr info = Some (getOffset (toAddr H v))) /\
  (Z.of_nat (List.length (cl_pool_info info)) <= Z.max 0 (VX_5_CL_TBL_SIZE H)) /\
  Forall (table_entry H (mkAddress (getOffset netpool_addr + 0x24)))
    (cl_pool_info info).
Proof.
  unfold fix_netpool. replace (5 =? 5) with true by reflexivity. intros E.
  bind_inv E u0 wa ta ta' E0. clear E0.
  bind_inv E pool_table wb tb tb' E1. apply lift_add_inv in E1.
  destruct E1 as (-> & -> & ->).
  bind_inv E a50 wc tc tc' E1. apply lift_add_inv in E1.
  destruct E1 as (-> & -> & ->).
  bind_inv E status wd td td' E1. apply read_pointer_inv in E1.
  destruct E1 as ((v50 & H50 & ->) & -> & ->).
  bind_inv E a54 we te te' E1. apply lift_add_inv in E1.
  destruct E1 as (-> & -> & ->).
  bind_inv E func wf tf tf' E1. apply read_pointer_inv in E1.
  destruct E1 as ((v54 & H54 & ->) & -> & ->).
  bind_inv E infos wg tg tg' E1.
  bind_inv E u1 wh th th' E2. clear E2.
  bind_inv E u2 wi ti ti' E3. clear E3.
  unfold ret in E. injection E as <- _ _.
  cbn [pool_addr pool_func_tbl_addr cl_pool_info].
  apply cl_pool_table_loop_entries in E1;
    [|intros i Hi; now apply In_range in Hi].
  destruct E1 as [Hlen Hall]. cbn [List.length cl_pool_info] in Hlen.
  split; [reflexivity|]. split; [now exists v54|]. split.
  - unfold range in Hlen. rewrite length_map, length_seq in Hlen. lia.
  - apply Hall. constructor.
Qed.

(** ** A chain that does not come back to its start *)

Lemma loop_never_returns (cl_buff_addr : Address) (buffers : nat -> Address) :
  (forall n, is_address_in_current_program H (buffers n) = true /\
             link H (buffers n) (buffers (S n)) /\
             buffers (S n) <> cl_buff_addr) ->
  forall fuel n w,
    fst (fst (cl_buff_chain_loop H fuel cl_buff_addr (buffers n) w)) = OutOfFuel.
Proof.
  intros Hb. induction fuel as [|fuel IH]; intros n w; [reflexivity|].
  cbn [cl_buff_chain_loop]. destruct (Hb n) as (Hp & Hl & Hne). rewrite Hp.
  unfold bind at 1.
  destruct (create_struct_run H (buffers n) vx_5_cl_buff true w)
    as [w1 [t1 [E1 _]]].
  rewrite E1. unfold bind at 1.
  rewrite (read_pointer_link H (buffers n) (buffers (S n)) w1 Hl).
  destruct (Address_eqb (buffers (S n)) cl_buff_addr) eqn:Eb.
  { apply Address_eqb_eq in Eb. contradiction. }
  specialize (IH (S n) w1).
  destruct (cl_buff_chain_loop H fuel cl_buff_addr (buffers (S n)) w1)
    as [[r w2] t2].
  cbn [fst] in *. now subst r.
Qed.

(** X10: on a chain of buffers inside the program that never comes back
    to the first one, as when it runs into a cycle further on,
    [fix_cl_buff_chain] does not return: no amount of fuel is enough. *)
Theorem fix_cl_buff_chain_never_returns (cl_buff_addr : Address)
    (buffers : nat -> Address) (fuel : nat) (w : World H) :
  getOffset cl_buff_addr <> 0 ->
  buffers 0%nat = cl_buff_addr ->
  (forall n, is_address_in_current_program H (buffers n) = true /\
             link H (buffers n) (buffers (S n)) /\
             buffers (S n) <> cl_buff_addr) ->
  fst (fst (fix_cl_buff_chain H fuel cl_buff_addr 5 w)) = OutOfFuel.
Proof.
  intros Hz H0 Hb. unfold fix_cl_buff_chain.
  replace (5 =? 5) with true by reflexivity.
  apply Z.eqb_neq in Hz. rewrite Hz. rewrite <- H0 at 2.
  now apply loop_never_returns.
Qed.

End MoreWalkerFacts.

(** ** [add_symbol], further *)

Section MoreMaterializerFacts.

Variable H : Host.

Lemma demangle_events (P : event H -> Prop) (s : string) (hint : bool) :
  (forall r, P (EvDemangle H s hint r)) -> all_events H P (demangle H s hint).
Proof. intros Hp. unfold demangle. now apply all_events_call. Qed.

Lemma demangled_symbol_calls (P : event H -> Prop) (s : string) :
  (can_demangle H = true -> forall m hint r, P (EvDemangle H m hint r)) ->
  all_events H P (demangled_symbol H s).
Proof.
  intros Hp. unfold demangled_symbol.
  destruct (can_demangle H); [|apply all_events_ret].
  specialize (Hp eq_refl).
  assert (Hh : Forall (fun c : exc_class * M H (option (DemangledObject H)) =>
                         all_events H P (snd c))
                 [(cls_DemangledException, ret H None);
                  (cls_java_lang_Exception, ret H None)]).
  { repeat constructor; apply all_events_ret. }
  apply all_events_bind.
  - apply all_events_try_except; [|exact Hh].
    apply all_events_bind; [now apply demangle_events|].
    intros [d|]; [apply all_events_ret|now apply demangle_events].
  - intros d1. apply all_events_bind.
    + destruct d1; [apply all_events_ret|].
      apply all_events_try_except; [|exact Hh]. now apply demangle_events.
    + intros [d|]; apply all_events_ret.
Qed.

Lemma symbol_name_phase_calls (symbol_name : string)
    (symbol_name_address symbol_address symbol_type : Z) :
  all_events H
    (add_symbol_event H symbol_name_address symbol_address symbol_type)
    (symbol_name_phase H symbol_name symbol_name_address).
Proof.
  unfold symbol_name_phase.
  destruct (Z.eqb_spec symbol_name_address 0) as [|Hn]; cbn [negb];
    [apply all_events_ret|].
  apply all_events_bind; [apply all_events_call; intros r; now split|].
  intros d. apply all_events_bind.
  - destruct d; [apply all_events_call; intros r; now split
                |apply all_events_ret].
  - intros _. apply all_events_try_except.
    + apply all_events_bind; [apply all_events_call; intros r; now split|].
      intros v. apply all_events_ret.
    + repeat constructor; apply all_events_ret.
Qed.

Lemma symbol_create_phase_calls (symbol_name_string : string)
    (symbol_name_address symbol_address symbol_type : Z) :
  all_events H
    (add_symbol_event H symbol_name_address symbol_address symbol_type)
    (symbol_create_phase H (vx_toAddr H symbol_address) symbol_name_string
       symbol_type).
Proof.
  unfold symbol_create_phase.
  apply all_events_bind; [apply all_events_call; intros r; reflexivity|].
  intros i. apply all_events_bind.
  { destruct i; [apply all_events_call; intros r; reflexivity
                |apply all_events_ret]. }
  intros _. apply all_events_try_except;
    [|constructor; [apply all_events_ret|constructor]].
  apply all_events_bind.
  { apply demangled_symbol_calls. intros Hc m hint r. exact Hc. }
  intros sig.
  destruct (truthy symbol_name_string &&
            existsb (Z.eqb symbol_type) need_create_function) eqn:Hf.
  - apply need_create_function_In in Hf.
    apply all_events_bind; [apply all_events_call; intros r; now split|].
    intros _.
    apply all_events_bind; [apply all_events_call; intros r; now split|].
    intros f. apply all_events_bind.
    { destruct f; apply all_events_call; intros r; cbn; auto. }
    intros _. destruct f as [f|]; [|apply all_events_ret].
    destruct sig as [signature|]; [|apply all_events_ret].
    destruct (truthy signature); [|apply all_events_ret].
    apply all_events_bind; [apply all_events_call; intros r; reflexivity|].
    intros cu. apply all_events_bind.
    { unfold setComment. destruct cu;
        [apply all_events_call; intros r; exact I|apply all_events_lift]. }
    intros _. apply all_events_bind; [apply all_events_lift|].
    intros [[fr fn] fp]. apply all_events_bind.
    { destruct fn as [name|]; [|apply all_events_ret].
      destruct (truthy name); [|apply all_events_ret].
      apply all_events_call; intros r; exact I. }
    intros _. apply all_events_call; intros r; now split.
  - apply all_events_bind; [apply all_events_call; intros r; now split|].
    intros _. destruct sig as [signature|]; [|apply all_events_ret].
    destruct (truthy signature); [|apply all_events_ret].
    apply all_events_bind; [apply all_events_call; intros r; reflexivity|].
    intros cu. unfold setComment. destruct cu;
      [apply all_events_call; intros r; exact I|apply all_events_lift].
Qed.

(** X11: [add_symbol] reads, clears and creates the string at the name
    address only, and that only for a non-null name address; instructions,
    functions, labels and code units are those of the destination address;
    it disassembles and creates a function only for the type tags 0x04 and
    0x05, calls the demangler only when demangling is enabled, and never
    creates typed data or looks up a function. *)
Theorem add_symbol_calls (symbol_name : string)
    (symbol_name_address symbol_address symbol_type : Z) :
  all_events H
    (add_symbol_event H symbol_name_address symbol_address symbol_type)
    (add_symbol H symbol_name symbol_name_address symbol_address symbol_type).
Proof.
  unfold add_symbol. apply all_events_bind.
  - apply symbol_name_phase_calls.
  - intros [name|]; [apply symbol_create_phase_calls|apply all_events_ret].
Qed.

(** *** The exceptions that reach the caller *)

Lemma escapes_ret {A : Type} Q (a : A) : escapes H Q (ret H a).
Proof. intros w e w' tr E. discriminate. Qed.

Lemma escapes_call {A : Type} (site : exn -> event H -> Prop)
    (op : World H -> answer A * World H) (ev : answer A -> event H) :
  (forall e, failure H (ev (Raises e)) = Some e /\ site e (ev (Raises e))) ->
  escapes H (at_call H site) (call H op ev).
Proof.
  intros Hs w e w' tr E. unfold call in E. destruct (op w) as [[a|e0] w1];
    [discriminate|].
  cbn in E. injection E as <- _ <-. exists [], (ev (Raises e0)).
  split; [reflexivity|apply Hs].
Qed.

Lemma escapes_impl {A : Type} (Q Q' : exn -> list (event H) -> Prop)
    (m : M H A) :
  (forall e tr, Q e tr -> Q' e tr) -> escapes H Q m -> escapes H Q' m.
Proof. intros Hi Hm w e w' tr E. eapply Hi, Hm, E. Qed.

Lemma escapes_bind {A B : Type} (Q : exn -> list (event H) -> Prop)
    (m : M H A) (k : A -> M H B) :
  (forall e t1 t2, Q e t2 -> Q e (t1 ++ t2)%list) ->
  escapes H Q m -> (forall a, escapes H Q (k a)) ->
  escapes H Q (bind H m k).
Proof.
  intros Hq Hm Hk w e w' tr E. unfold bind in E.
  destruct (m w) as [[[a|e1|] w1] t1] eqn:Em.
  - destruct (k a w1) as [[r2 w2] t2] eqn:Ek. injection E as -> <- <-.
    apply Hq. eapply Hk, Ek.
  - injection E as <- <- <-. eapply Hm, Em.
  - discriminate.
Qed.

Lemma select_clause_In {A : Type} (clauses : list (exc_class * M H A))
    (e : exn) (h : M H A) :
  select_clause H clauses e = Some h -> exists c, In (c, h) clauses.
Proof.
  induction clauses as [|[c h0] rest IH]; [discriminate|].
  cbn [select_clause]. destruct (isinstance e c).
  - intros [= <-]. exists c. now left.
  - intros E. destruct (IH E) as [c' Hc]. exists c'. now right.
Qed.

Lemma escapes_try_except {A : Type} (Q Q' : exn -> list (event H) -> Prop)
    (body : M H A) (clauses : list (exc_class * M H A)) :
  escapes H Q body ->
  (forall c h, In (c, h) clauses -> escapes H (fun _ _ => False) h) ->
  (forall e tr, Q e tr -> select_clause H clauses e = None -> Q' e tr) ->
  escapes H Q' (try_except H body clauses).
Proof.
  intros Hb Hc Hq w e w' tr E. unfold try_except in E.
  destruct (body w) as [[[a|e1|] w1] t1] eqn:Eb; try discriminate.
  destruct (select_clause H clauses e1) as [h|] eqn:Es.
  - destruct (select_clause_In _ _ _ Es) as [c Hin].
    destruct (h w1) as [[r2 w2] t2] eqn:Eh. injection E as -> _ _.
    destruct (Hc c h Hin w1 e w2 t2 Eh).
  - injection E as <- _ <-. apply Hq; [eapply Hb, Eb|exact Es].
Qed.

Lemma at_call_app (site : exn -> event H -> Prop) (e : exn)
    (t1 t2 : list (event H)) :
  at_call H site e t2 -> at_call H site e (t1 ++ t2)%list.
Proof.
  intros (tr0 & ev & -> & Hf & Hs). exists (t1 ++ tr0)%list, ev.
  now rewrite app_assoc.
Qed.

Lemma at_call_impl (site site' : exn -> event H -> Prop) (e : exn)
    (tr : list (event H)) :
  (forall ev, site e ev -> site' e ev) ->
  at_call H site e tr -> at_call H site' e tr.
Proof. intros Hi (tr0 & ev & -> & Hf & Hs). exists tr0, ev. auto. Qed.

Lemma symbol_name_phase_escapes (symbol_name : string)
    (symbol_name_address : Z) :
  escapes H (at_call H (escape_site H))
    (symbol_name_phase H symbol_name symbol_name_address).
Proof.
  unfold symbol_name_phase.
  destruct (negb _); [|apply escapes_ret].
  apply escapes_bind; [apply at_call_app| |].
  { apply escapes_call. intros e. now split. }
  intros d. apply escapes_bind; [apply at_call_app| |].
  { destruct d; [apply escapes_call; intros e; now split|apply escapes_ret]. }
  intros _.
  apply escapes_try_except
    with (Q := at_call H (fun _ ev => exists a r,
                            ev = EvCreateAsciiString H a r)).
  - apply escapes_bind; [apply at_call_app| |].
    + apply escapes_call. intros e. split; [reflexivity|eauto].
    + intros v. apply escapes_ret.
  - intros c h Hin. cbn [In] in Hin.
    destruct Hin as [[= _ <-]|[[= _ <-]|[]]]; apply escapes_ret.
  - intros e tr Hq Hs. cbn [select_clause] in Hs.
    destruct (isinstance e cls_CodeUnitInsertionException) eqn:E1;
      [discriminate|].
    destruct (isinstance e cls_BaseException) eqn:E2; [discriminate|].
    eapply at_call_impl; [|exact Hq].
    intros ev (a & r & ->). now split.
Qed.

Lemma in_try_app (e : exn) (t1 t2 : list (event H)) :
  in_try H e t2 -> in_try H e (t1 ++ t2)%list.
Proof. intros [He|Hc]; [now left|right; now apply at_call_app]. Qed.

Lemma in_try_call {A : Type} (op : World H -> answer A * World H)
    (ev : answer A -> event H) :
  (forall e, failure H (ev (Raises e)) = Some e /\
             guarded_site H e (ev (Raises e))) ->
  escapes H (in_try H) (call H op ev).
Proof.
  intros Hs. eapply escapes_impl; [|apply escapes_call, Hs].
  intros e tr Hq. now right.
Qed.

Lemma demangled_symbol_escapes (s : string) :
  escapes H (in_try H) (demangled_symbol H s).
Proof.
  unfold demangled_symbol. destruct (can_demangle H); [|apply escapes_ret].
  set (Q0 := at_call H (fun _ ev => exists m hint r,
                          ev = EvDemangle H m hint r)).
  assert (Hd : forall m hint, escapes H Q0 (demangle H m hint)).
  { intros m hint. unfold demangle. apply escapes_call. intros e.
    split; [reflexivity|eauto]. }
  assert (Hh : forall c (h : M H (option (DemangledObject H))),
             In (c, h) [(cls_DemangledException, ret H None);
                        (cls_java_lang_Exception, ret H None)] ->
             escapes H (fun _ _ => False) h).
  { intros c h Hin. cbn [In] in Hin.
    destruct Hin as [[= _ <-]|[[= _ <-]|[]]]; apply escapes_ret. }
  assert (Hq : forall e tr, Q0 e tr ->
             select_clause H [(cls_DemangledException,
                               ret H (@None (DemangledObject H)));
                              (cls_java_lang_Exception, ret H None)] e = None ->
             in_try H e tr).
  { intros e tr Hq Hs. cbn [select_clause] in Hs.
    destruct (isinstance e cls_DemangledException) eqn:E1; [discriminate|].
    destruct (isinstance e cls_java_lang_Exception) eqn:E2; [discriminate|].
    right. eapply at_call_impl; [|exact Hq].
    intros ev (m & hint & r & ->). now split. }
  apply escapes_bind; [apply in_try_app| |].
  - eapply escapes_try_except; [|exact Hh|exact Hq].
    apply escapes_bind; [apply at_call_app|apply Hd|].
    intros [d|]; [apply escapes_ret|apply Hd].
  - intros d1. apply escapes_bind; [apply in_try_app| |].
    + destruct d1; [apply escapes_ret|].
      eapply escapes_try_except; [apply Hd|exact Hh|exact Hq].
    + intros [d|]; apply escapes_ret.
Qed.

Lemma setComment_escapes (cu : option (CodeUnit H)) (text : string) :
  escapes H (in_try H) (setComment H cu text).
Proof.
  unfold setComment. destruct cu.
  - apply in_try_call. intros e. now split.
  - intros w e w' tr [= <- _ _]. now left.
Qed.

Lemma symbol_create_phase_escapes (a : Address) (symbol_name_string : string)
    (symbol_type : Z) :
  escapes H (at_call H (escape_site H))
    (symbol_create_phase H a symbol_name_string symbol_type).
Proof.
  unfold symbol_create_phase.
  apply escapes_bind; [apply at_call_app| |].
  { apply escapes_call. intros e. now split. }
  intros i. apply escapes_bind; [apply at_call_app| |].
  { destruct i; [apply escapes_call; intros e; now split|apply escapes_ret]. }
  intros _. apply escapes_try_except with (Q := in_try H).
  2:{ intros c h Hin. cbn [In] in Hin. destruct Hin as [Hin|[]].
      injection Hin as _ <-. apply escapes_ret. }
  2:{ intros e tr Hq Hs. cbn [select_clause] in Hs.
      destruct (isinstance e cls_Exception) eqn:E1; [discriminate|].
      destruct Hq as [Hq|Hq]; [congruence|].
      eapply at_call_impl; [|exact Hq].
      intros ev Hg. destruct ev; cbn in *; tauto. }
  apply escapes_bind; [apply in_try_app|apply demangled_symbol_escapes|].
  intros sig.
  destruct (truthy symbol_name_string &&
            existsb (Z.eqb symbol_type) need_create_function).
  - apply escapes_bind; [apply in_try_app| |].
    { apply in_try_call. intros e. now split. }
    intros _. apply escapes_bind; [apply in_try_app| |].
    { apply in_try_call. intros e. now split. }
    intros f. apply escapes_bind; [apply in_try_app| |].
    { destruct f; apply in_try_call; intros e; now split. }
    intros _. destruct f as [f|]; [|apply escapes_ret].
    destruct sig as [signature|]; [|apply escapes_ret].
    destruct (truthy signature) eqn:Ht; [|apply escapes_ret].
    apply escapes_bind; [apply in_try_app| |].
    { apply in_try_call. intros e. now split. }
    intros cu. apply escapes_bind;
      [apply in_try_app|apply setComment_escapes|].
    intros _. apply escapes_bind; [apply in_try_app| |].
    { intros w e w' tr E. unfold lift in E.
      destruct (demangle_function_returns signature Ht) as [t Et].
      rewrite Et in E. discriminate. }
    intros [[fr fn] fp]. apply escapes_bind; [apply in_try_app| |].
    { destruct fn as [name|]; [|apply escapes_ret].
      destruct (truthy name); [|apply escapes_ret].
      apply in_try_call. intros e. now split. }
    intros _. apply in_try_call. intros e. now split.
  - apply escapes_bind; [apply in_try_app| |].
    { apply in_try_call. intros e. now split. }
    intros _. destruct sig as [signature|]; [|apply escapes_ret].
    destruct (truthy signature); [|apply escapes_ret].
    apply escapes_bind; [apply in_try_app| |].
    { apply in_try_call. intros e. now split. }
    intros cu. apply setComment_escapes.
Qed.

(** *** Where names, comments and renamings come from *)

Ltac create_phase_paths :=
  unfold symbol_create_phase;
  unfold bind, try_except, getInstructionAt, removeInstructionAt, disassemble,
    createFunction, setName, createLabel, getCodeUnitAt, setComment, call, ret,
    lift, of_answer;
  cbn [select_clause];
  repeat (run_step; cbv beta iota); subst; try discriminate.

Ltac obtained_in_goal :=
  rewrite obtained_filter;
  repeat (cbn [filter is_demangle app] || rewrite filter_app);
  rewrite ?filter_demangle_id by assumption;
  rewrite ?app_nil_r.

Ltac not_a_demangle_call Hin :=
  try (exfalso; revert Hin; apply not_in_demangle_trace;
       [assumption|reflexivity]).

Lemma symbol_create_phase_provenance (a : Address) (n : string) (t : Z)
    (w : World H) :
  let '(r, w', tr) := symbol_create_phase H a n t w in provenance H a n tr.
Proof.
  create_phase_paths.
  all: rewrite <- ?app_assoc, ?app_nil_r; cbn [app].
  all: try match goal with
       | E : demangled_symbol H ?s ?w = (_, _, ?l) |- _ =>
           let Hd := fresh "Hd" in
           pose proof (demangled_symbol_events H s w) as Hd; rewrite E in Hd;
           destruct Hd as [Hdem Hsig]
       end.
  all: try specialize (Hsig _ eq_refl).
  all: unfold provenance.
  all: split; [intros qa qn qr Hin; split_in Hin; not_a_demangle_call Hin;
               now inversion Hin|].
  all: split; [intros qa qn qp qr Hin; split_in Hin; not_a_demangle_call Hin;
               now inversion Hin|].
  all: split;
    [ intros qc qt qr Hin; split_in Hin; not_a_demangle_call Hin;
      inversion Hin; subst; clear Hin;
      (split; [obtained_in_goal; apply Hsig; now split|in_trace])
    | intros qf qn qr Hin; split_in Hin; not_a_demangle_call Hin;
      inversion Hin; subst; clear Hin;
      (split; [in_trace|]);
      first [ left; reflexivity
            | right; do 3 eexists;
              split; [obtained_in_goal; apply Hsig; now split
                     |eassumption] ] ].
Qed.

Lemma symbol_name_phase_name (symbol_name : string) (symbol_name_address : Z)
    (w : World H) :
  let '(r, w', tr) := symbol_name_phase H symbol_name symbol_name_address w in
  (forall a v, In (EvCreateAsciiString H a (Returns v)) tr ->
     r = Ret (Some v)) /\
  ((forall a v, ~ In (EvCreateAsciiString H a (Returns v)) tr) ->
   forall name, r = Ret (Some name) -> name = symbol_name).
Proof.
  unfold symbol_name_phase.
  unfold bind, try_except, getDataAt, removeDataAt, createAsciiString, call,
    ret, of_answer.
  cbn [select_clause].
  repeat (run_step; cbv beta iota); subst; try discriminate.
  all: rewrite <- ?app_assoc, ?app_nil_r; cbn [app].
  all: split;
    [ intros qa qv Hin; split_in Hin; now inversion Hin
    | intros Hno name [= <-]; try reflexivity;
      exfalso; eapply Hno; in_trace ].
Qed.

Lemma create_phase_no_name_event (a : Address) (n : string) (t : Z)
    (w : World H) r w' tr (ev : event H) :
  symbol_create_phase H a n t w = (r, w', tr) ->
  is_name_event H ev = true -> ~ In ev tr.
Proof.
  intros E He Hin. pose proof (symbol_create_phase_events H a n t w) as Hc.
  rewrite E in Hc. rewrite Forall_forall in Hc. apply Hc in Hin. congruence.
Qed.

(** X13: in one run of [add_symbol] every function and label is created
    under one and the same name: the string [createAsciiString] returned, or
    the caller's [symbol_name] when it returned none. *)
Theorem add_symbol_names (symbol_name : string)
    (symbol_name_address symbol_address symbol_type : Z) (w : World H)
    r w' tr :
  add_symbol H symbol_name symbol_name_address symbol_address symbol_type w
  = (r, w', tr) ->
  exists name,
    (forall a v, In (EvCreateAsciiString H a (Returns v)) tr -> v = name) /\
    ((forall a v, ~ In (EvCreateAsciiString H a (Returns v)) tr) ->
     name = symbol_name) /\
    (forall a n r0, In (EvCreateFunction H a n r0) tr -> n = name) /\
    (forall a n p r0, In (EvCreateLabel H a n p r0) tr -> n = name).
Proof.
  intros E. apply add_symbol_run in E.
  destruct E as (r1 & w1 & t1 & E1 & Hr).
  pose proof (symbol_name_phase_run H symbol_name symbol_name_address w) as Hn.
  pose proof (symbol_name_phase_name symbol_name symbol_name_address w) as Hv.
  rewrite E1 in Hn, Hv. destruct Hn as [Hn _]. destruct Hv as [Hret Hdef].
  assert (Hquiet : forall ev, is_name_event H ev = false -> ~ In ev t1).
  { intros ev. now apply name_events_absent. }
  destruct r1 as [[name|]|e|].
  - destruct Hr as (t2 & E2 & ->).
    pose proof (symbol_create_phase_provenance (vx_toAddr H symbol_address)
                  name symbol_type w1) as Hp.
    rewrite E2 in Hp. destruct Hp as (Hf & Hl & _).
    assert (Hlate : forall ev, is_name_event H ev = true -> ~ In ev t2).
    { intros ev. eapply create_phase_no_name_event, E2. }
    exists name. split; [|split; [|split]].
    + intros a v Hin. apply in_app_iff in Hin. destruct Hin as [Hin|Hin].
      * apply Hret in Hin. congruence.
      * now apply Hlate in Hin.
    + intros Hno. apply Hdef; [|reflexivity].
      intros a v Hin. apply (Hno a v). apply in_app_iff. now left.
    + intros a n r0 Hin. apply in_app_iff in Hin. destruct Hin as [Hin|Hin].
      * now apply Hquiet in Hin.
      * eapply Hf, Hin.
    + intros a n p r0 Hin. apply in_app_iff in Hin. destruct Hin as [Hin|Hin].
      * now apply Hquiet in Hin.
      * eapply Hl, Hin.
  - destruct Hr as (_ & _ & ->). exists symbol_name.
    split; [|split; [|split]]; try reflexivity.
    + intros a v Hin. apply Hret in Hin. discriminate.
    + intros a n r0 Hin. now apply Hquiet in Hin.
    + intros a n p r0 Hin. now apply Hquiet in Hin.
  - destruct Hr as (_ & _ & ->). exists symbol_name.
    split; [|split; [|split]]; try reflexivity.
    + intros a v Hin. apply Hret in Hin. discriminate.
    + intros a n r0 Hin. now apply Hquiet in Hin.
    + intros a n p r0 Hin. now apply Hquiet in Hin.
  - destruct Hr as (_ & _ & ->). exists symbol_name.
    split; [|split; [|split]]; try reflexivity.
    + intros a v Hin. apply Hret in Hin. discriminate.
    + intros a n r0 Hin. now apply Hquiet in Hin.
    + intros a n p r0 Hin. now apply Hquiet in Hin.
Qed.

(** X14: a plate comment that [add_symbol] sets is a signature the
    demangler gave in this run, set on the code unit found at the destination
    address; a function that is renamed is the one created at the destination
    address, and its new name is the name it was created under or the name
    [demangle_function] found in such a signature. *)
Theorem add_symbol_annotations (symbol_name : string)
    (symbol_name_address symbol_address symbol_type : Z) (w : World H)
    r w' tr :
  add_symbol H symbol_name symbol_name_address symbol_address symbol_type w
  = (r, w', tr) ->
  (forall cu text r0, In (EvSetComment H cu text r0) tr ->
     obtained H tr text /\
     In (EvGetCodeUnitAt H (vx_toAddr H symbol_address) (Returns (Some cu)))
       tr) /\
  (forall f n r0, In (EvSetName H f n r0) tr ->
     exists name,
       In (EvCreateFunction H (vx_toAddr H symbol_address) name
             (Returns (Some f))) tr /\
       (n = name \/
        exists signature function_return function_parameters,
          obtained H tr signature /\
          demangle_function signature =
          Ret (function_return, Some n, function_parameters))).
Proof.
  intros E. apply add_symbol_run in E.
  destruct E as (r1 & w1 & t1 & E1 & Hr).
  pose proof (symbol_name_phase_run H symbol_name symbol_name_address w) as Hn.
  rewrite E1 in Hn. destruct Hn as [Hn _].
  assert (Hquiet : forall ev, is_name_event H ev = false -> ~ In ev t1).
  { intros ev. now apply name_events_absent. }
  destruct r1 as [[name|]|e|].
  - destruct Hr as (t2 & E2 & ->).
    pose proof (symbol_create_phase_provenance (vx_toAddr H symbol_address)
                  name symbol_type w1) as Hp.
    rewrite E2 in Hp. destruct Hp as (_ & _ & Hc & Hs). split.
    + intros cu text r0 Hin. apply in_app_iff in Hin.
      destruct Hin as [Hin|Hin]; [now apply Hquiet in Hin|].
      destruct (Hc _ _ _ Hin) as [Ho Hg]. split.
      * apply obtained_app. now right.
      * apply in_app_iff. now right.
    + intros f n r0 Hin. apply in_app_iff in Hin.
      destruct Hin as [Hin|Hin]; [now apply Hquiet in Hin|].
      destruct (Hs _ _ _ Hin) as [Hf Hname]. exists name. split.
      * apply in_app_iff. now right.
      * destruct Hname as [->|(sig & fr & fp & Ho & Ed)]; [now left|].
        right. exists sig, fr, fp. split; [|exact Ed].
        apply obtained_app. now right.
  - destruct Hr as (_ & _ & ->).
    split; intros ? ? ? Hin; now apply Hquiet in Hin.
  - destruct Hr as (_ & _ & ->).
    split; intros ? ? ? Hin; now apply Hquiet in Hin.
  - destruct Hr as (_ & _ & ->).
    split; intros ? ? ? Hin; now apply Hquiet in Hin.
Qed.

(** *** After a failure of [createAsciiString] *)






(** ** Which failures reach the caller *)

Lemma symbol_name_phase_unguarded (symbol_name : string)
    (symbol_name_address : Z) (w : World H) :
  let '(r, w', tr) := symbol_name_phase H symbol_name symbol_name_address w in
  forall ev e, In ev tr -> unguarded H ev -> failure H ev = Some e ->
    r = Exc e /\ exists tr0, tr = (tr0 ++ [ev])%list.
Proof.
  unfold symbol_name_phase.
  unfold bind, try_except, getDataAt, removeDataAt, createAsciiString, call,
    ret, of_answer.
  cbn [select_clause].
  repeat (run_step; cbv beta iota); subst; try discriminate.
  all: rewrite <- ?app_assoc, ?app_nil_r; cbn [app].
  all: intros ev e0 Hin Hu Hf; split_in Hin; subst ev;
    cbn [unguarded failure thrown] in Hu, Hf;
    try contradiction; try discriminate.
  all: injection Hf as <-; split; [reflexivity|].
  all: first [ exists []; reflexivity | eexists [_]; reflexivity ].
Qed.

Lemma symbol_create_phase_unguarded (a : Address) (n : string) (t : Z)
    (w : World H) :
  let '(r, w', tr) := symbol_create_phase H a n t w in
  forall ev e, In ev tr -> unguarded H ev -> failure H ev = Some e ->
    r = Exc e /\ exists tr0, tr = (tr0 ++ [ev])%list.
Proof.
  create_phase_paths.
  all: rewrite <- ?app_assoc, ?app_nil_r; cbn [app].
  all: try match goal with
       | E : demangled_symbol H ?s ?w = (_, _, ?l) |- _ =>
           let Hd := fresh "Hd" in
           pose proof (demangled_symbol_events H s w) as Hd; rewrite E in Hd;
           destruct Hd as [Hdem _]
       end.
  all: intros ev e0 Hin Hu Hf; split_in Hin.
  all: try (exfalso; rewrite Forall_forall in Hdem; apply Hdem in Hin;
            destruct ev; cbn in Hin, Hu; solve [discriminate|contradiction]).
  all: subst ev; cbn [unguarded failure thrown] in Hu, Hf;
    try contradiction; try discriminate.
  all: injection Hf as <-; split; [reflexivity|].
  all: first [ exists []; reflexivity | eexists [_]; reflexivity ].
Qed.

(** X12: of the calls of [add_symbol], [getDataAt], [removeDataAt],
    [getInstructionAt] and [removeInstructionAt] stand outside every [try]:
    when one of them fails, [add_symbol] ends with its exception, and that
    call is the last one made.  Conversely an exception [add_symbol] ends
    with is the failure of the last call made, and one that
    [except Exception] takes can only come from one of these four calls. *)
Theorem add_symbol_escapes (symbol_name : string)
    (symbol_name_address symbol_address symbol_type : Z) (w : World H)
    r w' tr :
  add_symbol H symbol_name symbol_name_address symbol_address symbol_type w
  = (r, w', tr) ->
  (forall ev e, In ev tr -> unguarded H ev -> failure H ev = Some e ->
     r = Exc e /\ exists tr0, tr = (tr0 ++ [ev])%list) /\
  (forall e, r = Exc e ->
     exists tr0 ev,
       tr = (tr0 ++ [ev])%list /\ failure H ev = Some e /\
       (isinstance e cls_Exception = true -> unguarded H ev)).
Proof.
  intros E. split.
  - destruct (add_symbol_run _ _ _ _ _ _ _ _ _ E) as (r1 & w1 & t1 & E1 & Hr).
    pose proof (symbol_name_phase_unguarded symbol_name symbol_name_address w)
      as Hn.
    rewrite E1 in Hn. intros ev e Hin Hu Hf.
    destruct r1 as [[name|]|e1|].
    + destruct Hr as (t2 & E2 & ->). apply in_app_iff in Hin.
      destruct Hin as [Hin|Hin].
      { destruct (Hn ev e Hin Hu Hf) as [Hx _]. discriminate. }
      pose proof (symbol_create_phase_unguarded (vx_toAddr H symbol_address)
                    name symbol_type w1) as Hc.
      rewrite E2 in Hc. destruct (Hc ev e Hin Hu Hf) as [-> [tr0 ->]].
      split; [reflexivity|]. exists (t1 ++ tr0)%list. now rewrite app_assoc.
    + destruct Hr as (_ & _ & ->).
      destruct (Hn ev e Hin Hu Hf) as [Hx _]. discriminate.
    + destruct Hr as (-> & _ & ->).
      destruct (Hn ev e Hin Hu Hf) as [[= ->] Hlast]. now split.
    + destruct Hr as (_ & _ & ->).
      destruct (Hn ev e Hin Hu Hf) as [Hx _]. discriminate.
  - intros e ->.
    assert (Hs : escapes H (at_call H (escape_site H))
                   (add_symbol H symbol_name symbol_name_address symbol_address
                      symbol_type)).
    { unfold add_symbol. apply escapes_bind; [apply at_call_app| |].
      - apply symbol_name_phase_escapes.
      - intros [name|]; [apply symbol_create_phase_escapes|apply escapes_ret]. }
    destruct (Hs _ _ _ _ E) as (tr0 & ev & -> & Hf & Hsite).
    exists tr0, ev. split; [reflexivity|]. split; [exact Hf|].
    intros He. destruct ev; cbn [escape_site unguarded] in *; try exact I;
      try congruence; destruct e; cbn in *; intuition discriminate.
Qed.

End MoreMaterializerFacts.

(** ** The further facts at work *)

Lemma demangle_function_name_accepted_witness :
  demangle_function "void Foo::Bar(int, char*)" =
    Ret (Some "void", Some "Foo::Bar", Some "(int, char*)") /\
  check_is_func_name "Foo::Bar" = true.
Proof.
  match goal with
  | |- ?L = ?R /\ _ => assert (E : L = R) by reflexivity
  end.
  split; [exact E|].
  exact (demangle_function_name_accepted _ _ _ _ E).
Defined.

Lemma demangle_function_cuts_the_input_witness :
  demangle_function "unsigned int List<int>::size() const" =
    Ret (Some "unsigned int List<int>::size()", Some "const",
         Some EmptyString) /\
  (exists pre,
     "unsigned int List<int>::size() const" = (pre ++ EmptyString)%string) /\
  (exists post,
     "unsigned int List<int>::size() const" =
     ("unsigned int List<int>::size()" ++ post)%string).
Proof.
  match goal with
  | |- ?L = ?R /\ _ => assert (E : L = R) by reflexivity
  end.
  split; [exact E|].
  destruct (demangle_function_cuts_the_input _ _ _ _ E) as [Hp Hr].
  split; [exact Hp|exact (Hr _ eq_refl)].
Defined.

Lemma demangle_function_reassembles_witness :
  demangle_function "int main(void)" =
    Ret (Some "int", Some "main", Some "(void)") /\
  "int main(void)" = ("int" ++ " " ++ "main" ++ "(void)")%string.
Proof.
  match goal with
  | |- ?L = ?R /\ _ => assert (E : L = R) by reflexivity
  end.
  split; [exact E|].
  exact (demangle_function_reassembles _ _ _ _ E).
Defined.

Lemma is_vx_symbol_file_accepted_witness :
  is_vx_symbol_file example_symbol_file true = Ret true /\
  7 <= PyStr.len example_symbol_file < 4294967296 /\
  is_vx_symbol_file (example_symbol_file ++ "x") true = Ret false.
Proof.
  assert (E : is_vx_symbol_file example_symbol_file true = Ret true)
    by reflexivity.
  split; [exact E|].
  destruct (is_vx_symbol_file_accepted example_symbol_file true E) as [Hb Hm].
  split; [exact Hb|]. apply Hm. discriminate.
Defined.

Lemma create_struct_contained_witness :
  let tr :=
    [EvRemoveDataAt plain_host (mkAddress 0x2000) (Returns tt);
     EvRemoveDataAt plain_host (mkAddress 0x2001) (Returns tt);
     EvCreateData plain_host (mkAddress 0x2000) vx_5_cl_buff (Returns tt)] in
  create_struct plain_host (mkAddress 0x2000) vx_5_cl_buff true tt =
    (Ret tt, tt, tr) /\
  Forall (is_struct_event plain_host) tr /\
  Forall (removal_returned plain_host) tr.
Proof.
  intros tr.
  assert (E : create_struct plain_host (mkAddress 0x2000) vx_5_cl_buff true tt =
              (Ret tt, tt, tr)) by reflexivity.
  split; [exact E|].
  destruct (create_struct_contained plain_host _ _ _ _ _ _ _ E)
    as (_ & _ & Hs & Hc).
  split; [exact Hs|].
  apply (Hc (mkAddress 0x2000) vx_5_cl_buff (Returns tt)).
  unfold tr. in_trace.
Defined.

Lemma fix_clpool_record_witness :
  fix_clpool pool_host 1 (mkAddress 0) 5 tt = (Ret None, tt, []) /\
  fix_clpool pool_host 1 (mkAddress 0x20000) 5 tt = (Ret None, tt, []) /\
  fix_clpool pool_host 1 (mkAddress 0x7100) 5 tt =
    (Ret (Some {| cl_pool_addr := 0x7100; cl_pool_size := Some 64;
                  cl_pool_num := Some 10; cl_pool_num_free := Some 7;
                  cl_pool_usage := Some 3; cl_head_addr := Some 0 |}),
     tt,
     [EvRemoveDataAt pool_host (mkAddress 0x7100) (Returns tt);
      EvRemoveDataAt pool_host (mkAddress 0x7101) (Returns tt);
      EvCreateData pool_host (mkAddress 0x7100) vx_5_clPool (Returns tt)]) /\
  exists v, getInt pool_host (mkAddress (0x7100 + 0x08)) = Returns v /\
            Some 10 = Some v.
Proof.
  split.
  { apply (proj1 (fix_clpool_record pool_host 1 (mkAddress 0) tt)).
    left. reflexivity. }
  split.
  { apply (proj1 (fix_clpool_record pool_host 1 (mkAddress 0x20000) tt)).
    right. reflexivity. }
  match goal with
  | |- ?L = ?R /\ _ => assert (E : L = R) by reflexivity
  end.
  split; [exact E|].
  exact (proj1 (proj2 (proj2 (proj2 (proj2
           (proj2 (fix_clpool_record pool_host 1 (mkAddress 0x7100) tt)
              _ _ _ E)))))).
Defined.

Lemma fix_tcb_record_witness :
  fix_tcb pool_host (mkAddress 0x7000) 5 tt =
    (Ret (Some {| tcb_addr := 0x7000; task_name := None;
                  task_entry_addr := Some 0; task_entry_name := None;
                  task_stack_base := Some 0; task_stack_limit := Some 0;
                  task_stack_limit_end := Some 0 |}),
     tt,
     [EvRemoveDataAt pool_host (mkAddress 0x7000) (Returns tt);
      EvRemoveDataAt pool_host (mkAddress 0x7001) (Returns tt);
      EvCreateData pool_host (mkAddress 0x7000) vx_5_wind_tcb (Returns tt);
      EvGetDataAt pool_host (mkAddress 0) (Returns None);
      EvGetFunctionAt pool_host (mkAddress 0) (Returns None)]) /\
  exists v, getInt pool_host (mkAddress (0x7000 + 0x78)) = Returns v /\
            Some 0 = Some (getOffset (toAddr pool_host v)).
Proof.
  match goal with
  | |- ?L = ?R /\ _ => assert (E : L = R) by reflexivity
  end.
  split; [exact E|].
  exact (proj1 (proj2 (proj2 (proj2
           (fix_tcb_record pool_host (mkAddress 0x7000) tt _ _ _ E))))).
Defined.

Lemma fix_netpool_cl_pool_info_witness :
  let pool :=
    {| cl_pool_addr := 0x7100; cl_pool_size := Some 64;
       cl_pool_num := Some 10; cl_pool_num_free := Some 7;
       cl_pool_usage := Some 3; cl_head_addr := Some 0 |} in
  fix_netpool pool_host 1 (mkAddress 0x7000) 5 tt =
    (Ret (Some {| pool_addr := 0x7000; pool_table_addr := Some 0x7024;
                  pool_status_addr := Some 0x7024;
                  pool_func_tbl_addr := Some 0; cl_pool_info := [pool] |}),
     tt,
     [EvRemoveDataAt pool_host (mkAddress 0x7000) (Returns tt);
      EvRemoveDataAt pool_host (mkAddress 0x7001) (Returns tt);
      EvCreateData pool_host (mkAddress 0x7000) vx_5_net_pool (Returns tt);
      EvRemoveDataAt pool_host (mkAddress 0x7100) (Returns tt);
      EvRemoveDataAt pool_host (mkAddress 0x7101) (Returns tt);
      EvCreateData pool_host (mkAddress 0x7100) vx_5_clPool (Returns tt);
      EvRemoveDataAt pool_host (mkAddress 0) (Returns tt);
      EvRemoveDataAt pool_host (mkAddress 1) (Returns tt);
      EvCreateData pool_host (mkAddress 0) vx_5_pool_stat (Returns tt)]) /\
  Forall (table_entry pool_host (mkAddress (0x7000 + 0x24))) [pool].
Proof.
  intros pool.
  match goal with
  | |- ?L = ?R /\ _ => assert (E : L = R) by reflexivity
  end.
  split; [exact E|].
  exact (proj2 (proj2 (proj2
           (fix_netpool_cl_pool_info pool_host 1 (mkAddress 0x7000) tt _ _ _
              E)))).
Defined.

Lemma fix_cl_buff_chain_never_returns_witness :
  getOffset (mkAddress 0x6000) <> 0 /\
  looping_buffers 0 = mkAddress 0x6000 /\
  fst (fst (fix_cl_buff_chain looping_host 1000 (mkAddress 0x6000) 5 tt)) =
  OutOfFuel.
Proof.
  split; [discriminate|]. split; [reflexivity|].
  apply (fix_cl_buff_chain_never_returns looping_host (mkAddress 0x6000)
           looping_buffers 1000 tt); [discriminate|reflexivity|].
  intros [|n]; (split; [reflexivity|split; [eexists; split; reflexivity|
                                            discriminate]]).
Defined.

Lemma add_symbol_escapes_witness :
  let tr :=
    [EvGetDataAt unreadable_host (mkAddress 0x2000) (Returns None);
     EvCreateAsciiString unreadable_host (mkAddress 0x2000) (Returns "usrInit");
     EvGetInstructionAt unreadable_host (mkAddress 0x1000)
       (Raises (PyException "TypeError"))] in
  add_symbol unreadable_host "0x00001000" 0x2000 0x1000 0x04 tt =
    (Exc (PyException "TypeError"), tt, tr) /\
  exists tr0 ev,
    tr = (tr0 ++ [ev])%list /\
    failure unreadable_host ev = Some (PyException "TypeError") /\
    (isinstance (PyException "TypeError") cls_Exception = true ->
     unguarded unreadable_host ev).
Proof.
  intros tr.
  assert (E : add_symbol unreadable_host "0x00001000" 0x2000 0x1000 0x04 tt =
              (Exc (PyException "TypeError"), tt, tr)) by reflexivity.
  split; [exact E|].
  exact (proj2 (add_symbol_escapes unreadable_host _ _ _ _ _ _ _ _ E)
           _ eq_refl).
Defined.

Lemma add_symbol_names_witness :
  let tr :=
    [EvGetDataAt demangling_host (mkAddress 0x2000) (Returns None);
     EvCreateAsciiString demangling_host (mkAddress 0x2000) (Returns "_Z3fooi");
     EvGetInstructionAt demangling_host (mkAddress 0x1000) (Returns false);
     EvDemangle demangling_host "_Z3fooi" true (Returns (Some "foo(int)"));
     EvDisassemble demangling_host (mkAddress 0x1000) (Returns tt);
     EvCreateFunction demangling_host (mkAddress 0x1000) "_Z3fooi"
       (Returns (Some (mkAddress 0x1000)));
     EvSetName demangling_host (mkAddress 0x1000) "_Z3fooi" (Returns tt);
     EvGetCodeUnitAt demangling_host (mkAddress 0x1000)
       (Returns (Some (mkAddress 0x1000)));
     EvSetComment demangling_host (mkAddress 0x1000) "foo(int)" (Returns tt);
     EvSetName demangling_host (mkAddress 0x1000) "foo" (Returns tt);
     EvCreateLabel demangling_host (mkAddress 0x1000) "_Z3fooi" true
       (Returns tt)] in
  add_symbol demangling_host "0x00001000" 0x2000 0x1000 0x04 tt =
    (Ret tt, tt, tr) /\
  exists name,
    (forall a v,
       In (EvCreateAsciiString demangling_host a (Returns v)) tr -> v = name) /\
    ((forall a v, ~ In (EvCreateAsciiString demangling_host a (Returns v)) tr) ->
     name = "0x00001000") /\
    (forall a n r0,
       In (EvCreateFunction demangling_host a n r0) tr -> n = name) /\
    (forall a n p r0,
       In (EvCreateLabel demangling_host a n p r0) tr -> n = name).
Proof.
  intros tr.
  assert (E : add_symbol demangling_host "0x00001000" 0x2000 0x1000 0x04 tt =
              (Ret tt, tt, tr)) by reflexivity.
  split; [exact E|].
  exact (add_symbol_names demangling_host _ _ _ _ _ _ _ _ E).
Defined.

Lemma add_symbol_annotations_witness :
  let tr :=
    [EvGetDataAt demangling_host (mkAddress 0x2000) (Returns None);
     EvCreateAsciiString demangling_host (mkAddress 0x2000) (Returns "_Z3fooi");
     EvGetInstructionAt demangling_host (mkAddress 0x1000) (Returns false);
     EvDemangle demangling_host "_Z3fooi" true (Returns (Some "foo(int)"));
     EvDisassemble demangling_host (mkAddress 0x1000) (Returns tt);
     EvCreateFunction demangling_host (mkAddress 0x1000) "_Z3fooi"
       (Returns (Some (mkAddress 0x1000)));
     EvSetName demangling_host (mkAddress 0x1000) "_Z3fooi" (Returns tt);
     EvGetCodeUnitAt demangling_host (mkAddress 0x1000)
       (Returns (Some (mkAddress 0x1000)));
     EvSetComment demangling_host (mkAddress 0x1000) "foo(int)" (Returns tt);
     EvSetName demangling_host (mkAddress 0x1000) "foo" (Returns tt);
     EvCreateLabel demangling_host (mkAddress 0x1000) "_Z3fooi" true
       (Returns tt)] in
  add_symbol demangling_host "0x00001000" 0x2000 0x1000 0x04 tt =
    (Ret tt, tt, tr) /\
  obtained demangling_host tr "foo(int)" /\
  In (EvGetCodeUnitAt demangling_host (mkAddress 0x1000)
        (Returns (Some (mkAddress 0x1000)))) tr.
Proof.
  intros tr.
  assert (E : add_symbol demangling_host "0x00001000" 0x2000 0x1000 0x04 tt =
              (Ret tt, tt, tr)) by reflexivity.
  split; [exact E|].
  apply (proj1 (add_symbol_annotations demangling_host _ _ _ _ _ _ _ _ E)
           (mkAddress 0x1000) "foo(int)" (Returns tt)).
  unfold tr. in_trace.
Defined.

